(** * ResumeAI backend: job-description resolution and the ATS optimization loop

    A shallow embedding of the agent pipeline of [backend/app]:
    - [agents/base_agent.py]       the [run] wrapper and its result envelope;
    - [agents/jd_extractor.py]     job-description resolution and the merge
                                   of the provider's structured answer;
    - [services/web_scraper.py]    URL dispatch, URL-pattern fallback;
    - [services/llm_service.py]    [extract_json], [calculate_ats_score],
                                   [optimize_resume], and the gap analysis
                                   used when the provider fails;
    - [agents/ats_scorer.py], [agents/optimizer_agent.py];
    - [api/resume.py]              the optimization loop of [generate_resume].

    Python dictionaries are finite maps from strings to dynamically typed
    values, exceptions are an explicit error result, and the calls that
    leave the process (HTTP fetch, text generation) are answered by an
    environment and recorded in a trace. *)

From Stdlib Require Import ZArith QArith String Ascii List Lia Bool DecimalString.
From Stdlib Require SpecFloat.
From stdpp Require Import base option strings gmap list.

Local Open Scope string_scope.
Local Open Scope Z_scope.

(* ===================================================================== *)
(** ** Python values *)
(* ===================================================================== *)

Module Py.

(** Dynamically typed values.  A finite [float] is represented by its exact
    rational value (Python compares ints and floats exactly); NaN and the
    infinities are outside the model.  Strings are sequences of code points
    below 256. *)
#[warnings="-register-all"]
Inductive pyval : Type :=
  | PNone
  | PBool (b : bool)
  | PInt (z : Z)
  | PFloat (q : Q)
  | PStr (s : string)
  | PList (l : list pyval)
  | PDict (d : gmap string pyval).

(** An exception: [type(e).__name__] and [str(e)]. *)
Inductive exn : Type := Exn (ty : string) (msg : string).

Definition exn_type (e : exn) : string := let 'Exn ty _ := e in ty.
Definition exn_msg (e : exn) : string := let 'Exn _ msg := e in msg.

Inductive result (A : Type) : Type :=
  | Ok (a : A)
  | Raise (e : exn).
Arguments Ok {A} a.
Arguments Raise {A} e.

(** Truth value testing ([if value:], [not value], [a and b]). *)
Definition truthy (v : pyval) : bool :=
  match v with
  | PNone => false
  | PBool b => b
  | PInt z => negb (z =? 0)
  | PFloat q => negb (Qnum q =? 0)
  | PStr s => negb (String.eqb s "")
  | PList l => match l with [] => false | _ => true end
  | PDict d => negb (bool_decide (d = ∅))
  end.

(** [d.get(k)] and [d.get(k, default)]. *)
Definition get (d : gmap string pyval) (k : string) : pyval :=
  default PNone (d !! k).

Definition get_or (d : gmap string pyval) (k : string) (dflt : pyval) : pyval :=
  default dflt (d !! k).

(** [d[k]]. *)
Definition getitem (d : gmap string pyval) (k : string) : result pyval :=
  match d !! k with
  | Some v => Ok v
  | None => Raise (Exn "KeyError" k)
  end.

(** The numeric value of an [int], [bool] or [float]. *)
Definition num_of (v : pyval) : option Q :=
  match v with
  | PBool b => Some (inject_Z (if b then 1 else 0))
  | PInt z => Some (inject_Z z)
  | PFloat q => Some q
  | _ => None
  end.

Definition is_number (v : pyval) : bool :=
  match num_of v with Some _ => true | None => false end.

(** [type(v).__name__]. *)
Definition type_name (v : pyval) : string :=
  match v with
  | PNone => "NoneType"
  | PBool _ => "bool"
  | PInt _ => "int"
  | PFloat _ => "float"
  | PStr _ => "str"
  | PList _ => "list"
  | PDict _ => "dict"
  end.

(** The [TypeError] of a comparison [a op b] that neither operand supports. *)
Definition not_supported (op : string) (a b : pyval) : exn :=
  Exn "TypeError"
    ("'" ++ op ++ "' not supported between instances of '" ++ type_name a
     ++ "' and '" ++ type_name b ++ "'").

(** [a < b] where one side is a number: a [TypeError] unless both are. *)
Definition py_lt (a b : pyval) : result bool :=
  match num_of a, num_of b with
  | Some x, Some y => Ok (match Qcompare x y with Lt => true | _ => false end)
  | _, _ => Raise (not_supported "<" a b)
  end.

Definition py_gt (a b : pyval) : result bool :=
  match num_of a, num_of b with
  | Some x, Some y => Ok (match Qcompare x y with Gt => true | _ => false end)
  | _, _ => Raise (not_supported ">" a b)
  end.

Definition py_ge (a b : pyval) : result bool :=
  match num_of a, num_of b with
  | Some x, Some y => Ok (match Qcompare x y with Lt => false | _ => true end)
  | _, _ => Raise (not_supported ">=" a b)
  end.

(** [min(a, b)] keeps its first argument unless the second is smaller;
    [max(a, b)] keeps its first argument unless the second is greater. *)
Definition py_min (a b : pyval) : result pyval :=
  match py_lt b a with
  | Ok c => Ok (if c then b else a)
  | Raise e => Raise e
  end.

Definition py_max (a b : pyval) : result pyval :=
  match py_gt b a with
  | Ok c => Ok (if c then b else a)
  | Raise e => Raise e
  end.

(** [x + 1] on an iteration counter. *)
Definition py_succ (v : pyval) : result pyval :=
  match v with
  | PInt z => Ok (PInt (z + 1))
  | PBool b => Ok (PInt ((if b then 1 else 0) + 1))
  | PFloat q => Ok (PFloat (q + 1)%Q)
  | _ => Raise (Exn "TypeError" "unsupported operand type(s) for +")
  end.

(** [l.append(x)]. *)
Definition py_append (l x : pyval) : result pyval :=
  match l with
  | PList xs => Ok (PList (xs ++ [x])%list)
  | _ => Raise (Exn "AttributeError" "object has no attribute 'append'")
  end.

(** [len(x)] of a list, string or dict. *)
Definition py_len (v : pyval) : result Z :=
  match v with
  | PList xs => Ok (Z.of_nat (List.length xs))
  | PStr s => Ok (Z.of_nat (String.length s))
  | PDict d => Ok (Z.of_nat (size d))
  | _ => Raise (Exn "TypeError" "object has no len()")
  end.

End Py.
Export Py.

(* ===================================================================== *)
(** ** String operations *)
(* ===================================================================== *)

Module Str.

Definition nl : string := String "010"%char "".
Definition dquote : string := String "034"%char "".
Definition backslash : string := String "092"%char "".

(** [str.isspace] on the code points below 256. *)
Definition is_space (c : ascii) : bool :=
  let n := nat_of_ascii c in
  ((9 <=? n)%nat && (n <=? 13)%nat) || ((28 <=? n)%nat && (n <=? 32)%nat)
  || (n =? 133)%nat || (n =? 160)%nat.

Fixpoint lstrip (s : string) : string :=
  match s with
  | String c s' => if is_space c then lstrip s' else s
  | EmptyString => EmptyString
  end.

(** [rstrip]: a character is dropped when it is a space and everything to
    its right has been dropped. *)
Fixpoint rstrip (s : string) : string :=
  match s with
  | String c s' =>
      match rstrip s' with
      | EmptyString => if is_space c then EmptyString else String c EmptyString
      | r => String c r
      end
  | EmptyString => EmptyString
  end.

Definition strip (s : string) : string := rstrip (lstrip s).

Definition len (s : string) : Z := Z.of_nat (String.length s).

(** [s[:n]] for a non-negative literal [n]. *)
Definition take (n : nat) (s : string) : string := String.substring 0 n s.

Definition startswith (p s : string) : bool := String.prefix p s.

(** [needle in hay]. *)
Fixpoint contains (needle hay : string) : bool :=
  String.prefix needle hay ||
  match hay with
  | String _ hay' => contains needle hay'
  | EmptyString => false
  end.

(** [s.replace(a, b)] for one-character [a] and [b]. *)
Fixpoint replace_char (a b : ascii) (s : string) : string :=
  match s with
  | String c s' => String (if Ascii.eqb c a then b else c) (replace_char a b s')
  | EmptyString => EmptyString
  end.

(** Case on the code points below 256, as [str.lower] and [str.title]
    have it.  [is_upper]: the letters that [str.lower] changes (A-Z, and
    the accented capitals 192-214 and 216-222); their lower case is 32 code
    points above.  [is_lower]: the letters whose upper case is 32 code
    points below (a-z, 224-246, 248-254). *)
Definition in_range (lo hi : nat) (c : ascii) : bool :=
  let n := nat_of_ascii c in (lo <=? n)%nat && (n <=? hi)%nat.
Definition is_lower (c : ascii) : bool :=
  in_range 97 122 c || in_range 224 246 c || in_range 248 254 c.
Definition is_upper (c : ascii) : bool :=
  in_range 65 90 c || in_range 192 214 c || in_range 216 222 c.
Definition is_digit (c : ascii) : bool :=
  let n := nat_of_ascii c in (48 <=? n)%nat && (n <=? 57)%nat.
Definition to_upper (c : ascii) : ascii :=
  if is_lower c then ascii_of_nat (nat_of_ascii c - 32) else c.
Definition to_lower (c : ascii) : ascii :=
  if is_upper c then ascii_of_nat (nat_of_ascii c + 32) else c.

(** The cased code points: the letters above and the five lower-case code
    points 170, 181, 186, 223 and 255. *)
Definition is_cased (c : ascii) : bool :=
  let n := nat_of_ascii c in
  is_upper c || is_lower c
  || (n =? 170)%nat || (n =? 181)%nat || (n =? 186)%nat || (n =? 223)%nat
  || (n =? 255)%nat.

(** The title case of one code point; that of 223 is the two letters Ss. *)
Definition to_title (c : ascii) : string :=
  if (nat_of_ascii c =? 223)%nat then "Ss" else String (to_upper c) "".

(** The title case of the code points 181 and 255 lies above 255, outside
    the strings of this model: [to_title] leaves these two as they are, and
    a statement about the text of a title assumes [title_closed] of it. *)
Definition title_closed (c : ascii) : bool :=
  let n := nat_of_ascii c in negb (n =? 181)%nat && negb (n =? 255)%nat.

(** [str.title]: a code point that follows an uncased one is put in title
    case, one that follows a cased one is put in lower case. *)
Fixpoint title_from (previous_is_cased : bool) (s : string) : string :=
  match s with
  | String c s' =>
      (if previous_is_cased then String (to_lower c) "" else to_title c)
      ++ title_from (is_cased c) s'
  | EmptyString => EmptyString
  end.

Definition title (s : string) : string := title_from false s.

(** Decimal rendering of an integer, as [str(int)] and f-strings do. *)
Definition of_Z (z : Z) : string := NilEmpty.string_of_int (Z.to_int z).

End Str.

(* ===================================================================== *)
(** ** The fragment of [re] used by the scraper *)
(* ===================================================================== *)

Module Re.

(** A pattern is a sequence of literals and greedy one-or-more repetitions
    of a character class, the latter optionally inside a capturing group.
    This covers [/jobs/view/(\d+)] and [/jobs/view/([^/]+)-at-([^/]+)-\d+]. *)
Inductive item : Type :=
  | Lit (s : string)
  | Plus (capture : bool) (cls : ascii -> bool).

Fixpoint drop_prefix (p s : string) : option string :=
  match p, s with
  | EmptyString, _ => Some s
  | String a p', String b s' => if Ascii.eqb a b then drop_prefix p' s' else None
  | String _ _, EmptyString => None
  end.

(** [cls+] followed by the continuation [k]: one character is consumed,
    then the longer alternatives are tried before the shorter ones, as the
    backtracking matcher does for a greedy quantifier. *)
Fixpoint plus_then {A : Type} (cls : ascii -> bool)
    (k : string -> string -> option A) (taken s : string) : option A :=
  match s with
  | String c s' =>
      if cls c then
        let taken' := taken ++ String c "" in
        match plus_then cls k taken' s' with
        | Some r => Some r
        | None => k taken' s'
        end
      else None
  | EmptyString => None
  end.

Fixpoint match_here (items : list item) (groups : list string) (s : string)
  : option (list string) :=
  match items with
  | [] => Some groups
  | Lit l :: rest =>
      match drop_prefix l s with
      | Some s' => match_here rest groups s'
      | None => None
      end
  | Plus capture cls :: rest =>
      plus_then cls
        (fun g s' => match_here rest (if capture then (groups ++ [g])%list else groups) s')
        "" s
  end.

(** [re.search]: the leftmost position at which the pattern matches; the
    result is the list of the groups' texts. *)
Fixpoint search (items : list item) (s : string) : option (list string) :=
  match match_here items [] s with
  | Some groups => Some groups
  | None =>
      match s with
      | String _ s' => search items s'
      | EmptyString => None
      end
  end.

Definition not_slash (c : ascii) : bool := negb (Ascii.eqb c "/"%char).

(** [r'/jobs/view/(\d+)'] *)
Definition job_id_re : list item :=
  [Lit "/jobs/view/"; Plus true Str.is_digit].

(** [r'/jobs/view/([^/]+)-at-([^/]+)-\d+'] *)
Definition title_re : list item :=
  [Lit "/jobs/view/"; Plus true not_slash; Lit "-at-"; Plus true not_slash;
   Lit "-"; Plus false Str.is_digit].

End Re.

(* ===================================================================== *)
(** ** Effects: the outside world, the trace and the exception monad *)
(* ===================================================================== *)

(** What a run does that is visible outside a stage. *)
Inductive event : Type :=
  | EvLog (agent status : string)                  (* [_log_execution] *)
  | EvFetch (url : string)                         (* [client.get(url, ...)] *)
  | EvGenerate (prompt : string) (max_tokens : Z). (* [chat.completions.create] *)

Inductive gen_reply : Type :=
  | GenText (content : string)
  | GenError (msg : string).

(** The answer to a fetch: an exception of the HTTP client or of the HTML
    parser, or a response.  For a response the three strings are what the
    site's selectors yield, the body text after [_clean_text]. *)
Inductive fetch_reply : Type :=
  | FetchError (connect_error : bool) (msg : string)
  | FetchPage (status_code : Z) (title company job_text : string).

(** The collaborators and library functions the code is run against.  The
    provider and the network may answer differently at every call: their
    answer depends on the trace so far. *)
Record Env : Type := {
  llm : list event -> string -> Z -> gen_reply;
  http : list event -> string -> fetch_reply;
  (** [re.search(r'\{.*\}', response, re.DOTALL)] and [json.loads];
      [None] is a [JSONDecodeError] *)
  json_of_response : string -> option pyval;
  (** [urlparse(url)]: path and query, [None] when it raises *)
  urlparse : string -> option (string * string);
  parse_qs : string -> gmap string (list string);
  (** [str(x)] of a value that is not a string *)
  repr : pyval -> string;
  (** seconds between two readings of [datetime.now()] *)
  timer : list event -> Q;
  (** the f-string prompts; building one may raise *)
  ats_prompt : pyval -> pyval -> result string;
  optimize_prompt : pyval -> pyval -> result string;
  structure_prompt : string -> string;
  (** [llm_service.generate_resume_content(profile, job_data)], its effect
      on the trace included *)
  generate_resume_content : pyval -> pyval -> list event -> result pyval * list event
}.

Definition M (A : Type) : Type := list event -> result A * list event.

Definition ret {A : Type} (a : A) : M A := fun tr => (Ok a, tr).

Definition raise {A : Type} (e : exn) : M A := fun tr => (Raise e, tr).

Definition bind {A B : Type} (c : M A) (k : A -> M B) : M B :=
  fun tr =>
    match c tr with
    | (Ok a, tr') => k a tr'
    | (Raise e, tr') => (Raise e, tr')
    end.

Definition lift {A : Type} (r : result A) : M A :=
  match r with
  | Ok a => ret a
  | Raise e => raise e
  end.

Definition emit (ev : event) : M unit := fun tr => (Ok tt, (tr ++ [ev])%list).

(** [try: c  except Exception as e: h e] *)
Definition try_except {A : Type} (c : M A) (h : exn -> M A) : M A :=
  fun tr =>
    match c tr with
    | (Ok a, tr') => (Ok a, tr')
    | (Raise e, tr') => h e tr'
    end.

Declare Scope py_scope.
Delimit Scope py_scope with py.
Notation "x <- c ;; k" := (bind c (fun x => k))
  (at level 100, c at next level, right associativity) : py_scope.
Local Open Scope py_scope.

Definition py_str (env : Env) (v : pyval) : string :=
  match v with
  | PStr s => s
  | _ => repr env v
  end.

(** [x.strip()]: only a string has the method. *)
Definition py_strip (v : pyval) : result string :=
  match v with
  | PStr s => Ok (Str.strip s)
  | _ => Raise (Exn "AttributeError" "object has no attribute 'strip'")
  end.

(** A positional call of a two-parameter method ([self] apart): binding
    the arguments fails with a [TypeError] unless exactly two are given. *)
Definition call_method2 {A : Type} (name : string) (f : pyval -> pyval -> M A)
    (args : list pyval) : M A :=
  match args with
  | [a; b] => f a b
  | _ =>
      raise (Exn "TypeError"
        (name ++ "() takes 3 positional arguments but "
              ++ Str.of_Z (Z.of_nat (List.length args) + 1) ++ " were given"))
  end.

(* ===================================================================== *)
(** ** agents/base_agent.py *)
(* ===================================================================== *)

Module BaseAgent.
Section WithEnv.
Context (env : Env).

Definition success_envelope (agent_name : string) (result : gmap string pyval)
    (tr : list event) : gmap string pyval :=
  <["success" := PBool true]>
  (<["execution_time" := PFloat (timer env tr)]>
  (<["agent_name" := PStr agent_name]> result)).

Definition error_envelope (agent_name : string) (e : exn) (tr : list event)
  : gmap string pyval :=
  <["agent_name" := PStr agent_name]>
  (<["success" := PBool false]>
  (<["error" := PStr (exn_msg e)]>
  (<["error_type" := PStr (exn_type e)]>
  (<["execution_time" := PFloat (timer env tr)]> ∅)))).

(** [BaseAgent.run]: no exception of [execute] escapes; the result is the
    payload with [agent_name], [execution_time] and [success] set, or the
    error envelope.  Every call is logged at its start and at its end. *)
Definition run (agent_name : string)
    (execute : gmap string pyval -> M (gmap string pyval))
    (input_data : gmap string pyval) : M (gmap string pyval) :=
  fun tr =>
    match execute input_data (tr ++ [EvLog agent_name "START"])%list with
    | (Ok result, tr1) =>
        (Ok (success_envelope agent_name result tr1),
         (tr1 ++ [EvLog agent_name "SUCCESS"])%list)
    | (Raise e, tr1) =>
        (Ok (error_envelope agent_name e tr1),
         (tr1 ++ [EvLog agent_name "ERROR"])%list)
    end.

End WithEnv.
End BaseAgent.

(* ===================================================================== *)
(** ** services/llm_service.py *)
(* ===================================================================== *)

Module LLMService.
Section WithEnv.
Context (env : Env).

(** [generate_text]: one request to the provider; a provider error is
    re-raised as [Exception("Failed to generate text: ...")]. *)
Definition generate_text (prompt : string) (max_tokens : Z) : M string :=
  fun tr =>
    let tr' := (tr ++ [EvGenerate prompt max_tokens])%list in
    match llm env tr prompt max_tokens with
    | GenText content => (Ok content, tr')
    | GenError msg =>
        (Raise (Exn "Exception" ("Failed to generate text: " ++ msg)), tr')
    end.

(** The f-string [full_prompt] of [extract_json]. *)
Definition json_prompt (prompt text : string) : string :=
  prompt ++ Str.nl ++ Str.nl ++ "Text to analyze:" ++ Str.nl ++ text
         ++ Str.nl ++ Str.nl ++ "Return ONLY valid JSON, no other text.".

(** [extract_json]: never raises; an unparsable answer and a failed
    request both become an [error] dictionary. *)
Definition extract_json (text prompt : string) : M pyval :=
  let full_prompt := json_prompt prompt text in
  try_except
    (response <- generate_text full_prompt 1500;;
     match json_of_response env response with
     | Some v => ret v
     | None =>
         ret (PDict (<["error" := PStr "Failed to parse JSON"]>
                     (<["raw_response" := PStr response]> ∅)))
     end)
    (fun e => ret (PDict (<["error" := PStr (exn_msg e)]> ∅))).

Definition is_ats_score_key (v : pyval) : bool :=
  match v with
  | PStr s => String.eqb s "ats_score"
  | _ => false
  end.

(** The "ensure score is within range" step of [calculate_ats_score]:
    [if "ats_score" in result:
         result["ats_score"] = max(0, min(100, result.get("ats_score", 0)))
     else:
         result["ats_score"] = 50]. *)
Definition ensure_score_in_range (result : pyval) : Py.result pyval :=
  match result with
  | PDict d =>
      match d !! "ats_score" with
      | Some v =>
          match py_min (PInt 100) v with
          | Ok m =>
              match py_max (PInt 0) m with
              | Ok c => Ok (PDict (<["ats_score" := c]> d))
              | Raise e => Raise e
              end
          | Raise e => Raise e
          end
      | None => Ok (PDict (<["ats_score" := PInt 50]> d))
      end
  | PList l =>
      if existsb is_ats_score_key l
      then Raise (Exn "AttributeError" "'list' object has no attribute 'get'")
      else Raise (Exn "TypeError" "list indices must be integers or slices, not str")
  | PStr s =>
      if Str.contains "ats_score" s
      then Raise (Exn "AttributeError" "'str' object has no attribute 'get'")
      else Raise (Exn "TypeError" "'str' object does not support item assignment")
  | _ => Raise (Exn "TypeError" "argument is not iterable")
  end.

Definition calculate_ats_score (resume_content job_requirements : pyval) : M pyval :=
  prompt <- lift (ats_prompt env resume_content job_requirements);;
  result <- extract_json "" prompt;;
  lift (ensure_score_in_range result).

(** [optimize_resume(self, current_resume, ats_feedback)]: the revision is
    kept only when it starts with the document preamble; a failed request
    gives back the current resume. *)
Definition optimize_resume (current_resume ats_feedback : pyval) : M pyval :=
  prompt <- lift (optimize_prompt env current_resume ats_feedback);;
  try_except
    (optimized <- generate_text prompt 4000;;
     ret (if Str.startswith (Str.backslash ++ "documentclass") (Str.strip optimized)
          then PStr optimized else current_resume))
    (fun _ => ret current_resume).

End WithEnv.
End LLMService.

(* ===================================================================== *)
(** ** services/web_scraper.py *)
(* ===================================================================== *)

Module WebScraperService.
Section WithEnv.
Context (env : Env).

Definition failure (error : string) : gmap string pyval :=
  <["success" := PBool false]>
  (<["error" := PStr error]>
  (<["job_text" := PStr ""]> ∅)).

(** [title_match.group(i).replace('-', ' ').title()] *)
Definition slug_words (g : string) : string :=
  Str.title (Str.replace_char "-"%char " "%char g).

(** [_parse_url_info]: what the URL alone tells; [None] for an unknown
    host and whenever anything raises. *)
Definition _parse_url_info (url : string) : option (gmap string pyval) :=
  match urlparse env url with
  | None => None
  | Some (path, query) =>
      let info : option (gmap string pyval) :=
        if Str.contains "linkedin.com" url then
          let info : gmap string pyval := <["source" := PStr "LinkedIn"]> ∅ in
          let info :=
            match Re.search Re.job_id_re url with
            | Some [job_id] => <["job_id" := PStr job_id]> info
            | _ => info
            end in
          match Re.search Re.title_re url with
          | Some [t; c] =>
              Some (<["company" := PStr (slug_words c)]>
                    (<["title" := PStr (slug_words t)]> info))
          | _ => Some info
          end
        else if Str.contains "indeed.com" url then
          let info : gmap string pyval := <["source" := PStr "Indeed"]> ∅ in
          match default [""] (parse_qs env query !! "jk") with
          | jk :: _ =>
              Some (if negb (String.eqb jk "") then <["job_id" := PStr jk]> info
                    else info)
          | [] => None
          end
        else if Str.contains "glassdoor.com" url then
          Some (<["source" := PStr "Glassdoor"]> ∅)
        else Some ∅ in
      match info with
      | Some info => if bool_decide (info = ∅) then None else Some info
      | None => None
      end
  end.

Definition _generate_placeholder_jd (url_info : gmap string pyval) (url : string)
  : string :=
  let source := py_str env (get_or url_info "source" (PStr "Job Board")) in
  let title := py_str env (get_or url_info "title" (PStr "Position")) in
  let company := py_str env (get_or url_info "company" (PStr "Company")) in
  "Job Posting from " ++ source ++ Str.nl
  ++ Str.nl
  ++ "Job Title: " ++ title ++ Str.nl
  ++ "Company: " ++ company ++ Str.nl
  ++ "Source URL: " ++ url ++ Str.nl
  ++ Str.nl
  ++ "Note: This job description was extracted from the URL pattern. " ++ Str.nl
  ++ "For the most accurate resume generation, please use the "
  ++ Str.dquote ++ "Paste JD" ++ Str.dquote ++ " option " ++ Str.nl
  ++ "and copy the full job description from the job posting." ++ Str.nl
  ++ Str.nl
  ++ "The AI will generate a resume based on:" ++ Str.nl
  ++ "- The job title and company extracted from the URL" ++ Str.nl
  ++ "- Your profile information" ++ Str.nl
  ++ "- Standard requirements for this type of role" ++ Str.nl.

(** The four site fetchers.  Each performs one GET and catches every
    exception itself. *)
Definition _fetch_linkedin (url : string) : M (gmap string pyval) :=
  fun tr =>
    let tr' := (tr ++ [EvFetch url])%list in
    match http env tr url with
    | FetchError connect_error msg =>
        (Ok (failure (if connect_error
                      then "Connection error: " ++ msg
                           ++ ". Check your internet connection."
                      else msg)), tr')
    | FetchPage status_code title company job_text =>
        if negb (status_code =? 200) then
          (Ok (failure ("LinkedIn returned status " ++ Str.of_Z status_code
                        ++ ". This job may require login.")), tr')
        else if Str.len job_text <? 50 then
          (Ok (failure "Could not extract job description. LinkedIn may require login for this job."), tr')
        else
          (Ok (<["success" := PBool true]>
              (<["job_text" := PStr job_text]>
              (<["title" := PStr title]>
              (<["company" := PStr company]>
              (<["source" := PStr "linkedin"]> ∅))))), tr')
    end.

Definition _fetch_indeed (url : string) : M (gmap string pyval) :=
  fun tr =>
    let tr' := (tr ++ [EvFetch url])%list in
    match http env tr url with
    | FetchError _ msg => (Ok (failure msg), tr')
    | FetchPage status_code title company job_text =>
        if negb (status_code =? 200) then
          (Ok (failure ("Indeed returned status " ++ Str.of_Z status_code)), tr')
        else
          (Ok (<["success" := PBool (truthy (PStr job_text))]>
              (<["job_text" := PStr job_text]>
              (<["title" := PStr title]>
              (<["company" := PStr company]>
              (<["source" := PStr "indeed"]> ∅))))), tr')
    end.

Definition _fetch_glassdoor (url : string) : M (gmap string pyval) :=
  fun tr =>
    let tr' := (tr ++ [EvFetch url])%list in
    match http env tr url with
    | FetchError _ msg => (Ok (failure msg), tr')
    | FetchPage status_code _ _ job_text =>
        if negb (status_code =? 200) then
          (Ok (failure ("Glassdoor returned status " ++ Str.of_Z status_code)), tr')
        else
          (Ok (<["success" := PBool (truthy (PStr job_text))]>
              (<["job_text" := PStr job_text]>
              (<["source" := PStr "glassdoor"]> ∅))), tr')
    end.

Definition _fetch_generic (url : string) : M (gmap string pyval) :=
  fun tr =>
    let tr' := (tr ++ [EvFetch url])%list in
    match http env tr url with
    | FetchError _ msg => (Ok (failure msg), tr')
    | FetchPage status_code title _ job_text =>
        if negb (status_code =? 200) then
          (Ok (failure ("Site returned status " ++ Str.of_Z status_code)), tr')
        else
          (Ok (<["success" := PBool (truthy (PStr job_text))]>
              (<["job_text" := PStr (Str.take 5000 job_text)]>
              (<["title" := PStr title]>
              (<["source" := PStr "generic"]> ∅)))), tr')
    end.

Definition url_parsed (url_info : gmap string pyval) (url note : string)
  : gmap string pyval :=
  <["success" := PBool true]>
  (<["job_text" := PStr (_generate_placeholder_jd url_info url)]>
  (<["title" := get_or url_info "title" (PStr "")]>
  (<["company" := get_or url_info "company" (PStr "")]>
  (<["source" := PStr "url_parsed"]>
  (<["note" := PStr note]> ∅))))).

(** [fetch_job_from_url]: dispatch on the host; a failed fetch of a URL
    that tells something by itself becomes a placeholder posting. *)
Definition fetch_job_from_url (url : string) : M (gmap string pyval) :=
  try_except
    (let url_info := _parse_url_info url in
     result <-
       (if Str.contains "linkedin.com" url then _fetch_linkedin url
        else if Str.contains "indeed.com" url then _fetch_indeed url
        else if Str.contains "glassdoor.com" url then _fetch_glassdoor url
        else _fetch_generic url);;
     match url_info with
     | Some info =>
         if negb (truthy (get result "success")) then
           ret (url_parsed info url
                  "Job details extracted from URL. For best results, paste the full job description.")
         else ret result
     | None => ret result
     end)
    (fun e =>
       let error_msg := exn_msg e in
       match _parse_url_info url with
       | Some info =>
           ret (url_parsed info url
                  ("Could not fetch page directly. Using URL info. Error: "
                   ++ Str.take 100 error_msg))
       | None => ret (failure ("Could not fetch job: " ++ error_msg))
       end).

End WithEnv.
End WebScraperService.

(* ===================================================================== *)
(** ** app/config.py *)
(* ===================================================================== *)

Record Settings : Type := {
  ATS_TARGET_SCORE : Z;
  MAX_OPTIMIZATION_ITERATIONS : Z
}.

(** The values used when the environment does not override them. *)
Definition settings : Settings :=
  {| ATS_TARGET_SCORE := 85; MAX_OPTIMIZATION_ITERATIONS := 5 |}.

(* ===================================================================== *)
(** ** agents/jd_extractor.py *)
(* ===================================================================== *)

Module JDExtractorAgent.
Section WithEnv.
Context (env : Env).

Definition agent_name : string := "JD_Extractor".

Definition default_result (raw_text : string) : gmap string pyval :=
  <["job_title" := PStr "Position"]>
  (<["company_name" := PStr "Company"]>
  (<["job_description" := PStr (Str.take 1000 raw_text)]>
  (<["requirements" := PList []]>
  (<["responsibilities" := PList []]>
  (<["skills_required" := PList []]>
  (<["preferred_skills" := PList []]>
  (<["experience_level" := PStr "mid"]>
  (<["keywords" := PList []]> ∅)))))))).

(** [for key, value in result.items():
        if value: default_result[key] = value] *)
Definition merge_items (result dflt : gmap string pyval) : gmap string pyval :=
  map_fold (fun key value acc => if truthy value then <[key := value]> acc else acc)
           dflt result.

(** [if isinstance(result, dict): ...] *)
Definition merge_results (result : pyval) (dflt : gmap string pyval)
  : gmap string pyval :=
  match result with
  | PDict d => merge_items d dflt
  | _ => dflt
  end.

Definition _structure_job_data (raw_text : string) : M (gmap string pyval) :=
  let prompt := structure_prompt env (Str.take 4000 raw_text) in
  result <- try_except (LLMService.extract_json env raw_text prompt)
                       (fun _ => ret (PDict ∅));;
  ret (merge_results result (default_result raw_text)).

Definition no_description : exn :=
  Exn "ValueError"
      "No job description available. Please provide a valid URL or paste the job description.".

(** [execute]: a non-blank URL is fetched first and its text replaces the
    pasted text; then the text must have at least 20 characters once
    stripped; then it is structured and the given title and company
    override the structured ones. *)
Definition execute (input_data : gmap string pyval) : M (gmap string pyval) :=
  let job_url := get_or input_data "job_url" (PStr "") in
  let job_text := get_or input_data "job_description_text" (PStr "") in
  let job_title := get_or input_data "job_title" (PStr "") in
  let company_name := get_or input_data "company_name" (PStr "") in
  url <- (if truthy job_url then lift (py_strip job_url) else ret "");;
  resolved <-
    (if truthy job_url && truthy (PStr url) then
       scrape_result <- WebScraperService.fetch_job_from_url env url;;
       if truthy (get scrape_result "success") then
         ret (get_or scrape_result "job_text" (PStr ""),
              (if truthy job_title then job_title
               else get_or scrape_result "title" (PStr "")),
              (if truthy company_name then company_name
               else get_or scrape_result "company" (PStr "")))
       else
         let error_msg := get_or scrape_result "error" (PStr "Failed to fetch URL") in
         raise (Exn "ValueError"
                  ("Could not extract job from URL: " ++ py_str env error_msg))
     else ret (job_text, job_title, company_name));;
  let '(job_text, job_title, company_name) := resolved in
  stripped <- (if truthy job_text then lift (py_strip job_text) else ret "");;
  if negb (truthy job_text) || (Str.len stripped <? 20) then raise no_description
  else
    match job_text with
    | PStr raw_text =>
        structured_data <- _structure_job_data raw_text;;
        let structured_data :=
          if truthy job_title then <["job_title" := job_title]> structured_data
          else structured_data in
        let structured_data :=
          if truthy company_name then <["company_name" := company_name]> structured_data
          else structured_data in
        ret structured_data
    | _ => raise (Exn "AttributeError" "object has no attribute 'strip'")
    end.

Definition run : gmap string pyval -> M (gmap string pyval) :=
  BaseAgent.run env agent_name execute.

End WithEnv.
End JDExtractorAgent.

(* ===================================================================== *)
(** ** agents/resume_generator.py *)
(* ===================================================================== *)

Module ResumeGeneratorAgent.
Section WithEnv.
Context (env : Env).

Definition agent_name : string := "Resume_Generator".

Definition execute (input_data : gmap string pyval) : M (gmap string pyval) :=
  let job_data := get input_data "job_data" in
  let profile := get input_data "profile" in
  if negb (truthy job_data) || negb (truthy profile) then
    raise (Exn "ValueError" "job_data and profile required")
  else
    resume_content <- generate_resume_content env profile job_data;;
    ret (<["resume_content" := resume_content]>
         (<["iteration" := PInt 1]> ∅)).

Definition run : gmap string pyval -> M (gmap string pyval) :=
  BaseAgent.run env agent_name execute.

End WithEnv.
End ResumeGeneratorAgent.

(* ===================================================================== *)
(** ** agents/ats_scorer.py *)
(* ===================================================================== *)

Module ATSScorerAgent.
Section WithEnv.
Context (env : Env).

Definition agent_name : string := "ATS_Scorer".

(** [x.get(k, default)] on a value that should be a dictionary. *)
Definition py_get_or (x : pyval) (k : string) (dflt : pyval) : result pyval :=
  match x with
  | PDict d => Ok (get_or d k dflt)
  | _ => Raise (Exn "AttributeError" "object has no attribute 'get'")
  end.

(** The dictionary [execute] returns, built from [score_data]. *)
Definition score_payload (score_data : pyval) : result (gmap string pyval) :=
  match py_get_or score_data "ats_score" (PInt 0),
        py_get_or score_data "keyword_matches" (PList []),
        py_get_or score_data "missing_keywords" (PList []),
        py_get_or score_data "suggestions" (PList []) with
  | Ok ats_score, Ok keyword_matches, Ok missing_keywords, Ok suggestions =>
      Ok (<["ats_score" := ats_score]>
         (<["keyword_matches" := keyword_matches]>
         (<["missing_keywords" := missing_keywords]>
         (<["suggestions" := suggestions]> ∅))))
  | Raise e, _, _, _ | _, Raise e, _, _ | _, _, Raise e, _ | _, _, _, Raise e =>
      Raise e
  end.

Definition execute (input_data : gmap string pyval) : M (gmap string pyval) :=
  let resume_content := get input_data "resume_content" in
  let job_data := get input_data "job_data" in
  if negb (truthy resume_content) || negb (truthy job_data) then
    raise (Exn "ValueError" "resume_content and job_data required")
  else
    score_data <- LLMService.calculate_ats_score env resume_content job_data;;
    lift (score_payload score_data).

Definition run : gmap string pyval -> M (gmap string pyval) :=
  BaseAgent.run env agent_name execute.

End WithEnv.
End ATSScorerAgent.

(* ===================================================================== *)
(** ** agents/optimizer_agent.py *)
(* ===================================================================== *)

Module OptimizerAgent.
Section WithEnv.
Context (env : Env) (cfg : Settings).

Definition agent_name : string := "Optimizer".
Definition target_score : Z := ATS_TARGET_SCORE cfg.
Definition max_iterations : Z := MAX_OPTIMIZATION_ITERATIONS cfg.

(** [execute].  The history list is appended to in place in the source;
    nothing can fail between the append and the return, so the caller
    never observes the list in an intermediate state and the value passed
    back is the only one that matters. *)
Definition execute (input_data : gmap string pyval) : M (gmap string pyval) :=
  let current_resume := get input_data "resume_content" in
  let ats_score := get_or input_data "ats_score" (PInt 0) in
  let iteration := get_or input_data "iteration" (PInt 1) in
  let optimization_history := get_or input_data "optimization_history" (PList []) in
  reached <- lift (py_ge ats_score (PInt target_score));;
  if reached : bool then
    ret (<["should_continue" := PBool false]>
         (<["final_resume" := current_resume]>
         (<["final_score" := ats_score]>
         (<["total_iterations" := iteration]> ∅))))
  else
    capped <- lift (py_ge iteration (PInt max_iterations));;
    if capped : bool then
      ret (<["should_continue" := PBool false]>
           (<["final_resume" := current_resume]>
           (<["final_score" := ats_score]>
           (<["total_iterations" := iteration]>
           (<["note" := PStr "Max iterations reached"]> ∅)))))
    else
      let ats_feedback : gmap string pyval :=
        <["score" := ats_score]>
        (<["missing_keywords" := get_or input_data "missing_keywords" (PList [])]>
        (<["suggestions" := get_or input_data "suggestions" (PList [])]> ∅)) in
      improved_resume <-
        call_method2 "LLMService.optimize_resume" (LLMService.optimize_resume env)
          [current_resume; PDict ats_feedback; iteration];;
      optimization_history <-
        lift (py_append optimization_history
                (PDict (<["iteration" := iteration]>
                        (<["score" := ats_score]>
                        (<["changes" := get_or ats_feedback "suggestions" (PList [])]> ∅)))));;
      next <- lift (py_succ iteration);;
      ret (<["should_continue" := PBool true]>
           (<["resume_content" := improved_resume]>
           (<["iteration" := next]>
           (<["optimization_history" := optimization_history]> ∅)))).

Definition run : gmap string pyval -> M (gmap string pyval) :=
  BaseAgent.run env agent_name execute.

End WithEnv.
End OptimizerAgent.

(* ===================================================================== *)
(** ** api/resume.py *)
(* ===================================================================== *)

Module ResumeAPI.

Record ResumeGenerateRequest : Type := {
  job_url : option string;
  job_description : option string;
  job_title : option string;
  company_name : option string
}.

(** The columns of the stored profile that [generate_resume] reads. *)
Record Profile : Type := {
  full_name : pyval; email : pyval; phone : pyval; linkedin : pyval;
  github : pyval; portfolio : pyval; location : pyval; summary : pyval;
  skills : pyval; education : pyval; experience : pyval; projects : pyval;
  certifications : pyval
}.

(** The row handed to the database and returned to the caller. *)
Record Resume : Type := {
  resume_job_title : pyval;
  resume_company_name : pyval;
  resume_job_description : pyval;
  resume_job_url : pyval;
  latex_content : pyval;
  ats_score : pyval;
  iterations : Z;
  keywords : pyval;
  optimization_history : pyval
}.

Definition of_optional (o : option string) : pyval :=
  match o with
  | Some s => PStr s
  | None => PNone
  end.

(** [a or b] *)
Definition py_or (a b : pyval) : pyval := if truthy a then a else b.

Definition HTTPException (status_code : Z) (detail : string) : exn :=
  Exn "HTTPException" (Str.of_Z status_code ++ ": " ++ detail).

(** [range(1, 6)] *)
Definition range_1_6 : list Z := [1; 2; 3; 4; 5].

Section WithEnv.
Context (env : Env) (cfg : Settings).

Definition score_input (resume_content job_data : pyval) : gmap string pyval :=
  <["resume_content" := resume_content]> (<["job_data" := job_data]> ∅).

Definition optimizer_input (resume_content ats_score : pyval) (iteration : Z)
    (score_result : gmap string pyval) (optimization_history : pyval)
  : gmap string pyval :=
  <["resume_content" := resume_content]>
  (<["ats_score" := ats_score]>
  (<["iteration" := PInt iteration]>
  (<["missing_keywords" := get_or score_result "missing_keywords" (PList [])]>
  (<["suggestions" := get_or score_result "suggestions" (PList [])]>
  (<["optimization_history" := optimization_history]> ∅))))).

(** The [for iteration in range(1, 6)] loop of [generate_resume]; the
    result is the pair of [resume_content] and [optimization_history] held
    when the loop is left. *)
Fixpoint optimization_loop (iterations : list Z)
    (job_data resume_content optimization_history : pyval) : M (pyval * pyval) :=
  match iterations with
  | [] => ret (resume_content, optimization_history)
  | iteration :: rest =>
      score_result <-
        ATSScorerAgent.run env (score_input resume_content job_data);;
      if negb (truthy (get score_result "success")) then
        ret (resume_content, optimization_history)
      else
        let ats_score := get_or score_result "ats_score" (PInt 0) in
        opt_result <-
          OptimizerAgent.run env cfg
            (optimizer_input resume_content ats_score iteration score_result
                             optimization_history);;
        if negb (truthy (get opt_result "should_continue")) then
          ret (resume_content, optimization_history)
        else
          resume_content <- lift (getitem opt_result "resume_content");;
          optimization_loop rest job_data resume_content
            (get_or opt_result "optimization_history" (PList []))
  end.

(** The end of [generate_resume]: the final scoring call and the row that
    is saved and returned.  The database session ([db.add], [commit],
    [refresh]) is not part of the model. *)
Definition save_resume (request : ResumeGenerateRequest)
    (job_data : gmap string pyval) (job_text resume_content optimization_history : pyval)
  : M Resume :=
  final_score_result <-
    ATSScorerAgent.run env (score_input resume_content (PDict job_data));;
  let final_score :=
    if truthy (get final_score_result "success")
    then get_or final_score_result "ats_score" (PInt 0)
    else PInt 0 in
  history_len <- lift (py_len optimization_history);;
  ret {| resume_job_title :=
           py_or (of_optional (job_title request)) (get job_data "job_title");
         resume_company_name :=
           py_or (of_optional (company_name request)) (get job_data "company_name");
         resume_job_description := job_text;
         resume_job_url := of_optional (job_url request);
         latex_content := resume_content;
         ats_score := final_score;
         iterations := history_len + 1;
         keywords := get_or final_score_result "keyword_matches" (PList []);
         optimization_history := optimization_history |}.

(** The part of [generate_resume] that follows the generation stage. *)
Definition optimize_and_save (request : ResumeGenerateRequest)
    (job_data : gmap string pyval) (job_text resume_content : pyval) : M Resume :=
  looped <- optimization_loop range_1_6 (PDict job_data) resume_content (PList []);;
  save_resume request job_data job_text (fst looped) (snd looped).

Definition list_or_empty (v : pyval) : pyval := py_or v (PList []).

Definition profile_dict (profile : Profile) : gmap string pyval :=
  <["full_name" := full_name profile]>
  (<["email" := email profile]>
  (<["phone" := phone profile]>
  (<["linkedin" := linkedin profile]>
  (<["github" := github profile]>
  (<["portfolio" := portfolio profile]>
  (<["location" := location profile]>
  (<["summary" := summary profile]>
  (<["skills" := list_or_empty (skills profile)]>
  (<["education" := list_or_empty (education profile)]>
  (<["experience" := list_or_empty (experience profile)]>
  (<["projects" := list_or_empty (projects profile)]>
  (<["certifications" := list_or_empty (certifications profile)]> ∅)))))))))))).

Definition jd_input (request : ResumeGenerateRequest) : gmap string pyval :=
  <["job_url" := py_or (of_optional (job_url request)) (PStr "")]>
  (<["job_description_text" := py_or (of_optional (job_description request)) (PStr "")]>
  (<["job_title" := py_or (of_optional (job_title request)) (PStr "")]>
  (<["company_name" := py_or (of_optional (company_name request)) (PStr "")]> ∅))).

(** [generate_resume]; [profile] is the row found for the current user. *)
Definition generate_resume (request : ResumeGenerateRequest)
    (profile : option Profile) : M Resume :=
  match profile with
  | None =>
      raise (HTTPException 404 "Profile not found. Please create profile first.")
  | Some profile =>
      jd_result <- JDExtractorAgent.run env (jd_input request);;
      if negb (truthy (get jd_result "success")) then
        raise (HTTPException 500
                 (py_str env (get_or jd_result "error"
                                (PStr "Failed to extract job description"))))
      else
        let job_data := jd_result in
        let job_text :=
          get_or job_data "job_description"
                 (py_or (of_optional (job_description request)) (PStr "")) in
        gen_result <-
          ResumeGeneratorAgent.run env
            (<["profile" := PDict (profile_dict profile)]>
             (<["job_data" := PDict job_data]> ∅));;
        if negb (truthy (get gen_result "success")) then
          raise (HTTPException 500 "Failed to generate resume")
        else
          resume_content <- lift (getitem gen_result "resume_content");;
          optimize_and_save request job_data job_text resume_content
  end.

End WithEnv.
End ResumeAPI.

(* ===================================================================== *)
(** ** Concrete environments *)
(* ===================================================================== *)

Module Scenario.

(** The number of characters of a text that are not whitespace. *)
Fixpoint non_space_count (s : string) : Z :=
  match s with
  | String c s' => (if Str.is_space c then 0 else 1) + non_space_count s'
  | EmptyString => 0
  end.

(** The URLs fetched in a trace, oldest first. *)
Fixpoint fetched (tr : list event) : list string :=
  match tr with
  | EvFetch url :: tr' => url :: fetched tr'
  | _ :: tr' => fetched tr'
  | [] => []
  end.

(** An environment in which every answer of the provider parses to
    [answer], every page fetch comes back with status [status_code] and no
    text, and the generated resume is a fixed document. *)
Definition env_of (answer : option pyval) (status_code : Z) : Env :=
  {| llm := fun _ _ _ => GenText "provider answer";
     http := fun _ _ => FetchPage status_code "" "" "";
     json_of_response := fun _ => answer;
     urlparse := fun _ => Some ("", "");
     parse_qs := fun _ => ∅;
     repr := fun _ => "<object>";
     timer := fun _ => 0%Q;
     ats_prompt := fun _ _ => Ok "score the resume";
     optimize_prompt := fun _ _ => Ok "improve the resume";
     structure_prompt := fun raw_text => "structure: " ++ raw_text;
     generate_resume_content :=
       fun _ _ tr => (Ok (PStr (Str.backslash ++ "documentclass{article}")), tr) |}.

Definition scored (score : pyval) : pyval :=
  PDict (<["ats_score" := score]> ∅).

Definition resume0 : pyval := PStr (Str.backslash ++ "documentclass{article}").

Definition job0 : gmap string pyval :=
  <["job_title" := PStr "Developer"]>
  (<["skills_required" := PList [PStr "Go"; PStr "SQL"; PStr "Docker"]]> ∅).

Definition request0 : ResumeAPI.ResumeGenerateRequest :=
  {| ResumeAPI.job_url := None;
     ResumeAPI.job_description := Some "Developer with Go, SQL and Docker";
     ResumeAPI.job_title := None;
     ResumeAPI.company_name := None |}.

Definition env90 : Env := env_of (Some (scored (PInt 90))) 200.
Definition env60 : Env := env_of (Some (scored (PInt 60))) 200.
(** a score that is no number makes the clamp, hence the stage, fail *)
Definition env_unscorable : Env := env_of (Some (scored (PStr "high"))) 200.

Definition first_scoring (env : Env) : result (gmap string pyval) * list event :=
  ATSScorerAgent.run env (ResumeAPI.score_input resume0 (PDict job0)) [].

Definition envelope_of (r : result (gmap string pyval) * list event) : gmap string pyval :=
  match fst r with
  | Ok envelope => envelope
  | Raise _ => ∅
  end.

(** The number of times a stage was started, and the number of requests
    made to the provider with a given token budget (1500 for the JSON
    extractions, 4000 for a revision). *)
Fixpoint stage_calls (agent : string) (tr : list event) : Z :=
  match tr with
  | EvLog a status :: tr' =>
      (if String.eqb a agent && String.eqb status "START" then 1 else 0)
      + stage_calls agent tr'
  | _ :: tr' => stage_calls agent tr'
  | [] => 0
  end.

Fixpoint requests_with (max_tokens : Z) (tr : list event) : Z :=
  match tr with
  | EvGenerate _ m :: tr' => (if m =? max_tokens then 1 else 0) + requests_with max_tokens tr'
  | _ :: tr' => requests_with max_tokens tr'
  | [] => 0
  end.

Definition below_target_run : result ResumeAPI.Resume * list event :=
  ResumeAPI.optimize_and_save env60 settings request0 job0 (PStr "job text") resume0 [].

End Scenario.

(* ===================================================================== *)
(** ** The optimizer's three answers *)
(* ===================================================================== *)

Module Answers.

(** The payload returned when the target is reached. *)
Definition reached_payload (input : gmap string pyval) : gmap string pyval :=
  <["should_continue" := PBool false]>
  (<["final_resume" := get input "resume_content"]>
  (<["final_score" := get_or input "ats_score" (PInt 0)]>
  (<["total_iterations" := get_or input "iteration" (PInt 1)]> ∅))).

(** The payload returned when the iteration cap is reached. *)
Definition capped_payload (input : gmap string pyval) : gmap string pyval :=
  <["should_continue" := PBool false]>
  (<["final_resume" := get input "resume_content"]>
  (<["final_score" := get_or input "ats_score" (PInt 0)]>
  (<["total_iterations" := get_or input "iteration" (PInt 1)]>
  (<["note" := PStr "Max iterations reached"]> ∅)))).

(** The exception of the revision call. *)
Definition arity_error : exn :=
  Exn "TypeError"
      "LLMService.optimize_resume() takes 3 positional arguments but 4 were given".

End Answers.
Export Answers.

(* ===================================================================== *)
(** ** The second half of the extractor's [execute] *)
(* ===================================================================== *)

Module Resolution.
Section WithEnv.
Context (env : Env).

(** The title and company given by the caller (or taken from the page)
    override the structured ones. *)
Definition apply_hints (job_title company_name : pyval)
    (structured_data : gmap string pyval) : gmap string pyval :=
  let structured_data :=
    if truthy job_title then <["job_title" := job_title]> structured_data
    else structured_data in
  if truthy company_name then <["company_name" := company_name]> structured_data
  else structured_data.

(** [execute] from the length test on, for the text, title and company
    held at that point. *)
Definition structure_text (job_text job_title company_name : pyval)
  : M (gmap string pyval) :=
  stripped <- (if truthy job_text then lift (py_strip job_text) else ret "");;
  if negb (truthy job_text) || (Str.len stripped <? 20)
  then raise JDExtractorAgent.no_description
  else
    match job_text with
    | PStr raw_text =>
        structured_data <- JDExtractorAgent._structure_job_data env raw_text;;
        ret (apply_hints job_title company_name structured_data)
    | _ => raise (Exn "AttributeError" "object has no attribute 'strip'")
    end.

(** The request that [extract_json] sends for the structuring of a text. *)
Definition structuring_request (raw_text : string) : event :=
  EvGenerate
    (LLMService.json_prompt (structure_prompt env (Str.take 4000 raw_text)) raw_text)
    1500.

End WithEnv.
End Resolution.

(* ===================================================================== *)
(** ** Resolution requests *)
(* ===================================================================== *)

Module Requests.
Import Scenario.

Definition pasted_text : string := "Senior Rocq engineer wanted for proof work".

(** 20 characters, 18 of them not whitespace *)
Definition spaced_text : string := "Senior Rocq engineer".

Definition generic_url : string := "https://example.com/jobs/42".

Definition slug_url : string :=
  "https://www.linkedin.com/jobs/view/software-engineer-at-acme-corp-123456/".

Definition jd_request (url text : string) : gmap string pyval :=
  <["job_url" := PStr url]>
  (<["job_description_text" := PStr text]>
  (<["job_title" := PStr ""]>
  (<["company_name" := PStr ""]> ∅))).

(** the provider scores 72.5 *)
Definition env_fractional : Env := env_of (Some (scored (PFloat (145 # 2)))) 200.

(** the provider's answer is the JSON object without any key, or the
    empty JSON list: neither holds a score *)
Definition env_no_score : Env := env_of (Some (PDict ∅)) 200.
Definition env_list : Env := env_of (Some (PList [])) 200.

(** the row saved for [resume0] when the loop is over *)
Definition saved_row (env : Env) : result ResumeAPI.Resume :=
  fst (ResumeAPI.save_resume env request0 job0 (PStr "job text") resume0 (PList []) []).

End Requests.

(* ===================================================================== *)
(** ** Failures in a run *)
(* ===================================================================== *)

Module Runs.



End Runs.

(* ===================================================================== *)
(** ** When the scoring stage succeeds *)
(* ===================================================================== *)

Module Scoring.
Section WithEnv.
Context (env : Env).

(** When the scoring stage succeeds on [input_data], run after the trace
    [tr]: both inputs are truthy, the prompt can be built, and then either
    the request to the provider fails, or its answer cannot be parsed (in
    both cases [extract_json] hands back an error dictionary, and the score
    is 50), or the answer parses to a dictionary whose score, if any, is a
    number.  A parsed answer that is no dictionary fails the stage. *)
Definition succeeds (input_data : gmap string pyval) (tr : list event) : bool :=
  truthy (get input_data "resume_content") && truthy (get input_data "job_data") &&
  match ats_prompt env (get input_data "resume_content") (get input_data "job_data") with
  | Ok prompt =>
      match llm env tr (LLMService.json_prompt prompt "") 1500 with
      | GenError _ => true
      | GenText content =>
          match json_of_response env content with
          | None => true
          | Some (PDict d) =>
              match d !! "ats_score" with
              | Some v => is_number v
              | None => true
              end
          | Some _ => false
          end
      end
  | Raise _ => false
  end.

End WithEnv.
End Scoring.

(* ===================================================================== *)
(** ** The shape of a posting and of a scrape *)
(* ===================================================================== *)

Module Posting.

(** The keys of [default_result] in [_structure_job_data]. *)
Definition keys : list string :=
  ["job_title"; "company_name"; "job_description"; "requirements";
   "responsibilities"; "skills_required"; "preferred_skills";
   "experience_level"; "keywords"].

(** The site fetcher [fetch_job_from_url] dispatches to. *)
Definition site_fetch (env : Env) (url : string) : M (gmap string pyval) :=
  if Str.contains "linkedin.com" url then WebScraperService._fetch_linkedin env url
  else if Str.contains "indeed.com" url then WebScraperService._fetch_indeed env url
  else if Str.contains "glassdoor.com" url then WebScraperService._fetch_glassdoor env url
  else WebScraperService._fetch_generic env url.

(** None of the three hosts the scraper knows occurs in the URL. *)
Definition unknown_host (url : string) : bool :=
  negb (Str.contains "linkedin.com" url) && negb (Str.contains "indeed.com" url)
  && negb (Str.contains "glassdoor.com" url).

End Posting.

Module Chars.

(** Every character of the string satisfies [p]. *)
Fixpoint all (p : ascii -> bool) (s : string) : bool :=
  match s with
  | String c s' => p c && all p s'
  | EmptyString => true
  end.

Definition not_hyphen (c : ascii) : bool := negb (Ascii.eqb c "-"%char).

End Chars.

(* ===================================================================== *)
(** ** A sample profile *)
(* ===================================================================== *)

Module Samples.

Definition profile0 : ResumeAPI.Profile :=
  {| ResumeAPI.full_name := PStr "Ada Lovelace";
     ResumeAPI.email := PStr "ada@example.com";
     ResumeAPI.phone := PNone;
     ResumeAPI.linkedin := PNone;
     ResumeAPI.github := PNone;
     ResumeAPI.portfolio := PNone;
     ResumeAPI.location := PNone;
     ResumeAPI.summary := PNone;
     ResumeAPI.skills := PList [PStr "Go"; PStr "SQL"];
     ResumeAPI.education := PNone;
     ResumeAPI.experience := PNone;
     ResumeAPI.projects := PNone;
     ResumeAPI.certifications := PNone |}.

End Samples.

(* ===================================================================== *)
(** ** The gap analysis used when the provider fails *)
(* ===================================================================== *)

(** [LLMService._get_fallback_gap_analysis] and [_get_fallback_roadmap],
    on the lists of strings their signatures declare. *)
Module GapFallback.

(** [s.lower()], on the code points below 256. *)
Fixpoint lower (s : string) : string :=
  match s with
  | String c s' => String (Str.to_lower c) (lower s')
  | EmptyString => EmptyString
  end.

(** [sep.join(l)]. *)
Fixpoint join (sep : string) (l : list string) : string :=
  match l with
  | [] => ""
  | [s] => s
  | s :: l' => s ++ sep ++ join sep l'
  end.

(** [s in l] on a list of strings. *)
Definition mem (s : string) (l : list string) : bool := existsb (String.eqb s) l.

(** [any(s.lower() in c or c in s.lower() for c in candidate_lower)]. *)
Definition related (candidate_lower : list string) (s : string) : bool :=
  existsb (fun c => Str.contains (lower s) c || Str.contains c (lower s)) candidate_lower.

Definition matching_of (candidate_skills job_skills : list string) : list string :=
  let candidate_lower := map lower candidate_skills in
  filter (fun s => related candidate_lower s = true) job_skills.

Definition missing_of (candidate_skills job_skills : list string) : list string :=
  let matching := matching_of candidate_skills job_skills in
  filter (fun s => mem s matching = false) job_skills.

(** The binary64 value of an integer, and [int(x)] of a finite binary64. *)
Definition float_of_Z (z : Z) : SpecFloat.spec_float :=
  SpecFloat.binary_normalize 53 1024 z 0 false.

Definition int_of_float (x : SpecFloat.spec_float) : Z :=
  match x with
  | SpecFloat.S754_finite s m e =>
      let a := match e with
               | Z0 => Zpos m
               | Zpos p => Zpos m * 2 ^ Zpos p
               | Zneg p => Zpos m / 2 ^ Zpos p
               end in
      if s then - a else a
  | _ => 0
  end.

(** [int((m / n) * 100)]: a binary64 division, a binary64 product and a
    truncation.  The lengths are below 2^53, so their conversion is exact. *)
Definition percent (m n : Z) : Z :=
  int_of_float
    (SpecFloat.SFmul 53 1024
       (SpecFloat.SFdiv 53 1024 (float_of_Z m) (float_of_Z n)) (float_of_Z 100)).

Definition match_pct (matching job_skills : list string) : Z :=
  match job_skills with
  | [] => 50
  | _ => percent (Z.of_nat (length matching)) (Z.max (Z.of_nat (length job_skills)) 1)
  end.

Definition _get_fallback_roadmap (missing_skills : list string) : string :=
  match missing_skills with
  | [] =>
      "Continue building on your current skills through challenging projects and staying updated with industry trends."
  | _ =>
      let skills := take 5 missing_skills in
      "**Phase 1 (Weeks 1-4): Foundation**" ++ Str.nl ++
      "- Learn: " ++ default "core skills" (skills !! 0%nat) ++ Str.nl ++
      "- Complete an online course and build a practice project" ++ Str.nl ++
      Str.nl ++
      "**Phase 2 (Weeks 5-8): Development**  " ++ Str.nl ++
      "- Learn: " ++ default "advanced concepts" (skills !! 1%nat) ++ Str.nl ++
      "- Work on hands-on exercises and contribute to open-source" ++ Str.nl ++
      Str.nl ++
      "**Phase 3 (Weeks 9-12): Advanced Application**" ++ Str.nl ++
      "- Master: " ++ (if (2 <? length skills)%nat
                       then join ", " (take 2 (drop 2 skills))
                       else "integration and best practices") ++ Str.nl ++
      "- Build a comprehensive portfolio project" ++ Str.nl ++
      Str.nl ++
      "**Phase 4 (Ongoing): Continuous Improvement**" ++ Str.nl ++
      "- Pursue certifications and stay updated with trends"
  end.

Definition strength (s : string) : pyval :=
  PDict (<["skill" := PStr s]>
         (<["level" := PStr "Intermediate"]>
         (<["evidence" := PStr "Listed in profile"]> ∅))).

Definition priority_gap (s : string) : pyval :=
  PDict (<["skill" := PStr s]>
         (<["priority" := PStr "High"]>
         (<["reason" := PStr "Required for role"]>
         (<["time_to_learn" := PStr "2-4 weeks"]> ∅)))).

Definition recommendation (missing : list string) : pyval :=
  PDict (<["type" := PStr "Training"]>
         (<["title" := PStr ("Learn " ++ default "new skills" (head missing))]>
         (<["description" := PStr "Take an online course"]>
         (<["resource" := PStr "Coursera/Udemy"]>
         (<["duration" := PStr "4-6 weeks"]> ∅))))).

Definition certification : pyval :=
  PDict (<["name" := PStr "AWS/GCP Certification"]>
         (<["provider" := PStr "Cloud Provider"]>
         (<["relevance" := PStr "Industry standard"]>
         (<["cost" := PStr "$150-300"]>
         (<["duration" := PStr "2-3 months"]> ∅))))).

Definition training_course (missing : list string) : pyval :=
  PDict (<["name" := PStr (default "Programming" (head missing) ++ " Course")]>
         (<["platform" := PStr "Udemy"]>
         (<["url" := PStr "udemy.com"]>
         (<["skill_covered" := PStr (default "Programming" (head missing))]>
         (<["duration" := PStr "20-40 hours"]> ∅))))).

(** [job_data] is not read. *)
Definition _get_fallback_gap_analysis (candidate_skills job_skills : list string)
    (job_data : gmap string pyval) : gmap string pyval :=
  let matching := matching_of candidate_skills job_skills in
  let missing := missing_of candidate_skills job_skills in
  <["match_percentage" := PInt (match_pct matching job_skills)]>
  (<["matching_skills" := PList (map PStr (take 10 matching))]>
  (<["missing_skills" := PList (map PStr (take 10 missing))]>
  (<["strengths" := PList (map strength (take 5 matching))]>
  (<["priority_gaps" := PList (map priority_gap (take 5 missing))]>
  (<["recommendations" :=
       PList (match missing with [] => [] | _ => [recommendation missing] end)]>
  (<["certifications_suggested" := PList [certification]]>
  (<["training_courses" := PList [training_course missing]]>
  (<["learning_roadmap" := PStr (_get_fallback_roadmap missing)]> ∅)))))))).

End GapFallback.

(* ===================================================================== *)
(** * Properties *)
(* ===================================================================== *)

Import Scenario Requests.
Local Open Scope py_scope.

(* ===================================================================== *)
(** ** Facts about dictionaries and the stage wrapper *)
(* ===================================================================== *)

(** Two distinct literal keys. *)
Ltac key_ne := let H := fresh in intros H; discriminate H.

(** Lookups through the inserts of an envelope built over any payload. *)
Ltac lookup_env :=
  repeat first
    [ rewrite lookup_insert_eq
    | rewrite lookup_insert_ne by key_ne
    | rewrite lookup_empty ].

Section WrapperFacts.
Context (env : Env).

Lemma success_envelope_success name result tr :
  BaseAgent.success_envelope env name result tr !! "success" = Some (PBool true).
Proof. unfold BaseAgent.success_envelope. by lookup_env. Qed.

Lemma success_envelope_payload name result tr k :
  k ≠ "success" -> k ≠ "execution_time" -> k ≠ "agent_name" ->
  BaseAgent.success_envelope env name result tr !! k = result !! k.
Proof.
  intros H1 H2 H3. unfold BaseAgent.success_envelope.
  rewrite !lookup_insert_ne by congruence. reflexivity.
Qed.

Lemma error_envelope_success name e tr :
  BaseAgent.error_envelope env name e tr !! "success" = Some (PBool false).
Proof. unfold BaseAgent.error_envelope. by lookup_env. Qed.

Lemma error_envelope_type name e tr :
  BaseAgent.error_envelope env name e tr !! "error_type" = Some (PStr (exn_type e)).
Proof. unfold BaseAgent.error_envelope. by lookup_env. Qed.

Lemma error_envelope_error name e tr :
  BaseAgent.error_envelope env name e tr !! "error" = Some (PStr (exn_msg e)).
Proof. unfold BaseAgent.error_envelope. by lookup_env. Qed.

(** The error envelope has five keys and no other. *)
Lemma error_envelope_other name e tr k :
  k ≠ "agent_name" -> k ≠ "success" -> k ≠ "error" -> k ≠ "error_type" ->
  k ≠ "execution_time" ->
  BaseAgent.error_envelope env name e tr !! k = None.
Proof.
  intros. unfold BaseAgent.error_envelope.
  rewrite !lookup_insert_ne by congruence. apply lookup_empty.
Qed.

(** The wrapper always returns an envelope: no exception escapes. *)
Lemma run_returns name execute input tr :
  exists envelope tr', BaseAgent.run env name execute input tr = (Ok envelope, tr').
Proof.
  unfold BaseAgent.run.
  destruct (execute input (tr ++ [EvLog name "START"])%list) as [[result|e] tr1]; eauto.
Qed.

Lemma run_success name execute input tr result tr1 :
  execute input (tr ++ [EvLog name "START"])%list = (Ok result, tr1) ->
  BaseAgent.run env name execute input tr
  = (Ok (BaseAgent.success_envelope env name result tr1),
     (tr1 ++ [EvLog name "SUCCESS"])%list).
Proof. intros H. unfold BaseAgent.run. by rewrite H. Qed.

Lemma run_error name execute input tr e tr1 :
  execute input (tr ++ [EvLog name "START"])%list = (Raise e, tr1) ->
  BaseAgent.run env name execute input tr
  = (Ok (BaseAgent.error_envelope env name e tr1),
     (tr1 ++ [EvLog name "ERROR"])%list).
Proof. intros H. unfold BaseAgent.run. by rewrite H. Qed.

End WrapperFacts.

(* ===================================================================== *)
(** ** The optimizer stage *)
(* ===================================================================== *)

Section OptimizerFacts.
Context (env : Env) (cfg : Settings).

Lemma execute_reached input tr :
  py_ge (get_or input "ats_score" (PInt 0)) (PInt (ATS_TARGET_SCORE cfg)) = Ok true ->
  OptimizerAgent.execute env cfg input tr = (Ok (reached_payload input), tr).
Proof.
  intros H. unfold OptimizerAgent.execute, OptimizerAgent.target_score, bind.
  rewrite H. reflexivity.
Qed.

Lemma execute_capped input tr :
  py_ge (get_or input "ats_score" (PInt 0)) (PInt (ATS_TARGET_SCORE cfg)) = Ok false ->
  py_ge (get_or input "iteration" (PInt 1)) (PInt (MAX_OPTIMIZATION_ITERATIONS cfg)) = Ok true ->
  OptimizerAgent.execute env cfg input tr = (Ok (capped_payload input), tr).
Proof.
  intros H1 H2.
  unfold OptimizerAgent.execute, OptimizerAgent.target_score,
    OptimizerAgent.max_iterations, bind.
  rewrite H1. cbn [lift ret]. rewrite H2. reflexivity.
Qed.

(** Below the target and below the cap the stage reaches the revision
    call, and binding its three arguments to the two parameters fails
    before anything is asked of the provider. *)
Lemma execute_revision_fails input tr :
  py_ge (get_or input "ats_score" (PInt 0)) (PInt (ATS_TARGET_SCORE cfg)) = Ok false ->
  py_ge (get_or input "iteration" (PInt 1)) (PInt (MAX_OPTIMIZATION_ITERATIONS cfg)) = Ok false ->
  OptimizerAgent.execute env cfg input tr = (Raise arity_error, tr).
Proof.
  intros H1 H2.
  unfold OptimizerAgent.execute, OptimizerAgent.target_score,
    OptimizerAgent.max_iterations, bind.
  rewrite H1. cbn [lift ret]. rewrite H2. reflexivity.
Qed.

(** Whatever its input, the stage never answers [should_continue = True]:
    the only path that would do so goes through the failing call. *)
Lemma execute_never_continues input tr result tr1 :
  OptimizerAgent.execute env cfg input tr = (Ok result, tr1) ->
  result !! "should_continue" = Some (PBool false) /\ tr1 = tr.
Proof.
  destruct (py_ge (get_or input "ats_score" (PInt 0)) (PInt (ATS_TARGET_SCORE cfg)))
    as [[|]|e] eqn:H1.
  - rewrite (execute_reached _ _ H1). intros [= <- <-]. split; [by lookup_env | done].
  - destruct (py_ge (get_or input "iteration" (PInt 1))
                (PInt (MAX_OPTIMIZATION_ITERATIONS cfg))) as [[|]|e] eqn:H2.
    + rewrite (execute_capped _ _ H1 H2). intros [= <- <-].
      split; [by lookup_env | done].
    + by rewrite (execute_revision_fails _ _ H1 H2).
    + unfold OptimizerAgent.execute, OptimizerAgent.target_score,
        OptimizerAgent.max_iterations, bind.
      rewrite H1. cbn [lift ret]. rewrite H2. discriminate.
  - unfold OptimizerAgent.execute, OptimizerAgent.target_score, bind.
    rewrite H1. discriminate.
Qed.

Lemma execute_trace input tr :
  snd (OptimizerAgent.execute env cfg input tr) = tr.
Proof.
  unfold OptimizerAgent.execute, OptimizerAgent.target_score,
    OptimizerAgent.max_iterations, bind.
  destruct (py_ge _ (PInt (ATS_TARGET_SCORE cfg))) as [[|]|e]; cbn [lift ret raise]; try reflexivity.
  destruct (py_ge _ (PInt (MAX_OPTIMIZATION_ITERATIONS cfg))) as [[|]|e']; reflexivity.
Qed.

Lemma run_never_continues input tr :
  exists envelope status,
    OptimizerAgent.run env cfg input tr
    = (Ok envelope, (tr ++ [EvLog "Optimizer" "START"; EvLog "Optimizer" status])%list) /\
    truthy (get envelope "should_continue") = false.
Proof.
  unfold OptimizerAgent.run, BaseAgent.run.
  pose proof (execute_trace input (tr ++ [EvLog OptimizerAgent.agent_name "START"])%list) as Htr.
  destruct (OptimizerAgent.execute env cfg input _) as [[result|e] tr1] eqn:He;
    cbn [snd] in Htr; subst tr1.
  - apply execute_never_continues in He as [Hc _].
    eexists _, "SUCCESS". rewrite <- app_assoc. split; [reflexivity|].
    unfold get. rewrite success_envelope_payload by key_ne. by rewrite Hc.
  - eexists _, "ERROR". rewrite <- app_assoc. split; [reflexivity|].
    unfold get. by rewrite error_envelope_other by key_ne.
Qed.

End OptimizerFacts.

(* ===================================================================== *)
(** ** The optimization loop *)
(* ===================================================================== *)

Lemma Qcompare_inject_Z (a b : Z) : Qcompare (inject_Z a) (inject_Z b) = Z.compare a b.
Proof. unfold Qcompare. cbn. by rewrite !Z.mul_1_r. Qed.

Lemma py_ge_int_lt (a b : Z) : a < b -> py_ge (PInt a) (PInt b) = Ok false.
Proof.
  intros H. unfold py_ge. cbn [num_of]. rewrite Qcompare_inject_Z.
  apply Z.compare_lt_iff in H. by rewrite H.
Qed.

Lemma py_ge_int_ge (a b : Z) : b <= a -> py_ge (PInt a) (PInt b) = Ok true.
Proof.
  intros H. unfold py_ge. cbn [num_of]. rewrite Qcompare_inject_Z.
  destruct (Z.compare_spec a b); try reflexivity. lia.
Qed.

Section LoopFacts.
Context (env : Env) (cfg : Settings).

Lemma optimizer_input_resume resume score i sr hist :
  get (ResumeAPI.optimizer_input resume score i sr hist) "resume_content" = resume.
Proof. unfold get, ResumeAPI.optimizer_input. by lookup_env. Qed.

Lemma optimizer_input_score resume score i sr hist :
  get_or (ResumeAPI.optimizer_input resume score i sr hist) "ats_score" (PInt 0) = score.
Proof. unfold get_or, ResumeAPI.optimizer_input. by lookup_env. Qed.

Lemma optimizer_input_iteration resume score i sr hist :
  get_or (ResumeAPI.optimizer_input resume score i sr hist) "iteration" (PInt 1) = PInt i.
Proof. unfold get_or, ResumeAPI.optimizer_input. by lookup_env. Qed.

(** One pass of the loop body, by what the two stages answer. *)
Lemma loop_step i rest job resume hist tr :
  ResumeAPI.optimization_loop env cfg (i :: rest) job resume hist tr
  = match ATSScorerAgent.run env (ResumeAPI.score_input resume job) tr with
    | (Ok score_result, tr1) =>
        if negb (truthy (get score_result "success")) then (Ok (resume, hist), tr1)
        else
          match OptimizerAgent.run env cfg
                  (ResumeAPI.optimizer_input resume
                     (get_or score_result "ats_score" (PInt 0)) i score_result hist) tr1 with
          | (Ok opt_result, tr2) =>
              if negb (truthy (get opt_result "should_continue")) then (Ok (resume, hist), tr2)
              else
                match getitem opt_result "resume_content" with
                | Ok resume' =>
                    ResumeAPI.optimization_loop env cfg rest job resume'
                      (get_or opt_result "optimization_history" (PList [])) tr2
                | Raise e => (Raise e, tr2)
                end
          | (Raise e, tr2) => (Raise e, tr2)
          end
    | (Raise e, tr1) => (Raise e, tr1)
    end.
Proof.
  cbn [ResumeAPI.optimization_loop]. unfold bind.
  destruct (ATSScorerAgent.run env _ tr) as [[score_result|e] tr1]; [|reflexivity].
  destruct (negb (truthy (get score_result "success"))); [reflexivity|].
  destruct (OptimizerAgent.run env cfg _ tr1) as [[opt_result|e] tr2]; [|reflexivity].
  destruct (negb (truthy (get opt_result "should_continue"))); [reflexivity|].
  destruct (getitem opt_result "resume_content"); reflexivity.
Qed.

(** The loop hands back the resume and the history it was given: no pass
    ever replaces them. *)
Lemma optimization_loop_keeps iterations job resume hist tr :
  exists tr',
    ResumeAPI.optimization_loop env cfg iterations job resume hist tr
    = (Ok (resume, hist), tr').
Proof.
  destruct iterations as [|i rest]; [by eexists|].
  rewrite loop_step.
  destruct (run_returns env ATSScorerAgent.agent_name (ATSScorerAgent.execute env)
              (ResumeAPI.score_input resume job) tr) as (sr & tr1 & Hs).
  unfold ATSScorerAgent.run. rewrite Hs.
  destruct (negb (truthy (get sr "success"))); [by eexists|].
  destruct (run_never_continues env cfg
              (ResumeAPI.optimizer_input resume (get_or sr "ats_score" (PInt 0)) i sr hist) tr1)
    as (envelope & status & Ho & Hc).
  rewrite Ho, Hc. by eexists.
Qed.

(** The end of [generate_resume] returns a row whenever the history is a
    list, whatever the final scoring call does. *)
Lemma save_resume_returns request job_data job_text resume h tr :
  exists row tr',
    ResumeAPI.save_resume env request job_data job_text resume (PList h) tr = (Ok row, tr') /\
    ResumeAPI.latex_content row = resume /\
    ResumeAPI.optimization_history row = PList h /\
    ResumeAPI.iterations row = Z.of_nat (length h) + 1.
Proof.
  unfold ResumeAPI.save_resume, bind.
  destruct (run_returns env ATSScorerAgent.agent_name (ATSScorerAgent.execute env)
              (ResumeAPI.score_input resume (PDict job_data)) tr) as (sr & tr1 & Hs).
  unfold ATSScorerAgent.run. rewrite Hs. cbn [py_len lift ret].
  eexists _, _. split; [reflexivity|]. cbn. done.
Qed.

End LoopFacts.

(** C1. When the score observed at an iteration is at least the target,
    the optimizer stage answers [should_continue = False] with the current
    resume as [final_resume], that score as [final_score] and the current
    iteration as [total_iterations]; the loop is left with the resume and
    the history unchanged, and between the scoring call and the end of the
    loop only the optimizer's start and end are logged: no request for a
    revision is made. *)
Theorem C1_target_reached_stops env cfg i rest job resume hist tr score_result tr1 :
  ATSScorerAgent.run env (ResumeAPI.score_input resume job) tr = (Ok score_result, tr1) ->
  truthy (get score_result "success") = true ->
  py_ge (get_or score_result "ats_score" (PInt 0)) (PInt (ATS_TARGET_SCORE cfg)) = Ok true ->
  exists envelope,
    OptimizerAgent.run env cfg
      (ResumeAPI.optimizer_input resume (get_or score_result "ats_score" (PInt 0))
         i score_result hist) tr1
    = (Ok envelope,
       (tr1 ++ [EvLog "Optimizer" "START"; EvLog "Optimizer" "SUCCESS"])%list) /\
    envelope !! "success" = Some (PBool true) /\
    envelope !! "should_continue" = Some (PBool false) /\
    envelope !! "final_resume" = Some resume /\
    envelope !! "final_score" = Some (get_or score_result "ats_score" (PInt 0)) /\
    envelope !! "total_iterations" = Some (PInt i) /\
    ResumeAPI.optimization_loop env cfg (i :: rest) job resume hist tr
    = (Ok (resume, hist),
       (tr1 ++ [EvLog "Optimizer" "START"; EvLog "Optimizer" "SUCCESS"])%list).
Proof.
  intros Hs Hsucc Hge.
  set (input := ResumeAPI.optimizer_input resume _ i score_result hist).
  assert (Hrun : OptimizerAgent.run env cfg input tr1
                 = (Ok (BaseAgent.success_envelope env "Optimizer" (reached_payload input)
                          (tr1 ++ [EvLog "Optimizer" "START"])%list),
                    (tr1 ++ [EvLog "Optimizer" "START"; EvLog "Optimizer" "SUCCESS"])%list)).
  { unfold OptimizerAgent.run.
    rewrite (run_success env _ _ _ _ (reached_payload input)
               (tr1 ++ [EvLog OptimizerAgent.agent_name "START"])%list).
    - by rewrite <- app_assoc.
    - apply execute_reached. subst input. by rewrite optimizer_input_score. }
  eexists. split; [exact Hrun|].
  assert (Hk : forall k, k ≠ "success" -> k ≠ "execution_time" -> k ≠ "agent_name" ->
               BaseAgent.success_envelope env "Optimizer" (reached_payload input)
                 (tr1 ++ [EvLog "Optimizer" "START"])%list !! k = reached_payload input !! k)
    by (intros; by apply success_envelope_payload).
  split; [apply success_envelope_success|].
  split; [rewrite Hk by key_ne; unfold reached_payload; by lookup_env|].
  split.
  { rewrite Hk by key_ne. unfold reached_payload. lookup_env.
    subst input. by rewrite optimizer_input_resume. }
  split.
  { rewrite Hk by key_ne. unfold reached_payload. lookup_env.
    subst input. by rewrite optimizer_input_score. }
  split.
  { rewrite Hk by key_ne. unfold reached_payload. lookup_env.
    subst input. by rewrite optimizer_input_iteration. }
  rewrite loop_step, Hs, Hsucc. cbn [negb]. fold input. rewrite Hrun.
  unfold get. rewrite Hk by key_ne. unfold reached_payload. by lookup_env.
Qed.

(** C10. Below the target and below the cap the optimizer reaches its
    revision call, which passes three arguments to the two-parameter
    [optimize_resume]: the stage's [execute] raises the [TypeError], its
    [run] answers an envelope with [success = False], that error type and
    no [should_continue] nor [resume_content] key, and the loop is left
    after this iteration with the resume and the history unchanged,
    nothing having been asked of the provider. *)
Theorem C10_revision_call_fails env cfg i rest job resume hist tr score_result tr1 :
  ATSScorerAgent.run env (ResumeAPI.score_input resume job) tr = (Ok score_result, tr1) ->
  truthy (get score_result "success") = true ->
  py_ge (get_or score_result "ats_score" (PInt 0)) (PInt (ATS_TARGET_SCORE cfg)) = Ok false ->
  i < MAX_OPTIMIZATION_ITERATIONS cfg ->
  exists envelope,
    OptimizerAgent.run env cfg
      (ResumeAPI.optimizer_input resume (get_or score_result "ats_score" (PInt 0))
         i score_result hist) tr1
    = (Ok envelope,
       (tr1 ++ [EvLog "Optimizer" "START"; EvLog "Optimizer" "ERROR"])%list) /\
    envelope !! "success" = Some (PBool false) /\
    envelope !! "error_type" = Some (PStr "TypeError") /\
    envelope !! "error"
    = Some (PStr "LLMService.optimize_resume() takes 3 positional arguments but 4 were given") /\
    envelope !! "should_continue" = None /\
    envelope !! "resume_content" = None /\
    ResumeAPI.optimization_loop env cfg (i :: rest) job resume hist tr
    = (Ok (resume, hist),
       (tr1 ++ [EvLog "Optimizer" "START"; EvLog "Optimizer" "ERROR"])%list).
Proof.
  intros Hs Hsucc Hlt Hi.
  set (input := ResumeAPI.optimizer_input resume _ i score_result hist).
  assert (Hrun : OptimizerAgent.run env cfg input tr1
                 = (Ok (BaseAgent.error_envelope env "Optimizer" arity_error
                          (tr1 ++ [EvLog "Optimizer" "START"])%list),
                    (tr1 ++ [EvLog "Optimizer" "START"; EvLog "Optimizer" "ERROR"])%list)).
  { unfold OptimizerAgent.run.
    rewrite (run_error env _ _ _ _ arity_error
               (tr1 ++ [EvLog OptimizerAgent.agent_name "START"])%list).
    - by rewrite <- app_assoc.
    - apply execute_revision_fails; subst input.
      + by rewrite optimizer_input_score.
      + rewrite optimizer_input_iteration. by apply py_ge_int_lt. }
  eexists. split; [exact Hrun|].
  split; [apply error_envelope_success|].
  split; [apply error_envelope_type|].
  split; [apply error_envelope_error|].
  split; [by apply error_envelope_other|].
  split; [by apply error_envelope_other|].
  rewrite loop_step, Hs, Hsucc. cbn [negb]. fold input. rewrite Hrun.
  unfold get. by rewrite error_envelope_other by key_ne.
Qed.

(** C8. When the scoring stage fails at an iteration, the loop is left at
    once with the resume and the history it held: its trace ends with the
    failed scoring call, so neither the optimizer nor a revision follows.
    The end of [generate_resume] then still returns a row, whose
    [latex_content] is that resume. *)
Theorem C8_scoring_failure_keeps_artifact env cfg request job_data job_text
    i rest resume h tr score_result tr1 :
  ATSScorerAgent.run env (ResumeAPI.score_input resume (PDict job_data)) tr
  = (Ok score_result, tr1) ->
  score_result !! "success" = Some (PBool false) ->
  ResumeAPI.optimization_loop env cfg (i :: rest) (PDict job_data) resume (PList h) tr
  = (Ok (resume, PList h), tr1) /\
  exists row tr2,
    ResumeAPI.save_resume env request job_data job_text resume (PList h) tr1
    = (Ok row, tr2) /\
    ResumeAPI.latex_content row = resume /\
    ResumeAPI.optimization_history row = PList h.
Proof.
  intros Hs Hfail. split.
  - rewrite loop_step, Hs. unfold get. by rewrite Hfail.
  - destruct (save_resume_returns env request job_data job_text resume h tr1)
      as (row & tr2 & Hrow & Hl & Hh & _).
    by exists row, tr2.
Qed.



(** C1 on a run whose first scoring call answers 90: the loop stops at
    iteration 1 with the generated resume. *)
Lemma C1_witness :
  ResumeAPI.optimization_loop env90 settings [1; 2; 3; 4; 5] (PDict job0) resume0 (PList []) []
  = (Ok (resume0, PList []),
     (snd (first_scoring env90)
      ++ [EvLog "Optimizer" "START"; EvLog "Optimizer" "SUCCESS"])%list).
Proof.
  destruct (C1_target_reached_stops env90 settings 1 [2; 3; 4; 5] (PDict job0) resume0
              (PList []) [] (envelope_of (first_scoring env90)) (snd (first_scoring env90)))
    as (envelope & _ & _ & _ & _ & _ & _ & Hloop).
  - reflexivity.
  - vm_compute. reflexivity.
  - vm_compute. reflexivity.
  - exact Hloop.
Defined.

(** C10 on a run whose first scoring call answers 60, at iteration 1 of
    5: the loop stops on the optimizer's error. *)
Lemma C10_witness :
  ResumeAPI.optimization_loop env60 settings [1; 2; 3; 4; 5] (PDict job0) resume0 (PList []) []
  = (Ok (resume0, PList []),
     (snd (first_scoring env60)
      ++ [EvLog "Optimizer" "START"; EvLog "Optimizer" "ERROR"])%list).
Proof.
  destruct (C10_revision_call_fails env60 settings 1 [2; 3; 4; 5] (PDict job0) resume0
              (PList []) [] (envelope_of (first_scoring env60)) (snd (first_scoring env60)))
    as (envelope & _ & _ & _ & _ & _ & _ & Hloop).
  - reflexivity.
  - vm_compute. reflexivity.
  - vm_compute. reflexivity.
  - vm_compute. reflexivity.
  - exact Hloop.
Defined.

(** C8 on a run whose provider gives a score that is no number, so that
    the scoring stage fails at iteration 1. *)
Lemma C8_witness :
  ResumeAPI.optimization_loop env_unscorable settings [1; 2; 3; 4; 5] (PDict job0) resume0
    (PList []) []
  = (Ok (resume0, PList []), snd (first_scoring env_unscorable)) /\
  exists row tr2,
    ResumeAPI.save_resume env_unscorable request0 job0 (PStr "job text") resume0 (PList [])
      (snd (first_scoring env_unscorable)) = (Ok row, tr2) /\
    ResumeAPI.latex_content row = resume0 /\
    ResumeAPI.optimization_history row = PList [].
Proof.
  apply (C8_scoring_failure_keeps_artifact env_unscorable settings request0 job0
           (PStr "job text") 1 [2; 3; 4; 5] resume0 [] []
           (envelope_of (first_scoring env_unscorable))).
  - reflexivity.
  - vm_compute. reflexivity.
Defined.

(** A run below the target, with the default settings and a scorer that
    answers 60 at every call: the loop makes one scoring call, the
    optimizer stage fails on its revision call and the loop is left at
    iteration 1.  The trace of the whole run holds two scoring calls, the
    one of the loop and the final one that follows it; no revision is
    requested, no "Max iterations reached" note is produced, and the saved
    row counts one iteration. *)
Example below_target_run_stops_at_first_iteration :
  stage_calls "ATS_Scorer"
    (snd (ResumeAPI.optimization_loop env60 settings ResumeAPI.range_1_6
            (PDict job0) resume0 (PList []) [])) = 1 /\
  stage_calls "ATS_Scorer" (snd below_target_run) = 2 /\
  stage_calls "Optimizer" (snd below_target_run) = 1 /\
  requests_with 4000 (snd below_target_run) = 0 /\
  In (EvLog "Optimizer" "ERROR") (snd below_target_run) /\
  envelope_of
    (OptimizerAgent.run env60 settings
       (ResumeAPI.optimizer_input resume0 (PInt 60) 1
          (envelope_of (first_scoring env60)) (PList []))
       (snd (first_scoring env60))) !! "note" = None /\
  exists row,
    fst below_target_run = Ok row /\
    ResumeAPI.iterations row = 1 /\
    ResumeAPI.latex_content row = resume0 /\
    ResumeAPI.ats_score row = PInt 60 /\
    ResumeAPI.optimization_history row = PList [].
Proof.
  split; [by vm_compute|].
  split; [by vm_compute|]. split; [by vm_compute|]. split; [by vm_compute|].
  split; [vm_compute; tauto|]. split; [by vm_compute|].
  eexists. split; [vm_compute; reflexivity|]. by vm_compute.
Qed.

(** C7 (the code departs from it). A revision is due (score 60, iteration
    1 of 5) and the provider's text would not be a LaTeX document: the
    stage neither keeps the resume with an advanced counter nor appends a
    history record.  Its envelope is the [TypeError] of the revision call,
    without [resume_content], [iteration] or [optimization_history], and
    the provider is not asked. *)
Theorem C7_invalid_revision_run :
  let input := ResumeAPI.optimizer_input resume0 (PInt 60) 1 ∅ (PList []) in
  let answer := OptimizerAgent.run env60 settings input [] in
  snd answer = [EvLog "Optimizer" "START"; EvLog "Optimizer" "ERROR"] /\
  envelope_of answer !! "success" = Some (PBool false) /\
  envelope_of answer !! "error_type" = Some (PStr "TypeError") /\
  envelope_of answer !! "resume_content" = None /\
  envelope_of answer !! "iteration" = None /\
  envelope_of answer !! "optimization_history" = None /\
  fst (LLMService.optimize_resume env60 resume0 (PDict ∅) []) = Ok resume0.
Proof. by vm_compute. Qed.

(* ===================================================================== *)
(** ** The string functions and the patterns on examples *)
(* ===================================================================== *)

Example strip_title_examples :
  Str.strip "  a b  " = "a b" /\
  Str.title "software engineer" = "Software Engineer" /\
  WebScraperService.slug_words "acme-corp" = "Acme Corp" /\
  Str.of_Z 404 = "404".
Proof. by vm_compute. Qed.

Example title_re_examples :
  Re.search Re.title_re slug_url = Some ["software-engineer"; "acme-corp"] /\
  Re.search Re.title_re "https://www.linkedin.com/jobs/view/a-at-b-at-c-12"
  = Some ["a-at-b"; "c"] /\
  Re.search Re.title_re "https://www.linkedin.com/jobs/view/123456/" = None /\
  Re.search Re.job_id_re "https://www.linkedin.com/jobs/view/123456/" = Some ["123456"].
Proof. by vm_compute. Qed.

(* ===================================================================== *)
(** ** Strings and patterns *)
(* ===================================================================== *)

Lemma append_assoc (a b c : string) : (a ++ b) ++ c = a ++ (b ++ c).
Proof.
  induction a as [|x a IH]; [reflexivity|].
  change (String x ((a ++ b) ++ c) = String x (a ++ (b ++ c))). by rewrite IH.
Qed.

Lemma append_length (a b : string) :
  String.length (a ++ b) = (String.length a + String.length b)%nat.
Proof.
  induction a as [|x a IH]; [reflexivity|].
  change (S (String.length (a ++ b)) = S (String.length a + String.length b)).
  by rewrite IH.
Qed.

(** Stripping on the right never shortens what a suffix keeps. *)
Lemma rstrip_append_le (a b : string) :
  (String.length (Str.rstrip b) <= String.length (Str.rstrip (a ++ b)))%nat.
Proof.
  induction a as [|x a IH]; [change ("" ++ b) with b; lia|].
  change (String x a ++ b) with (String x (a ++ b)). cbn [Str.rstrip].
  destruct (Str.rstrip (a ++ b)) as [|y r].
  - cbn [String.length] in IH. lia.
  - cbn [String.length] in *. lia.
Qed.

Lemma lstrip_keeps (c : ascii) (s : string) :
  Str.is_space c = false -> Str.lstrip (String c s) = String c s.
Proof. intros H. cbn. by rewrite H. Qed.

Lemma eqb_empty_false (s : string) : s ≠ "" -> String.eqb s "" = false.
Proof. intros H. by destruct s. Qed.

Lemma contains_nonempty (needle hay : string) :
  needle ≠ "" -> Str.contains needle hay = true -> hay ≠ "".
Proof. intros Hn Hc ->. destruct needle; [done | discriminate Hc]. Qed.

Lemma slug_words_nonempty (g : string) :
  g ≠ "" -> WebScraperService.slug_words g ≠ "".
Proof.
  destruct g as [|c g]; [done|]. intros _.
  unfold WebScraperService.slug_words, Str.title. cbn [Str.replace_char Str.title_from].
  unfold Str.to_title. by destruct (_ =? 223)%nat.
Qed.

(** A greedy repetition hands a non-empty text to what follows it. *)
Lemma plus_then_some {A} cls (k : string -> string -> option A) taken s r :
  Re.plus_then cls k taken s = Some r ->
  exists g s', g ≠ "" /\ k (taken ++ g) s' = Some r.
Proof.
  revert taken. induction s as [|c s IH]; intros taken; cbn; [done|].
  destruct (cls c); [|done].
  destruct (Re.plus_then cls k (taken ++ String c "") s) as [r0|] eqn:Hmore.
  - intros [= ->]. destruct (IH _ Hmore) as (g & s' & _ & Hk).
    exists (String c g), s'. split; [done|].
    by rewrite append_assoc in Hk.
  - intros Hk. by exists (String c ""), s.
Qed.

Lemma search_some items s groups :
  Re.search items s = Some groups ->
  exists s', Re.match_here items [] s' = Some groups.
Proof.
  induction s as [|c s IH]; cbn.
  - destruct (Re.match_here items [] "") eqn:H; [|done]. intros [= ->]. eauto.
  - destruct (Re.match_here items [] (String c s)) eqn:H.
    + intros [= ->]. eauto.
    + apply IH.
Qed.

(** Both groups of the LinkedIn slug pattern are non-empty. *)
Lemma title_re_groups url t c :
  Re.search Re.title_re url = Some [t; c] -> t ≠ "" /\ c ≠ "".
Proof.
  intros H. apply search_some in H as (s & H).
  unfold Re.title_re in H. cbn [Re.match_here] in H.
  destruct (Re.drop_prefix "/jobs/view/" s) as [s1|]; [|done].
  apply plus_then_some in H as (g1 & s2 & Hg1 & H). cbn [app] in H.
  destruct (Re.drop_prefix "-at-" s2) as [s3|]; [|done].
  apply plus_then_some in H as (g2 & s4 & Hg2 & H). cbn [app] in H.
  destruct (Re.drop_prefix "-" s4) as [s5|]; [|done].
  apply plus_then_some in H as (g3 & s6 & _ & H).
  cbn in H. by injection H as <- <-.
Qed.

(* ===================================================================== *)
(** ** The provider calls *)
(* ===================================================================== *)

Section ServiceFacts.
Context (env : Env).

(** [extract_json] makes one request and always returns a value. *)
Lemma extract_json_returns text prompt tr :
  exists v,
    LLMService.extract_json env text prompt tr
    = (Ok v, (tr ++ [EvGenerate (LLMService.json_prompt prompt text) 1500])%list).
Proof.
  unfold LLMService.extract_json, try_except, bind, LLMService.generate_text.
  destruct (llm env tr _ 1500) as [content|msg]; [|by eexists].
  destruct (json_of_response env content); by eexists.
Qed.

(** The structuring stage returns the merge of what [extract_json]
    returned into the default posting. *)
Lemma structure_job_data_merges raw_text tr :
  exists result,
    LLMService.extract_json env raw_text
      (structure_prompt env (Str.take 4000 raw_text)) tr
    = (Ok result, (tr ++ [Resolution.structuring_request env raw_text])%list) /\
    JDExtractorAgent._structure_job_data env raw_text tr
    = (Ok (JDExtractorAgent.merge_results result
             (JDExtractorAgent.default_result raw_text)),
       (tr ++ [Resolution.structuring_request env raw_text])%list).
Proof.
  destruct (extract_json_returns raw_text (structure_prompt env (Str.take 4000 raw_text)) tr)
    as (result & H).
  exists result. split; [exact H|].
  unfold JDExtractorAgent._structure_job_data, bind, try_except. by rewrite H.
Qed.

(** A revision that is not a LaTeX document, and a failed request, give
    back the resume that was passed in. *)
Lemma optimize_resume_keeps_previous current_resume ats_feedback prompt tr :
  optimize_prompt env current_resume ats_feedback = Ok prompt ->
  match llm env tr prompt 4000 with
  | GenText optimized =>
      Str.startswith (Str.backslash ++ "documentclass") (Str.strip optimized) = false
  | GenError _ => True
  end ->
  LLMService.optimize_resume env current_resume ats_feedback tr
  = (Ok current_resume, (tr ++ [EvGenerate prompt 4000])%list).
Proof.
  intros Hp Hreply.
  unfold LLMService.optimize_resume, bind, try_except, LLMService.generate_text.
  rewrite Hp. cbn [lift ret].
  destruct (llm env tr prompt 4000) as [optimized|msg]; [|reflexivity].
  cbn [ret]. by rewrite Hreply.
Qed.

End ServiceFacts.

(* ===================================================================== *)
(** ** The scraper *)
(* ===================================================================== *)

Lemma fetched_app (a b : list event) : fetched (a ++ b)%list = (fetched a ++ fetched b)%list.
Proof.
  induction a as [|ev a IH]; [reflexivity|].
  destruct ev; cbn; by rewrite IH.
Qed.

Section ScraperFacts.
Context (env : Env).

(** Every site fetcher performs exactly one GET and returns a result. *)
Lemma fetch_site_returns url tr :
  exists result,
    (if Str.contains "linkedin.com" url then WebScraperService._fetch_linkedin env url
     else if Str.contains "indeed.com" url then WebScraperService._fetch_indeed env url
     else if Str.contains "glassdoor.com" url then WebScraperService._fetch_glassdoor env url
     else WebScraperService._fetch_generic env url) tr
    = (Ok result, (tr ++ [EvFetch url])%list).
Proof.
  unfold WebScraperService._fetch_linkedin, WebScraperService._fetch_indeed,
    WebScraperService._fetch_glassdoor, WebScraperService._fetch_generic.
  destruct (Str.contains "linkedin.com" url);
    [|destruct (Str.contains "indeed.com" url);
      [|destruct (Str.contains "glassdoor.com" url)]];
    destruct (http env tr url) as [ce msg|code ti co tx]; try by eexists.
  - destruct (negb (code =? 200)); [by eexists|].
    destruct (Str.len tx <? 50); by eexists.
  - destruct (negb (code =? 200)); by eexists.
  - destruct (negb (code =? 200)); by eexists.
  - destruct (negb (code =? 200)); by eexists.
Qed.

Lemma fetch_job_from_url_returns url tr :
  exists result,
    WebScraperService.fetch_job_from_url env url tr
    = (Ok result, (tr ++ [EvFetch url])%list).
Proof.
  unfold WebScraperService.fetch_job_from_url, try_except, bind.
  destruct (fetch_site_returns url tr) as (result & ->).
  destruct (WebScraperService._parse_url_info env url) as [info|]; [|by eexists].
  destruct (negb (truthy (get result "success"))); by eexists.
Qed.

(** What the URL of a LinkedIn posting with a title-at-company slug tells. *)
Lemma parse_url_info_slug url pq t c :
  urlparse env url = Some pq ->
  Str.contains "linkedin.com" url = true ->
  Re.search Re.title_re url = Some [t; c] ->
  exists info,
    WebScraperService._parse_url_info env url = Some info /\
    info !! "title" = Some (PStr (WebScraperService.slug_words t)) /\
    info !! "company" = Some (PStr (WebScraperService.slug_words c)).
Proof.
  intros Hp Hl Hs. unfold WebScraperService._parse_url_info.
  rewrite Hp. destruct pq as [path query]. rewrite Hl, Hs.
  eexists. split.
  - rewrite bool_decide_eq_false_2; [reflexivity|]. apply insert_non_empty.
  - split; by lookup_env.
Qed.

(** A LinkedIn fetch answered with a status other than 200 is a failure
    of the site fetcher; with the slug it becomes the placeholder. *)
Lemma fetch_job_from_url_placeholder url tr info code ti co tx :
  WebScraperService._parse_url_info env url = Some info ->
  Str.contains "linkedin.com" url = true ->
  http env tr url = FetchPage code ti co tx ->
  code ≠ 200 ->
  WebScraperService.fetch_job_from_url env url tr
  = (Ok (WebScraperService.url_parsed env info url
           "Job details extracted from URL. For best results, paste the full job description."),
     (tr ++ [EvFetch url])%list).
Proof.
  intros Hinfo Hl Hhttp Hcode.
  unfold WebScraperService.fetch_job_from_url, try_except, bind.
  rewrite Hinfo, Hl. unfold WebScraperService._fetch_linkedin. rewrite Hhttp.
  apply Z.eqb_neq in Hcode. rewrite Hcode. cbn [negb].
  unfold get, WebScraperService.failure. by lookup_env.
Qed.

(** The placeholder text is never short: stripped, it keeps at least its
    last line. *)
Lemma placeholder_long info url :
  20 <= Str.len (Str.strip (WebScraperService._generate_placeholder_jd env info url)).
Proof.
  unfold WebScraperService._generate_placeholder_jd, Str.strip.
  set (source := py_str env _). set (title := py_str env (get_or info "title" _)).
  set (company := py_str env (get_or info "company" _)).
  change ("Job Posting from " ++ ?rest) with (String "J" ("ob Posting from " ++ rest)).
  rewrite lstrip_keeps by reflexivity.
  change (String "J" ("ob Posting from " ++ ?rest)) with ("Job Posting from " ++ rest).
  unfold Str.len.
  repeat lazymatch goal with
    | |- _ <= Z.of_nat (String.length (Str.rstrip (_ ++ (_ ++ _)))) =>
        etransitivity; [|apply Nat2Z.inj_le, rstrip_append_le]
    end.
  by vm_compute.
Qed.

End ScraperFacts.

(* ===================================================================== *)
(** ** The extractor *)
(* ===================================================================== *)

(** The merge, key by key: a truthy value of the response wins, every
    other key keeps what the default posting has. *)
Lemma merge_items_lookup (result dflt : gmap string pyval) (k : string) :
  JDExtractorAgent.merge_items result dflt !! k
  = match result !! k with
    | Some v => if truthy v then Some v else dflt !! k
    | None => dflt !! k
    end.
Proof.
  unfold JDExtractorAgent.merge_items. revert k.
  apply (map_fold_weak_ind
           (fun r m => forall k, r !! k = match m !! k with
                                         | Some v => if truthy v then Some v else dflt !! k
                                         | None => dflt !! k
                                         end)).
  - intros k. by rewrite lookup_empty.
  - intros i x m r Hi IH k.
    destruct (decide (i = k)) as [->|Hne].
    + rewrite lookup_insert_eq. destruct (truthy x).
      * by rewrite lookup_insert_eq.
      * by rewrite IH, Hi.
    + rewrite (lookup_insert_ne m) by done. destruct (truthy x).
      * by rewrite lookup_insert_ne.
      * apply IH.
Qed.

Lemma merge_results_keeps_default result dflt k :
  is_Some (dflt !! k) -> is_Some (JDExtractorAgent.merge_results result dflt !! k).
Proof.
  intros Hd. destruct result; try exact Hd. cbn [JDExtractorAgent.merge_results].
  rewrite merge_items_lookup. destruct (d !! k) as [v|]; [|exact Hd].
  destruct (truthy v); [by eexists | exact Hd].
Qed.

Section ExtractorFacts.
Context (env : Env).

Lemma apply_hints_title title company sd :
  truthy title = true ->
  Resolution.apply_hints title company sd !! "job_title" = Some title.
Proof.
  intros Ht. unfold Resolution.apply_hints. rewrite Ht.
  destruct (truthy company); by lookup_env.
Qed.

Lemma apply_hints_company title company sd :
  truthy company = true ->
  Resolution.apply_hints title company sd !! "company_name" = Some company.
Proof.
  intros Hc. unfold Resolution.apply_hints. rewrite Hc. by lookup_env.
Qed.

Lemma apply_hints_other title company sd k :
  k ≠ "job_title" -> k ≠ "company_name" ->
  Resolution.apply_hints title company sd !! k = sd !! k.
Proof.
  intros H1 H2. unfold Resolution.apply_hints.
  destruct (truthy company), (truthy title);
    rewrite ?lookup_insert_ne by congruence; reflexivity.
Qed.

(** With an empty or blank URL, [execute] goes straight to the text. *)
Lemma execute_no_url input tr u :
  get_or input "job_url" (PStr "") = PStr u ->
  Str.strip u = "" ->
  JDExtractorAgent.execute env input tr
  = Resolution.structure_text env
      (get_or input "job_description_text" (PStr ""))
      (get_or input "job_title" (PStr ""))
      (get_or input "company_name" (PStr "")) tr.
Proof.
  intros Hu Hblank. unfold JDExtractorAgent.execute. rewrite Hu.
  unfold bind at 1. cbn [truthy py_strip lift]. rewrite Hblank.
  destruct (negb (u =? "")%string); reflexivity.
Qed.

(** With any other URL the page is fetched first, and the fetched text
    replaces the pasted one. *)
Lemma execute_url input tr u :
  get_or input "job_url" (PStr "") = PStr u ->
  Str.strip u ≠ "" ->
  JDExtractorAgent.execute env input tr
  = match WebScraperService.fetch_job_from_url env (Str.strip u) tr with
    | (Ok scrape_result, tr1) =>
        if truthy (get scrape_result "success") then
          Resolution.structure_text env
            (get_or scrape_result "job_text" (PStr ""))
            (if truthy (get_or input "job_title" (PStr ""))
             then get_or input "job_title" (PStr "")
             else get_or scrape_result "title" (PStr ""))
            (if truthy (get_or input "company_name" (PStr ""))
             then get_or input "company_name" (PStr "")
             else get_or scrape_result "company" (PStr "")) tr1
        else
          (Raise (Exn "ValueError"
                    ("Could not extract job from URL: "
                     ++ py_str env (get_or scrape_result "error"
                                      (PStr "Failed to fetch URL")))), tr1)
    | (Raise e, tr1) => (Raise e, tr1)
    end.
Proof.
  intros Hu Hurl. unfold JDExtractorAgent.execute. rewrite Hu.
  assert (Hne : u ≠ "") by (intros ->; by apply Hurl).
  unfold bind at 1. cbn [truthy py_strip lift].
  rewrite (eqb_empty_false u Hne). cbn [negb andb ret].
  rewrite (eqb_empty_false _ Hurl). cbn [negb andb ret].
  unfold bind at 1. unfold bind at 1.
  destruct (WebScraperService.fetch_job_from_url env (Str.strip u) tr)
    as [[scrape_result|e] tr1]; [|reflexivity].
  destruct (truthy (get scrape_result "success")); reflexivity.
Qed.

(** The second half on a text: too short once stripped, it fails without
    asking the provider; otherwise it structures the text. *)
Lemma structure_text_string text title company tr :
  Resolution.structure_text env (PStr text) title company tr
  = if Str.len (Str.strip text) <? 20
    then (Raise JDExtractorAgent.no_description, tr)
    else
      match JDExtractorAgent._structure_job_data env text tr with
      | (Ok structured_data, tr') =>
          (Ok (Resolution.apply_hints title company structured_data), tr')
      | (Raise e, tr') => (Raise e, tr')
      end.
Proof.
  unfold Resolution.structure_text, bind. cbn [truthy py_strip lift].
  destruct text as [|c text]; [reflexivity|].
  cbn [String.eqb negb orb ret].
  destruct (Str.len (Str.strip (String c text)) <? 20); [reflexivity|].
  destruct (JDExtractorAgent._structure_job_data env (String c text) tr) as [[sd|e] tr'];
    reflexivity.
Qed.

Lemma structure_text_fetched job_text title company tr :
  fetched (snd (Resolution.structure_text env job_text title company tr)) = fetched tr.
Proof.
  destruct job_text;
    try (unfold Resolution.structure_text, bind; cbn [truthy py_strip lift];
         repeat match goal with
                | |- context [if ?b then _ else _] => destruct b
                | |- context [match ?l with [] => _ | _ => _ end] => destruct l
                end; reflexivity).
  rewrite structure_text_string.
  destruct (Str.len (Str.strip s) <? 20); [reflexivity|].
  destruct (structure_job_data_merges env s tr) as (result & _ & ->).
  cbn [snd]. rewrite fetched_app. cbn. by rewrite app_nil_r.
Qed.

Lemma execute_fetched input tr u :
  get_or input "job_url" (PStr "") = PStr u ->
  fetched (snd (JDExtractorAgent.execute env input tr))
  = (fetched tr ++ (if (Str.strip u =? "")%string then [] else [Str.strip u]))%list.
Proof.
  intros Hu. destruct (Str.strip u =? "")%string eqn:Hb.
  - apply String.eqb_eq in Hb. rewrite (execute_no_url _ _ _ Hu Hb).
    rewrite structure_text_fetched. by rewrite app_nil_r.
  - apply String.eqb_neq in Hb. rewrite (execute_url _ _ _ Hu Hb).
    destruct (fetch_job_from_url_returns env (Str.strip u) tr) as (scrape_result & ->).
    assert (Hf : fetched (tr ++ [EvFetch (Str.strip u)])%list
                 = (fetched tr ++ [Str.strip u])%list)
      by (by rewrite fetched_app).
    destruct (truthy (get scrape_result "success")); [|exact Hf].
    by rewrite structure_text_fetched.
Qed.

Lemma run_fetched name execute input tr :
  fetched (snd (BaseAgent.run env name execute input tr))
  = fetched (snd (execute input (tr ++ [EvLog name "START"])%list)).
Proof.
  unfold BaseAgent.run.
  destruct (execute input _) as [[result|e] tr1]; cbn [snd];
    rewrite fetched_app; cbn; by rewrite app_nil_r.
Qed.

End ExtractorFacts.

(** C3, as the code has it. The page is fetched exactly when the URL is
    not blank, whatever text was pasted: with an empty or blank URL the
    run fetches nothing, and with any other URL it performs one GET of the
    stripped URL, also when the pasted text is long enough. *)
Theorem C3_fetch_iff_url_given env input tr u :
  get_or input "job_url" (PStr "") = PStr u ->
  fetched (snd (JDExtractorAgent.run env input tr))
  = (fetched tr ++ (if (Str.strip u =? "")%string then [] else [Str.strip u]))%list.
Proof.
  intros Hu. unfold JDExtractorAgent.run. rewrite run_fetched.
  rewrite (execute_fetched env _ _ _ Hu). rewrite fetched_app. cbn.
  by rewrite app_nil_r.
Qed.

(** C4. A request whose URL is a LinkedIn posting with a title-at-company
    slug, with no title or company given, and whose fetch is answered with
    a status other than 200: the scraper turns the failure into the
    placeholder built from the URL, and the extractor's [run] answers a
    posting with [success = True] whose title and company are the ones
    parsed from the slug; the error path is not taken.  The two groups of
    the slug are taken without the two code points whose title case lies
    above 255, so that [slug_words] is what [str.title] gives. *)
Theorem C4_slug_url_degrades_to_placeholder env input tr raw pq t c code ti co tx :
  Chars.all Str.title_closed t = true ->
  Chars.all Str.title_closed c = true ->
  get_or input "job_url" (PStr "") = PStr raw ->
  truthy (get_or input "job_title" (PStr "")) = false ->
  truthy (get_or input "company_name" (PStr "")) = false ->
  Str.contains "linkedin.com" (Str.strip raw) = true ->
  urlparse env (Str.strip raw) = Some pq ->
  Re.search Re.title_re (Str.strip raw) = Some [t; c] ->
  http env (tr ++ [EvLog "JD_Extractor" "START"])%list (Str.strip raw)
  = FetchPage code ti co tx ->
  code ≠ 200 ->
  exists info posting tr',
    WebScraperService.fetch_job_from_url env (Str.strip raw)
      (tr ++ [EvLog "JD_Extractor" "START"])%list
    = (Ok (WebScraperService.url_parsed env info (Str.strip raw)
             "Job details extracted from URL. For best results, paste the full job description."),
       (tr ++ [EvLog "JD_Extractor" "START"; EvFetch (Str.strip raw)])%list) /\
    info !! "title" = Some (PStr (WebScraperService.slug_words t)) /\
    info !! "company" = Some (PStr (WebScraperService.slug_words c)) /\
    JDExtractorAgent.run env input tr = (Ok posting, tr') /\
    posting !! "success" = Some (PBool true) /\
    posting !! "job_title" = Some (PStr (WebScraperService.slug_words t)) /\
    posting !! "company_name" = Some (PStr (WebScraperService.slug_words c)) /\
    is_Some (posting !! "job_description").
Proof.
  intros _ _ Hu Hnt Hnc Hl Hp Hs Hhttp Hcode.
  set (url := Str.strip raw) in *.
  destruct (parse_url_info_slug env url pq t c Hp Hl Hs) as (info & Hinfo & Ht & Hc).
  pose proof (fetch_job_from_url_placeholder env url _ info code ti co tx
                Hinfo Hl Hhttp Hcode) as Hfetch.
  destruct (title_re_groups url t c Hs) as [Htne Hcne].
  assert (Hurl : url ≠ "") by (by apply (contains_nonempty "linkedin.com")).
  set (note := "Job details extracted from URL. For best results, paste the full job description.") in *.
  set (placeholder := WebScraperService._generate_placeholder_jd env info url).
  set (tr0 := (tr ++ [EvLog "JD_Extractor" "START"])%list) in *.
  destruct (structure_job_data_merges env placeholder (tr0 ++ [EvFetch url])%list)
    as (result & _ & Hstruct).
  set (title := PStr (WebScraperService.slug_words t)).
  set (company := PStr (WebScraperService.slug_words c)).
  assert (Hexec : JDExtractorAgent.execute env input tr0
                  = (Ok (Resolution.apply_hints title company
                           (JDExtractorAgent.merge_results result
                              (JDExtractorAgent.default_result placeholder))),
                     ((tr0 ++ [EvFetch url]) ++ [Resolution.structuring_request env placeholder])%list)).
  { rewrite (execute_url env input tr0 raw Hu Hurl). fold url. rewrite Hfetch.
    assert (Hsucc : truthy (get (WebScraperService.url_parsed env info url note) "success") = true)
      by (unfold get, WebScraperService.url_parsed; by lookup_env).
    assert (Htext : get_or (WebScraperService.url_parsed env info url note) "job_text" (PStr "")
                    = PStr placeholder)
      by (unfold get_or, WebScraperService.url_parsed; by lookup_env).
    assert (Htitle : get_or (WebScraperService.url_parsed env info url note) "title" (PStr "")
                     = title)
      by (unfold WebScraperService.url_parsed, get_or; lookup_env; by rewrite Ht).
    assert (Hcompany : get_or (WebScraperService.url_parsed env info url note) "company" (PStr "")
                       = company)
      by (unfold WebScraperService.url_parsed, get_or; lookup_env; by rewrite Hc).
    rewrite Hsucc, Htext, Htitle, Hcompany, Hnt, Hnc.
    rewrite structure_text_string.
    pose proof (placeholder_long env info url) as Hlong. fold placeholder in Hlong.
    apply Z.ltb_ge in Hlong. rewrite Hlong. by rewrite Hstruct. }
  eexists info, _, _.
  split; [subst tr0; by rewrite <- app_assoc in Hfetch|].
  split; [exact Ht|]. split; [exact Hc|].
  split; [unfold JDExtractorAgent.run; apply (run_success env _ _ _ _ _ _ Hexec)|].
  split; [apply success_envelope_success|].
  assert (Htt : truthy title = true)
    by (cbn; rewrite eqb_empty_false; [done | by apply slug_words_nonempty]).
  assert (Htc : truthy company = true)
    by (cbn; rewrite eqb_empty_false; [done | by apply slug_words_nonempty]).
  split; [rewrite success_envelope_payload by key_ne; by apply apply_hints_title|].
  split; [rewrite success_envelope_payload by key_ne; by apply apply_hints_company|].
  rewrite success_envelope_payload by key_ne.
  rewrite apply_hints_other by key_ne.
  apply merge_results_keeps_default.
  unfold JDExtractorAgent.default_result. lookup_env. by eexists.
Qed.

(** C5, as the code has it. With an empty or blank URL the extractor fails
    exactly when the pasted text has fewer than 20 characters once its
    leading and trailing whitespace is removed.  Then its [run] answers
    the error envelope of the [ValueError] "No job description
    available...", without any field of a posting and without any request
    to the provider; otherwise it answers a posting with
    [success = True]. *)
Theorem C5_no_url_fails_iff_text_short env input tr u text :
  get_or input "job_url" (PStr "") = PStr u ->
  Str.strip u = "" ->
  get_or input "job_description_text" (PStr "") = PStr text ->
  exists envelope tr',
    JDExtractorAgent.run env input tr = (Ok envelope, tr') /\
    if Str.len (Str.strip text) <? 20 then
      envelope !! "success" = Some (PBool false) /\
      envelope !! "error_type" = Some (PStr "ValueError") /\
      envelope !! "error"
      = Some (PStr "No job description available. Please provide a valid URL or paste the job description.") /\
      envelope !! "job_title" = None /\
      envelope !! "company_name" = None /\
      envelope !! "job_description" = None /\
      tr' = (tr ++ [EvLog "JD_Extractor" "START"; EvLog "JD_Extractor" "ERROR"])%list
    else
      envelope !! "success" = Some (PBool true) /\
      is_Some (envelope !! "job_description").
Proof.
  intros Hu Hblank Htext.
  set (tr0 := (tr ++ [EvLog "JD_Extractor" "START"])%list).
  pose proof (execute_no_url env input tr0 u Hu Hblank) as Hexec.
  rewrite Htext, structure_text_string in Hexec.
  destruct (Str.len (Str.strip text) <? 20).
  - eexists _, _. split.
    { unfold JDExtractorAgent.run. apply (run_error env _ _ _ _ _ _ Hexec). }
    split; [apply error_envelope_success|].
    split; [apply error_envelope_type|].
    split; [apply error_envelope_error|].
    split; [by apply error_envelope_other|].
    split; [by apply error_envelope_other|].
    split; [by apply error_envelope_other|].
    subst tr0. by rewrite <- app_assoc.
  - destruct (structure_job_data_merges env text tr0) as (result & _ & Hstruct).
    rewrite Hstruct in Hexec.
    eexists _, _. split.
    { unfold JDExtractorAgent.run. apply (run_success env _ _ _ _ _ _ Hexec). }
    split; [apply success_envelope_success|].
    rewrite success_envelope_payload by key_ne.
    rewrite apply_hints_other by key_ne.
    apply merge_results_keeps_default.
    unfold JDExtractorAgent.default_result. lookup_env. by eexists.
Qed.

(** C6. The structuring stage returns the merge of the provider's
    structured response into the default posting built from the raw text:
    key by key, a value of the response that is present and truthy
    replaces the default, and a key that is missing, or whose value is
    empty, keeps the default; a response that is no dictionary leaves the
    default posting as it is.  For a response with [skills_required] and
    no [requirements], [requirements] stays the empty list and
    [skills_required] is the provided list. *)
Theorem C6_structuring_merge env raw_text tr :
  exists result tr',
    LLMService.extract_json env raw_text
      (structure_prompt env (Str.take 4000 raw_text)) tr = (Ok result, tr') /\
    JDExtractorAgent._structure_job_data env raw_text tr
    = (Ok (JDExtractorAgent.merge_results result
             (JDExtractorAgent.default_result raw_text)), tr') /\
    (forall k,
       JDExtractorAgent.merge_results result (JDExtractorAgent.default_result raw_text) !! k
       = match result with
         | PDict d =>
             match d !! k with
             | Some v =>
                 if truthy v then Some v
                 else JDExtractorAgent.default_result raw_text !! k
             | None => JDExtractorAgent.default_result raw_text !! k
             end
         | _ => JDExtractorAgent.default_result raw_text !! k
         end) /\
    JDExtractorAgent.default_result raw_text !! "job_description"
    = Some (PStr (Str.take 1000 raw_text)) /\
    JDExtractorAgent.default_result raw_text !! "requirements" = Some (PList []) /\
    let response : gmap string pyval :=
      <["skills_required" := PList [PStr "Go"; PStr "SQL"; PStr "Docker"]]>
      (<["job_title" := PStr ""]> ∅) in
    let merged :=
      JDExtractorAgent.merge_results (PDict response)
        (JDExtractorAgent.default_result raw_text) in
    merged !! "requirements" = Some (PList []) /\
    merged !! "skills_required" = Some (PList [PStr "Go"; PStr "SQL"; PStr "Docker"]) /\
    merged !! "job_title" = Some (PStr "Position").
Proof.
  destruct (structure_job_data_merges env raw_text tr) as (result & Hjson & Hstruct).
  exists result, (tr ++ [Resolution.structuring_request env raw_text])%list.
  split; [exact Hjson|]. split; [exact Hstruct|].
  split.
  { intros k. destruct result; try reflexivity. apply merge_items_lookup. }
  split; [unfold JDExtractorAgent.default_result; by lookup_env|].
  split; [unfold JDExtractorAgent.default_result; by lookup_env|].
  cbn zeta. cbn [JDExtractorAgent.merge_results].
  rewrite !merge_items_lookup. unfold JDExtractorAgent.default_result.
  repeat split; by lookup_env.
Qed.

(* ===================================================================== *)
(** ** The scoring stage *)
(* ===================================================================== *)

(** [max(0, min(100, v))]: a number between 0 and 100, and the clamped
    integer when [v] is an integer. *)
Lemma clamp_in_range v m c :
  py_min (PInt 100) v = Ok m ->
  py_max (PInt 0) m = Ok c ->
  exists q,
    num_of c = Some q /\ (0 <= q <= 100)%Q /\
    forall z, v = PInt z -> c = PInt (Z.max 0 (Z.min 100 z)).
Proof.
  unfold py_min, py_max, py_lt, py_gt. cbn [num_of].
  destruct (num_of v) as [x|] eqn:Hx; [|discriminate].
  destruct (Qcompare x (inject_Z 100)) eqn:H100; intros [= <-].
  - cbn. intros [= <-]. exists (inject_Z 100). split; [done|]. split; [done|].
    intros z ->. injection Hx as <-. rewrite Qcompare_inject_Z in H100.
    apply Z.compare_eq_iff in H100. subst z. reflexivity.
  - rewrite Hx.
    destruct (Qcompare x (inject_Z 0)) eqn:H0; intros [= <-].
    + exists (inject_Z 0). split; [done|]. split; [done|].
      intros z ->. injection Hx as <-. rewrite Qcompare_inject_Z in H0.
      apply Z.compare_eq_iff in H0. subst z. reflexivity.
    + exists (inject_Z 0). split; [done|]. split; [done|].
      intros z ->. injection Hx as <-. rewrite Qcompare_inject_Z in H0.
      change (z < 0) in H0. f_equal. lia.
    + exists x. split; [done|].
      split; [split; apply Qlt_le_weak; [by apply Qgt_alt | by apply Qlt_alt]|].
      intros z ->. injection Hx as <-. rewrite Qcompare_inject_Z in H100, H0.
      change (z < 100) in H100. apply Z.compare_gt_iff in H0. f_equal. lia.
  - cbn. intros [= <-]. exists (inject_Z 100). split; [done|]. split; [done|].
    intros z ->. injection Hx as <-. rewrite Qcompare_inject_Z in H100.
    apply Z.compare_gt_iff in H100. f_equal. lia.
Qed.

(** The range step succeeds on dictionaries only; it sets the score to the
    clamped value, or to 50 when the dictionary has none. *)
Lemma ensure_score_in_range_ok result r :
  LLMService.ensure_score_in_range result = Ok r ->
  exists d c q,
    result = PDict d /\ r = PDict (<["ats_score" := c]> d) /\
    num_of c = Some q /\ (0 <= q <= 100)%Q /\
    match d !! "ats_score" with
    | None => c = PInt 50
    | Some (PInt z) => c = PInt (Z.max 0 (Z.min 100 z))
    | Some _ => True
    end.
Proof.
  destruct result as [| | | | s | l | d]; cbn [LLMService.ensure_score_in_range];
    try discriminate.
  - by destruct (Str.contains "ats_score" s).
  - by destruct (existsb LLMService.is_ats_score_key l).
  - destruct (d !! "ats_score") as [v|] eqn:Hv.
    + destruct (py_min (PInt 100) v) as [m|] eqn:Hm; [|discriminate].
      destruct (py_max (PInt 0) m) as [c|] eqn:Hc; [|discriminate].
      intros [= <-]. destruct (clamp_in_range v m c Hm Hc) as (q & Hq & Hr & Hz).
      exists d, c, q. rewrite Hv. repeat split; try done; try apply Hr.
      destruct v; try done. by apply Hz.
    + intros [= <-]. exists d, (PInt 50), (inject_Z 50). rewrite Hv. by repeat split.
Qed.

(** [max(0, min(100, v))], exactly: the bound, as an integer, when [v] is
    not strictly inside the range, and [v] itself when it is. *)
Lemma clamp_exact v m c :
  py_min (PInt 100) v = Ok m ->
  py_max (PInt 0) m = Ok c ->
  exists x,
    num_of v = Some x /\
    ((100 <= x)%Q /\ c = PInt 100 \/
     (x <= 0)%Q /\ c = PInt 0 \/
     (0 < x)%Q /\ (x < 100)%Q /\ c = v).
Proof.
  unfold py_min, py_max, py_lt, py_gt. cbn [num_of].
  destruct (num_of v) as [x|] eqn:Hx; [|discriminate].
  destruct (Qcompare x (inject_Z 100)) eqn:H100; intros [= <-].
  - cbn. intros [= <-]. exists x. split; [reflexivity|]. left. split; [|reflexivity].
    apply Qeq_alt in H100. rewrite H100. apply Qle_refl.
  - rewrite Hx. apply Qlt_alt in H100.
    destruct (Qcompare x (inject_Z 0)) eqn:H0; intros [= <-];
      (exists x; split; [reflexivity|]).
    + right. left. split; [|reflexivity]. apply Qeq_alt in H0. rewrite H0. apply Qle_refl.
    + right. left. split; [|reflexivity]. apply Qlt_le_weak. by apply Qlt_alt.
    + right. right. split; [by apply Qgt_alt|]. by split.
  - cbn. intros [= <-]. exists x. split; [reflexivity|]. left. split; [|reflexivity].
    apply Qlt_le_weak. by apply Qgt_alt.
Qed.

Lemma ensure_score_in_range_exact d r s :
  LLMService.ensure_score_in_range (PDict d) = Ok r ->
  d !! "ats_score" = Some s ->
  exists c x,
    r = PDict (<["ats_score" := c]> d) /\ num_of s = Some x /\
    ((100 <= x)%Q /\ c = PInt 100 \/
     (x <= 0)%Q /\ c = PInt 0 \/
     (0 < x)%Q /\ (x < 100)%Q /\ c = s).
Proof.
  cbn [LLMService.ensure_score_in_range]. intros H Hs. rewrite Hs in H.
  destruct (py_min (PInt 100) s) as [m|] eqn:Hm; [|discriminate].
  destruct (py_max (PInt 0) m) as [c|] eqn:Hc; [|discriminate].
  injection H as <-. destruct (clamp_exact s m c Hm Hc) as (x & Hx & Hcases).
  by exists c, x.
Qed.

(** C9, as the code has it. A scoring call that returns a result reports a
    number between 0 and 100: the provider's score itself when it lies
    strictly between 0 and 100 (so a fractional score is reported as it
    is, unrounded), the integer 100 when the score is 100 or more, the
    integer 0 when it is 0 or less, and 50 when the provider's dictionary
    has no score. *)
Theorem C9_reported_score_in_range env input tr envelope tr' :
  ATSScorerAgent.run env input tr = (Ok envelope, tr') ->
  envelope !! "success" = Some (PBool true) ->
  exists prompt d tr1 v q,
    ats_prompt env (get input "resume_content") (get input "job_data") = Ok prompt /\
    LLMService.extract_json env "" prompt (tr ++ [EvLog "ATS_Scorer" "START"])%list
    = (Ok (PDict d), tr1) /\
    envelope !! "ats_score" = Some v /\
    num_of v = Some q /\ (0 <= q <= 100)%Q /\
    match d !! "ats_score" with
    | None => v = PInt 50
    | Some s =>
        exists x,
          num_of s = Some x /\
          ((100 <= x)%Q /\ v = PInt 100 \/
           (x <= 0)%Q /\ v = PInt 0 \/
           (0 < x)%Q /\ (x < 100)%Q /\ v = s)
    end /\
    (forall z, d !! "ats_score" = Some (PInt z) -> v = PInt (Z.max 0 (Z.min 100 z))) /\
    (forall x, d !! "ats_score" = Some (PFloat x) ->
               (0 < x)%Q -> (x < 100)%Q -> v = PFloat x).
Proof.
  unfold ATSScorerAgent.run, BaseAgent.run.
  set (tr0 := (tr ++ [EvLog ATSScorerAgent.agent_name "START"])%list).
  destruct (ATSScorerAgent.execute env input tr0) as [[payload|e] tr2] eqn:Hex;
    intros [= <- <-] Hsucc;
    [|by rewrite error_envelope_success in Hsucc].
  unfold ATSScorerAgent.execute in Hex.
  destruct (negb (truthy (get input "resume_content"))
            || negb (truthy (get input "job_data"))); [discriminate|].
  unfold bind, LLMService.calculate_ats_score in Hex. unfold bind at 1 in Hex.
  destruct (ats_prompt env (get input "resume_content") (get input "job_data"))
    as [prompt|e] eqn:Hp; [|discriminate].
  cbn [lift ret] in Hex. unfold bind in Hex.
  destruct (extract_json_returns env "" prompt tr0) as (res & Hjson).
  rewrite Hjson in Hex.
  destruct (LLMService.ensure_score_in_range res) as [r|e] eqn:Hr; [|discriminate].
  cbn [lift ret] in Hex.
  destruct (ensure_score_in_range_ok res r Hr) as (d & c & q & -> & Hr' & Hq & Hrange & Hd).
  assert (Hexact : match d !! "ats_score" with
                   | None => c = PInt 50
                   | Some s =>
                       exists x,
                         num_of s = Some x /\
                         ((100 <= x)%Q /\ c = PInt 100 \/
                          (x <= 0)%Q /\ c = PInt 0 \/
                          (0 < x)%Q /\ (x < 100)%Q /\ c = s)
                   end).
  { destruct (d !! "ats_score") as [s|] eqn:Hs; [|exact Hd].
    destruct (ensure_score_in_range_exact d r s Hr Hs) as (c' & x & Hc' & Hx & Hcases).
    rewrite Hr' in Hc'. injection Hc' as Hc'.
    assert (c = c') as <-.
    { apply (f_equal (fun m : gmap string pyval => m !! "ats_score")) in Hc'.
      rewrite !lookup_insert_eq in Hc'. by injection Hc'. }
    by exists x. }
  subst r.
  cbn [ATSScorerAgent.score_payload ATSScorerAgent.py_get_or lift ret] in Hex.
  injection Hex as <- <-.
  exists prompt, d, (tr0 ++ [EvGenerate (LLMService.json_prompt prompt "") 1500])%list, c, q.
  split; [done|]. split; [exact Hjson|].
  split; [rewrite success_envelope_payload by key_ne; unfold get_or; by lookup_env|].
  split; [exact Hq|]. split; [exact Hrange|]. split; [exact Hexact|].
  split.
  - intros z Hz. by rewrite Hz in Hd.
  - intros x Hx Hpos Hlt. rewrite Hx in Hexact.
    destruct Hexact as (x' & [= <-] & [[Hge _] | [[Hle _] | (_ & _ & Hc)]]).
    + exfalso. by apply (Qlt_not_le x (inject_Z 100)).
    + exfalso. by apply (Qlt_not_le (inject_Z 0) x).
    + exact Hc.
Qed.

(** C3 as stated fails: a URL is given together with a pasted text of 36
    non-whitespace characters, and the URL is fetched. *)
Lemma C3_counterexample :
  20 <= non_space_count pasted_text /\
  fetched (snd (JDExtractorAgent.run (env_of None 404)
                  (jd_request generic_url pasted_text) []))
  = [generic_url].
Proof. by vm_compute. Qed.

(** C3 on two requests with the same pasted text: a URL with leading
    blanks is fetched once, stripped; a blank URL is not fetched. *)
Lemma C3_witness :
  fetched (snd (JDExtractorAgent.run (env_of None 404)
                  (jd_request ("  " ++ generic_url) pasted_text) []))
  = [generic_url] /\
  fetched (snd (JDExtractorAgent.run (env_of None 404)
                  (jd_request "   " pasted_text) []))
  = [].
Proof.
  split.
  - apply (C3_fetch_iff_url_given (env_of None 404)
             (jd_request ("  " ++ generic_url) pasted_text) [] ("  " ++ generic_url)).
    reflexivity.
  - apply (C3_fetch_iff_url_given (env_of None 404)
             (jd_request "   " pasted_text) [] "   ").
    reflexivity.
Defined.

(** C4 on a LinkedIn slug URL answered with status 404. *)
Lemma C4_witness :
  envelope_of (JDExtractorAgent.run (env_of None 404) (jd_request slug_url "") [])
    !! "success" = Some (PBool true) /\
  envelope_of (JDExtractorAgent.run (env_of None 404) (jd_request slug_url "") [])
    !! "job_title" = Some (PStr "Software Engineer") /\
  envelope_of (JDExtractorAgent.run (env_of None 404) (jd_request slug_url "") [])
    !! "company_name" = Some (PStr "Acme Corp").
Proof.
  destruct (C4_slug_url_degrades_to_placeholder (env_of None 404)
              (jd_request slug_url "") [] slug_url ("", "")
              "software-engineer" "acme-corp" 404 "" "" "")
    as (info & posting & tr' & _ & _ & _ & Hrun & Hs & Ht & Hc & _).
  - vm_compute. reflexivity.
  - vm_compute. reflexivity.
  - reflexivity.
  - reflexivity.
  - reflexivity.
  - vm_compute. reflexivity.
  - reflexivity.
  - vm_compute. reflexivity.
  - reflexivity.
  - discriminate.
  - unfold envelope_of. rewrite Hrun. cbn [fst]. repeat split; assumption.
Defined.

(** C5 as stated fails twice.  Without a URL, a text of 18 non-whitespace
    characters whose stripped length is 20 is resolved; and with a URL of
    an unknown host answered with status 404, resolution fails although a
    usable text was pasted. *)
Lemma C5_counterexample :
  non_space_count spaced_text < 20 /\
  envelope_of (JDExtractorAgent.run (env_of None 404) (jd_request "" spaced_text) [])
    !! "success" = Some (PBool true) /\
  20 <= non_space_count pasted_text /\
  envelope_of (JDExtractorAgent.run (env_of None 404)
                 (jd_request generic_url pasted_text) [])
    !! "success" = Some (PBool false).
Proof. by vm_compute. Qed.

(** C5 without a URL, on a text of 13 characters and on one of 20. *)
Lemma C5_witness :
  envelope_of (JDExtractorAgent.run (env_of None 404) (jd_request "" "Rocq engineer") [])
    !! "error_type" = Some (PStr "ValueError") /\
  envelope_of (JDExtractorAgent.run (env_of None 404) (jd_request "" spaced_text) [])
    !! "success" = Some (PBool true).
Proof.
  split.
  - destruct (C5_no_url_fails_iff_text_short (env_of None 404)
                (jd_request "" "Rocq engineer") [] "" "Rocq engineer")
      as (envelope & tr' & Hrun & Hcase); [reflexivity..|].
    unfold envelope_of. rewrite Hrun. cbn [fst].
    change (Str.len (Str.strip "Rocq engineer") <? 20) with true in Hcase.
    apply Hcase.
  - destruct (C5_no_url_fails_iff_text_short (env_of None 404)
                (jd_request "" spaced_text) [] "" spaced_text)
      as (envelope & tr' & Hrun & Hcase); [reflexivity..|].
    unfold envelope_of. rewrite Hrun. cbn [fst].
    change (Str.len (Str.strip spaced_text) <? 20) with false in Hcase.
    apply Hcase.
Defined.

(** C9 as stated fails twice.  A provider score of 72.5 is reported as
    72.5, which is no integer.  And two runs whose provider's answer holds
    no score get different substitutes: for the answer [{}] the scoring
    call reports 50 and the saved row holds 50; for the answer [[]] the
    scoring call fails and the saved row holds the 0 of [generate_resume]. *)
Lemma C9_counterexample :
  envelope_of (first_scoring env_fractional) !! "success" = Some (PBool true) /\
  envelope_of (first_scoring env_fractional) !! "ats_score" = Some (PFloat (145 # 2)) /\
  (forall z : Z, ~ (145 # 2 == inject_Z z)%Q) /\
  envelope_of (first_scoring env_no_score) !! "ats_score" = Some (PInt 50) /\
  (exists row, saved_row env_no_score = Ok row /\ ResumeAPI.ats_score row = PInt 50) /\
  envelope_of (first_scoring env_list) !! "success" = Some (PBool false) /\
  (exists row, saved_row env_list = Ok row /\ ResumeAPI.ats_score row = PInt 0).
Proof.
  split; [by vm_compute|]. split; [by vm_compute|].
  split; [intros z; unfold Qeq; cbn; lia|].
  split; [by vm_compute|].
  split; [eexists; split; [vm_compute; reflexivity | reflexivity]|].
  split; [by vm_compute|].
  eexists; split; [vm_compute; reflexivity | reflexivity].
Qed.

(** C9 on a run whose provider answers 90. *)
Lemma C9_witness :
  envelope_of (first_scoring env90) !! "ats_score" = Some (PInt 90).
Proof.
  destruct (C9_reported_score_in_range env90
              (ResumeAPI.score_input resume0 (PDict job0)) []
              (envelope_of (first_scoring env90)) (snd (first_scoring env90)))
    as (prompt & d & tr1 & v & q & Hp & Hjson & Hv & _ & _ & _ & Hd & _).
  - reflexivity.
  - vm_compute. reflexivity.
  - injection Hp as <-. vm_compute in Hjson. injection Hjson as <- _.
    rewrite Hv. f_equal. apply (Hd 90). reflexivity.
Defined.

(* ===================================================================== *)
(** ** Further properties: the stage wrapper and the optimizer *)
(* ===================================================================== *)

(** X1. [BaseAgent.run] never lets an exception of [execute] escape, and
    its envelope cannot be forged by the payload: whatever keys the payload
    carries, [success] tells whether [execute] returned and [agent_name]
    is the stage's name; every other key of a returned payload is passed
    on unchanged, and a raised exception is reported by its type and
    message.  The call is logged first and last. *)
Theorem X1_run_envelope_contract env name execute input tr :
  exists envelope tr1 status,
    BaseAgent.run env name execute input tr
    = (Ok envelope, (tr1 ++ [EvLog name status])%list) /\
    tr1 = snd (execute input (tr ++ [EvLog name "START"])%list) /\
    envelope !! "agent_name" = Some (PStr name) /\
    match fst (execute input (tr ++ [EvLog name "START"])%list) with
    | Ok payload =>
        status = "SUCCESS" /\
        envelope !! "success" = Some (PBool true) /\
        forall k, k ≠ "success" -> k ≠ "execution_time" -> k ≠ "agent_name" ->
                  envelope !! k = payload !! k
    | Raise e =>
        status = "ERROR" /\
        envelope !! "success" = Some (PBool false) /\
        envelope !! "error" = Some (PStr (exn_msg e)) /\
        envelope !! "error_type" = Some (PStr (exn_type e)) /\
        forall k, k ≠ "agent_name" -> k ≠ "success" -> k ≠ "error" ->
                  k ≠ "error_type" -> k ≠ "execution_time" ->
                  envelope !! k = None
    end.
Proof.
  unfold BaseAgent.run.
  destruct (execute input (tr ++ [EvLog name "START"])%list) as [[payload|e] tr1].
  - eexists _, tr1, "SUCCESS". split; [reflexivity|]. split; [reflexivity|].
    split; [unfold BaseAgent.success_envelope; by lookup_env|].
    cbn [fst]. split; [reflexivity|]. split; [apply success_envelope_success|].
    intros k ? ? ?. by apply success_envelope_payload.
  - eexists _, tr1, "ERROR". split; [reflexivity|]. split; [reflexivity|].
    split; [unfold BaseAgent.error_envelope; by lookup_env|].
    cbn [fst]. split; [reflexivity|]. split; [apply error_envelope_success|].
    split; [apply error_envelope_error|]. split; [apply error_envelope_type|].
    intros k ? ? ? ? ?. by apply error_envelope_other.
Qed.

(** X2. At the cap: when the score is below the target and the iteration
    has reached [max_iterations], the optimizer stage answers
    [should_continue = False] with the note "Max iterations reached", the
    current resume, score and iteration, and asks nothing of the provider. *)
Theorem X2_cap_reached_stops env cfg input tr :
  py_ge (get_or input "ats_score" (PInt 0)) (PInt (ATS_TARGET_SCORE cfg)) = Ok false ->
  py_ge (get_or input "iteration" (PInt 1)) (PInt (MAX_OPTIMIZATION_ITERATIONS cfg)) = Ok true ->
  exists envelope,
    OptimizerAgent.run env cfg input tr
    = (Ok envelope, (tr ++ [EvLog "Optimizer" "START"; EvLog "Optimizer" "SUCCESS"])%list) /\
    envelope !! "success" = Some (PBool true) /\
    envelope !! "should_continue" = Some (PBool false) /\
    envelope !! "note" = Some (PStr "Max iterations reached") /\
    envelope !! "final_resume" = Some (get input "resume_content") /\
    envelope !! "final_score" = Some (get_or input "ats_score" (PInt 0)) /\
    envelope !! "total_iterations" = Some (get_or input "iteration" (PInt 1)) /\
    envelope !! "resume_content" = None.
Proof.
  intros H1 H2.
  pose proof (execute_capped env cfg input (tr ++ [EvLog "Optimizer" "START"])%list H1 H2) as He.
  eexists. split.
  { unfold OptimizerAgent.run, OptimizerAgent.agent_name.
    rewrite (run_success env _ _ _ _ _ _ He).
    by rewrite <- app_assoc. }
  split; [apply success_envelope_success|].
  repeat split; rewrite success_envelope_payload by key_ne;
    unfold capped_payload; by lookup_env.
Qed.

Lemma X2_witness :
  exists envelope,
    OptimizerAgent.run env60 settings
      (ResumeAPI.optimizer_input resume0 (PInt 60) 5 ∅ (PList [])) []
    = (Ok envelope, [EvLog "Optimizer" "START"; EvLog "Optimizer" "SUCCESS"]) /\
    envelope !! "note" = Some (PStr "Max iterations reached") /\
    envelope !! "final_score" = Some (PInt 60).
Proof.
  destruct (X2_cap_reached_stops env60 settings
              (ResumeAPI.optimizer_input resume0 (PInt 60) 5 ∅ (PList [])) [])
    as (envelope & Hrun & _ & _ & Hnote & _ & Hscore & _).
  - vm_compute. reflexivity.
  - vm_compute. reflexivity.
  - exists envelope. split; [exact Hrun|]. split; [exact Hnote | exact Hscore].
Defined.

(** X3. Whatever its input and whatever the settings, the optimizer stage
    never answers [should_continue = True] and never hands back a
    [resume_content] or an [optimization_history]; it makes no request to
    the provider: its trace is its two log entries. *)
Theorem X3_optimizer_never_continues env cfg input tr :
  exists envelope status,
    OptimizerAgent.run env cfg input tr
    = (Ok envelope, (tr ++ [EvLog "Optimizer" "START"; EvLog "Optimizer" status])%list) /\
    truthy (get envelope "should_continue") = false /\
    envelope !! "resume_content" = None /\
    envelope !! "optimization_history" = None.
Proof.
  unfold OptimizerAgent.run, BaseAgent.run.
  pose proof (execute_trace env cfg input (tr ++ [EvLog OptimizerAgent.agent_name "START"])%list) as Htr.
  destruct (OptimizerAgent.execute env cfg input _) as [[result|e] tr1] eqn:He;
    cbn [snd] in Htr; subst tr1.
  - eexists _, "SUCCESS". rewrite <- app_assoc. split; [reflexivity|].
    unfold get. rewrite !success_envelope_payload by key_ne.
    revert He.
    destruct (py_ge (get_or input "ats_score" (PInt 0)) (PInt (ATS_TARGET_SCORE cfg)))
      as [[|]|e] eqn:H1.
    + rewrite (execute_reached _ _ _ _ H1). intros [= <-].
      unfold reached_payload. repeat split; by lookup_env.
    + destruct (py_ge (get_or input "iteration" (PInt 1))
                  (PInt (MAX_OPTIMIZATION_ITERATIONS cfg))) as [[|]|e] eqn:H2.
      * rewrite (execute_capped _ _ _ _ H1 H2). intros [= <-].
        unfold capped_payload. repeat split; by lookup_env.
      * by rewrite (execute_revision_fails _ _ _ _ H1 H2).
      * unfold OptimizerAgent.execute, OptimizerAgent.target_score,
          OptimizerAgent.max_iterations, bind.
        rewrite H1. cbn [lift ret]. rewrite H2. discriminate.
    + unfold OptimizerAgent.execute, OptimizerAgent.target_score, bind.
      rewrite H1. discriminate.
  - eexists _, "ERROR". rewrite <- app_assoc. split; [reflexivity|].
    unfold get. by rewrite !error_envelope_other by key_ne.
Qed.

(* ===================================================================== *)
(** ** Further properties: the scoring stage *)
(* ===================================================================== *)

Lemma stage_calls_app agent (a b : list event) :
  stage_calls agent (a ++ b)%list = stage_calls agent a + stage_calls agent b.
Proof.
  induction a as [|ev a IH]; [reflexivity|].
  destruct ev; cbn [app stage_calls]; rewrite IH; lia.
Qed.

Lemma requests_with_app m (a b : list event) :
  requests_with m (a ++ b)%list = requests_with m a + requests_with m b.
Proof.
  induction a as [|ev a IH]; [reflexivity|].
  destruct ev; cbn [app requests_with]; rewrite IH; lia.
Qed.

(** A number can always be clamped. *)
Lemma clamp_number v :
  is_number v = true ->
  exists m c, py_min (PInt 100) v = Ok m /\ py_max (PInt 0) m = Ok c.
Proof.
  unfold is_number, py_min, py_max, py_lt, py_gt. cbn [num_of].
  destruct (num_of v) as [x|] eqn:Hx; [intros _|discriminate].
  destruct (Qcompare x (inject_Z 100)).
  - eexists _, _. split; [reflexivity|]. cbn. reflexivity.
  - eexists _, _. split; [reflexivity|]. rewrite Hx. reflexivity.
  - eexists _, _. split; [reflexivity|]. cbn. reflexivity.
Qed.

Lemma clamp_is_number v m :
  py_min (PInt 100) v = Ok m -> is_number v = true.
Proof.
  unfold py_min, py_lt, is_number. cbn [num_of].
  by destruct (num_of v).
Qed.

Section ScorerFacts.
Context (env : Env).

(** What [execute] of the scoring stage has done when it returns. *)
Lemma scorer_execute_inv input tr payload tr1 :
  ATSScorerAgent.execute env input tr = (Ok payload, tr1) ->
  exists prompt d c q,
    truthy (get input "resume_content") = true /\
    truthy (get input "job_data") = true /\
    ats_prompt env (get input "resume_content") (get input "job_data") = Ok prompt /\
    LLMService.extract_json env "" prompt tr = (Ok (PDict d), tr1) /\
    tr1 = (tr ++ [EvGenerate (LLMService.json_prompt prompt "") 1500])%list /\
    payload
    = <["ats_score" := c]>
      (<["keyword_matches" := get_or d "keyword_matches" (PList [])]>
      (<["missing_keywords" := get_or d "missing_keywords" (PList [])]>
      (<["suggestions" := get_or d "suggestions" (PList [])]> ∅))) /\
    num_of c = Some q /\ (0 <= q <= 100)%Q /\
    match d !! "ats_score" with
    | None => c = PInt 50
    | Some (PInt z) => c = PInt (Z.max 0 (Z.min 100 z))
    | Some v => is_number v = true
    end.
Proof.
  unfold ATSScorerAgent.execute.
  destruct (truthy (get input "resume_content")) eqn:Hr; [|discriminate].
  destruct (truthy (get input "job_data")) eqn:Hj; [|discriminate].
  cbn [negb orb]. unfold bind, LLMService.calculate_ats_score. unfold bind at 1.
  destruct (ats_prompt env (get input "resume_content") (get input "job_data"))
    as [prompt|e] eqn:Hp; [|discriminate].
  cbn [lift ret]. unfold bind.
  destruct (extract_json_returns env "" prompt tr) as (res & Hjson). rewrite Hjson.
  destruct (LLMService.ensure_score_in_range res) as [r|e] eqn:Hr'; [|discriminate].
  cbn [lift ret].
  destruct (ensure_score_in_range_ok res r Hr') as (d & c & q & -> & -> & Hq & Hrange & Hd).
  cbn [ATSScorerAgent.score_payload ATSScorerAgent.py_get_or lift ret].
  intros [= <- <-].
  exists prompt, d, c, q. repeat split; try done.
  - unfold get_or. f_equal; [by lookup_env|].
    f_equal; [by lookup_env|]. f_equal; [by lookup_env|]. f_equal. by lookup_env.
  - apply Hrange.
  - apply Hrange.
  - destruct (d !! "ats_score") as [v|] eqn:Hv; [|done].
    cbn [LLMService.ensure_score_in_range] in Hr'. rewrite Hv in Hr'.
    destruct (py_min (PInt 100) v) as [m|] eqn:Hm; [|discriminate].
    pose proof (clamp_is_number v m Hm) as Hn.
    destruct v; try done.
Qed.

(** The trace of [execute] of the scoring stage: at most one request, of
    1500 tokens. *)
Lemma scorer_execute_shape input tr :
  exists r evs,
    ATSScorerAgent.execute env input tr = (r, (tr ++ evs)%list) /\
    (evs = [] \/ exists prompt, evs = [EvGenerate prompt 1500]).
Proof.
  unfold ATSScorerAgent.execute.
  destruct (negb (truthy (get input "resume_content"))
            || negb (truthy (get input "job_data"))).
  { eexists _, []. rewrite app_nil_r. split; [reflexivity | by left]. }
  unfold bind, LLMService.calculate_ats_score. unfold bind at 1.
  destruct (ats_prompt env _ _) as [prompt|e].
  2:{ eexists _, []. rewrite app_nil_r. split; [reflexivity | by left]. }
  cbn [lift ret]. unfold bind.
  destruct (extract_json_returns env "" prompt tr) as (res & ->).
  destruct (LLMService.ensure_score_in_range res) as [r|e]; cbn [lift ret raise].
  - destruct (ATSScorerAgent.score_payload r);
      eexists _, [_]; (split; [reflexivity | right; by eexists]).
  - eexists _, [_]. split; [reflexivity | right; by eexists].
Qed.

(** A scoring call: its two log entries around at most one request; its
    envelope reports a failure, or a score between 0 and 100. *)
Lemma scorer_run_status input tr :
  exists envelope evs status,
    ATSScorerAgent.run env input tr
    = (Ok envelope,
       (tr ++ [EvLog "ATS_Scorer" "START"] ++ evs ++ [EvLog "ATS_Scorer" status])%list) /\
    (evs = [] \/ exists prompt, evs = [EvGenerate prompt 1500]) /\
    (status = "SUCCESS" \/ status = "ERROR") /\
    (envelope !! "success" = Some (PBool false) \/
     envelope !! "success" = Some (PBool true) /\
     exists c q, envelope !! "ats_score" = Some c /\ num_of c = Some q /\
                 (0 <= q <= 100)%Q).
Proof.
  unfold ATSScorerAgent.run, BaseAgent.run, ATSScorerAgent.agent_name.
  destruct (scorer_execute_shape input (tr ++ [EvLog "ATS_Scorer" "START"])%list)
    as ([payload|e] & evs & Hex & Hevs); rewrite Hex.
  - eexists _, evs, "SUCCESS". split; [by rewrite <- !app_assoc|].
    split; [exact Hevs|]. split; [by left|].
    right. split; [apply success_envelope_success|].
    destruct (scorer_execute_inv input _ payload _ Hex)
      as (prompt & d & c & q & _ & _ & _ & _ & _ & -> & Hq & Hrange & _).
    exists c, q. split; [|done].
    rewrite success_envelope_payload by key_ne. by lookup_env.
  - eexists _, evs, "ERROR". split; [by rewrite <- !app_assoc|].
    split; [exact Hevs|]. split; [by right|]. left. apply error_envelope_success.
Qed.

End ScorerFacts.

(** What decides the success of the scoring stage, read off the value
    [extract_json] returns. *)
Lemma succeeds_extract_json env input tr :
  Scoring.succeeds env input tr
  = truthy (get input "resume_content") && truthy (get input "job_data") &&
    match ats_prompt env (get input "resume_content") (get input "job_data") with
    | Ok prompt =>
        match fst (LLMService.extract_json env "" prompt tr) with
        | Ok (PDict d) =>
            match d !! "ats_score" with
            | Some v => is_number v
            | None => true
            end
        | _ => false
        end
    | Raise _ => false
    end.
Proof.
  unfold Scoring.succeeds. f_equal.
  destruct (ats_prompt env _ _) as [prompt|e]; [|reflexivity].
  unfold LLMService.extract_json, try_except, bind, LLMService.generate_text, ret.
  destruct (llm env tr (LLMService.json_prompt prompt "") 1500) as [content|msg];
    cbn [fst].
  - destruct (json_of_response env content) as [v|]; cbn [fst]; [by destruct v|].
    by rewrite lookup_insert_ne, lookup_insert_ne, lookup_empty by key_ne.
  - by rewrite lookup_insert_ne, lookup_empty by key_ne.
Qed.

(** X4. The scoring stage reports success exactly when both of its inputs
    are truthy, its prompt can be built, and the provider's request fails,
    or its answer cannot be parsed, or it parses to a dictionary whose
    [ats_score] is absent or a number.  In every other case (a falsy
    input, no prompt, a parsed answer that is no dictionary, a score that
    is no number) its envelope has [success = False]. *)
Theorem X4_scoring_success_characterised env input tr :
  exists envelope tr',
    ATSScorerAgent.run env input tr = (Ok envelope, tr') /\
    envelope !! "success"
    = Some (PBool (Scoring.succeeds env input (tr ++ [EvLog "ATS_Scorer" "START"])%list)).
Proof.
  unfold ATSScorerAgent.run, BaseAgent.run, ATSScorerAgent.agent_name.
  set (tr0 := (tr ++ [EvLog "ATS_Scorer" "START"])%list).
  destruct (ATSScorerAgent.execute env input tr0) as [[payload|e] tr1] eqn:Hex.
  - eexists _, _. split; [reflexivity|]. rewrite success_envelope_success.
    destruct (scorer_execute_inv env input tr0 payload tr1 Hex)
      as (prompt & d & c & q & Hr & Hj & Hp & Hjson & _ & _ & _ & _ & Hd).
    rewrite succeeds_extract_json, Hr, Hj, Hp, Hjson. cbn [andb fst].
    destruct (d !! "ats_score") as [v|]; [|done].
    destruct v; try done; by rewrite Hd.
  - eexists _, _. split; [reflexivity|]. rewrite error_envelope_success.
    do 2 f_equal. symmetry. rewrite succeeds_extract_json.
    unfold ATSScorerAgent.execute in Hex.
    destruct (truthy (get input "resume_content")); [|done].
    destruct (truthy (get input "job_data")); [|done].
    cbn [negb orb andb] in *.
    unfold bind, LLMService.calculate_ats_score in Hex. unfold bind at 1 in Hex.
    destruct (ats_prompt env _ _) as [prompt|e']; [|done].
    cbn [lift ret] in Hex. unfold bind in Hex.
    destruct (extract_json_returns env "" prompt tr0) as (res & Hjson).
    rewrite Hjson in Hex. rewrite Hjson. cbn [fst].
    destruct res as [| | | | | |d]; try done.
    destruct (d !! "ats_score") as [v|] eqn:Hv.
    + destruct (is_number v) eqn:Hn; [|done].
      destruct (clamp_number v Hn) as (m & c & Hm & Hc).
      cbn [LLMService.ensure_score_in_range] in Hex.
      rewrite Hv, Hm, Hc in Hex. discriminate Hex.
    + cbn [LLMService.ensure_score_in_range] in Hex. rewrite Hv in Hex.
      discriminate Hex.
Qed.

(** X5. A provider that fails, or whose answer cannot be parsed, does not
    fail the scoring stage: the stage answers [success = True] with the
    score 50 and empty keyword and suggestion lists, after one request. *)
Theorem X5_provider_failure_scores_50 env input tr prompt :
  truthy (get input "resume_content") = true ->
  truthy (get input "job_data") = true ->
  ats_prompt env (get input "resume_content") (get input "job_data") = Ok prompt ->
  match llm env (tr ++ [EvLog "ATS_Scorer" "START"])%list
          (LLMService.json_prompt prompt "") 1500 with
  | GenText content => json_of_response env content = None
  | GenError _ => True
  end ->
  exists envelope,
    ATSScorerAgent.run env input tr
    = (Ok envelope,
       (tr ++ [EvLog "ATS_Scorer" "START";
               EvGenerate (LLMService.json_prompt prompt "") 1500;
               EvLog "ATS_Scorer" "SUCCESS"])%list) /\
    envelope !! "success" = Some (PBool true) /\
    envelope !! "ats_score" = Some (PInt 50) /\
    envelope !! "keyword_matches" = Some (PList []) /\
    envelope !! "missing_keywords" = Some (PList []) /\
    envelope !! "suggestions" = Some (PList []).
Proof.
  intros Hr Hj Hp Hllm.
  set (tr0 := (tr ++ [EvLog "ATS_Scorer" "START"])%list) in *.
  assert (Hjson : exists d,
             LLMService.extract_json env "" prompt tr0
             = (Ok (PDict d), (tr0 ++ [EvGenerate (LLMService.json_prompt prompt "") 1500])%list) /\
             d !! "ats_score" = None /\ d !! "keyword_matches" = None /\
             d !! "missing_keywords" = None /\ d !! "suggestions" = None).
  { unfold LLMService.extract_json, try_except, bind, LLMService.generate_text.
    destruct (llm env tr0 (LLMService.json_prompt prompt "") 1500) as [content|msg].
    - rewrite Hllm. eexists. split; [reflexivity|]. repeat split; by lookup_env.
    - eexists. split; [reflexivity|]. repeat split; by lookup_env. }
  destruct Hjson as (d & Hjson & H1 & H2 & H3 & H4).
  assert (Hex : ATSScorerAgent.execute env input tr0
                = (Ok (<["ats_score" := PInt 50]>
                       (<["keyword_matches" := PList []]>
                       (<["missing_keywords" := PList []]>
                       (<["suggestions" := PList []]> ∅)))),
                   (tr0 ++ [EvGenerate (LLMService.json_prompt prompt "") 1500])%list)).
  { unfold ATSScorerAgent.execute. rewrite Hr, Hj. cbn [negb orb].
    unfold bind, LLMService.calculate_ats_score. unfold bind at 1.
    rewrite Hp. cbn [lift ret]. unfold bind. rewrite Hjson.
    cbn [LLMService.ensure_score_in_range]. rewrite H1. cbn [lift ret].
    cbn [ATSScorerAgent.score_payload ATSScorerAgent.py_get_or lift ret].
    unfold get_or. rewrite lookup_insert_eq.
    rewrite !lookup_insert_ne by key_ne. by rewrite H2, H3, H4. }
  eexists. split.
  { unfold ATSScorerAgent.run, ATSScorerAgent.agent_name.
    rewrite (run_success env _ _ _ _ _ _ Hex). subst tr0.
    by rewrite <- !app_assoc. }
  split; [apply success_envelope_success|].
  repeat split; rewrite success_envelope_payload by key_ne; by lookup_env.
Qed.

Lemma X5_witness :
  exists envelope,
    fst (first_scoring (env_of None 200)) = Ok envelope /\
    envelope !! "ats_score" = Some (PInt 50).
Proof.
  destruct (X5_provider_failure_scores_50 (env_of None 200)
              (ResumeAPI.score_input resume0 (PDict job0)) [] "score the resume")
    as (envelope & Hrun & _ & Hscore & _); [reflexivity..|].
  exists envelope. unfold first_scoring. rewrite Hrun. by split.
Defined.

(* ===================================================================== *)
(** ** Further properties: the loop and [generate_resume] *)
(* ===================================================================== *)

Section RunFacts.
Context (env : Env) (cfg : Settings).

Lemma optimizer_run_status input tr :
  exists envelope status,
    OptimizerAgent.run env cfg input tr
    = (Ok envelope, (tr ++ [EvLog "Optimizer" "START"; EvLog "Optimizer" status])%list) /\
    truthy (get envelope "should_continue") = false /\
    (status = "SUCCESS" \/ status = "ERROR").
Proof.
  destruct (run_never_continues env cfg input tr) as (envelope & status & Hrun & Hc).
  exists envelope, status. split; [exact Hrun|]. split; [exact Hc|].
  revert Hrun. unfold OptimizerAgent.run, BaseAgent.run.
  destruct (OptimizerAgent.execute env cfg input _) as [[payload|e] tr1];
    intros [= _ Htr];
    change (tr ++ [EvLog "Optimizer" "START"; EvLog "Optimizer" status])%list
      with (tr ++ [EvLog "Optimizer" "START"] ++ [EvLog "Optimizer" status])%list in Htr;
    rewrite app_assoc in Htr; apply app_inj_tail in Htr as [_ [= <-]]; auto.
Qed.

End RunFacts.

Lemma loop_one_pass env cfg i rest job resume hist tr :
  exists tr',
    ResumeAPI.optimization_loop env cfg (i :: rest) job resume hist tr
    = (Ok (resume, hist), tr') /\
    stage_calls "ATS_Scorer" tr' = stage_calls "ATS_Scorer" tr + 1 /\
    stage_calls "Optimizer" tr' <= stage_calls "Optimizer" tr + 1 /\
    requests_with 4000 tr' = requests_with 4000 tr /\
    requests_with 1500 tr' <= requests_with 1500 tr + 1.
Proof.
  rewrite loop_step.
  destruct (scorer_run_status env (ResumeAPI.score_input resume job) tr)
    as (sr & evs & status & -> & Hevs & Hstatus & _).
  set (tr1 := (tr ++ [EvLog "ATS_Scorer" "START"] ++ evs ++ [EvLog "ATS_Scorer" status])%list).
  assert (Hs : stage_calls "ATS_Scorer" tr1 = stage_calls "ATS_Scorer" tr + 1
               /\ stage_calls "Optimizer" tr1 = stage_calls "Optimizer" tr
               /\ requests_with 4000 tr1 = requests_with 4000 tr
               /\ requests_with 1500 tr1 <= requests_with 1500 tr + 1).
  { subst tr1. rewrite !stage_calls_app, !requests_with_app.
    destruct Hstatus as [-> | ->]; destruct Hevs as [-> | [prompt ->]];
      cbn; repeat split; lia. }
  destruct Hs as (Hs1 & Hs2 & Hs3 & Hs4).
  destruct (negb (truthy (get sr "success"))).
  { exists tr1. split; [reflexivity|]. repeat split; lia. }
  destruct (optimizer_run_status env cfg
              (ResumeAPI.optimizer_input resume (get_or sr "ats_score" (PInt 0)) i sr hist) tr1)
    as (envelope & ostatus & -> & -> & Hostatus).
  cbn [negb]. eexists. split; [reflexivity|].
  rewrite !stage_calls_app, !requests_with_app.
  destruct Hostatus as [-> | ->]; cbn; repeat split; lia.
Qed.

(** X6. One pass at most: whatever the provider, the settings and the
    state, the loop of [generate_resume] returns the resume and the
    history it was given after exactly one scoring call and at most one
    optimizer call; it sends no request of 4000 tokens (no revision) and
    at most one of 1500 tokens. *)
Theorem X6_loop_makes_one_pass env cfg i rest job resume hist tr :
  exists tr',
    ResumeAPI.optimization_loop env cfg (i :: rest) job resume hist tr
    = (Ok (resume, hist), tr') /\
    stage_calls "ATS_Scorer" tr' = stage_calls "ATS_Scorer" tr + 1 /\
    stage_calls "Optimizer" tr' <= stage_calls "Optimizer" tr + 1 /\
    requests_with 4000 tr' = requests_with 4000 tr /\
    requests_with 1500 tr' <= requests_with 1500 tr + 1.
Proof. apply loop_one_pass. Qed.


Lemma optimize_and_save_row env cfg request job_data job_text resume tr :
  exists row tr' q,
    ResumeAPI.optimize_and_save env cfg request job_data job_text resume tr
    = (Ok row, tr') /\
    ResumeAPI.latex_content row = resume /\
    ResumeAPI.iterations row = 1 /\
    ResumeAPI.optimization_history row = PList [] /\
    num_of (ResumeAPI.ats_score row) = Some q /\ (0 <= q <= 100)%Q /\
    stage_calls "ATS_Scorer" tr' = stage_calls "ATS_Scorer" tr + 2 /\
    requests_with 4000 tr' = requests_with 4000 tr.
Proof.
  unfold ResumeAPI.optimize_and_save, ResumeAPI.range_1_6. unfold bind at 1.
  destruct (loop_one_pass env cfg 1 [2; 3; 4; 5] (PDict job_data) resume (PList []) tr)
    as (tr1 & -> & Hs1 & _ & Hr1 & _).
  cbn [fst snd]. unfold ResumeAPI.save_resume, bind.
  destruct (scorer_run_status env (ResumeAPI.score_input resume (PDict job_data)) tr1)
    as (sr & evs & status & -> & Hevs & Hstatus & Hsucc).
  cbn [py_len lift ret length].
  assert (Hcount :
    stage_calls "ATS_Scorer"
      (tr1 ++ [EvLog "ATS_Scorer" "START"] ++ evs ++ [EvLog "ATS_Scorer" status])%list
    = stage_calls "ATS_Scorer" tr + 2 /\
    requests_with 4000
      (tr1 ++ [EvLog "ATS_Scorer" "START"] ++ evs ++ [EvLog "ATS_Scorer" status])%list
    = requests_with 4000 tr).
  { rewrite !stage_calls_app, !requests_with_app.
    destruct Hstatus as [-> | ->]; destruct Hevs as [-> | [prompt ->]]; cbn; split; lia. }
  destruct Hsucc as [Hfail | (Hok & c & q & Hc & Hq & Hrange)].
  - eexists _, _, (inject_Z 0). split; [reflexivity|]. cbn.
    unfold get. rewrite Hfail. cbn. repeat split; try done; apply Hcount.
  - eexists _, _, q. split; [reflexivity|]. cbn.
    unfold get, get_or. rewrite Hok, Hc. cbn.
    repeat split; try done; try apply Hrange; apply Hcount.
Qed.

(** X7. Whatever the provider does, the part of [generate_resume] that
    follows the generation returns a row: its [latex_content] is the
    generated resume, unchanged, its [iterations] is 1 and its
    [optimization_history] is empty; its [ats_score] is a number between
    0 and 100.  Two scoring calls are made, and no revision request. *)
Theorem X7_saved_row_keeps_generated_resume env cfg request job_data job_text resume tr :
  exists row tr' q,
    ResumeAPI.optimize_and_save env cfg request job_data job_text resume tr
    = (Ok row, tr') /\
    ResumeAPI.latex_content row = resume /\
    ResumeAPI.iterations row = 1 /\
    ResumeAPI.optimization_history row = PList [] /\
    num_of (ResumeAPI.ats_score row) = Some q /\ (0 <= q <= 100)%Q /\
    stage_calls "ATS_Scorer" tr' = stage_calls "ATS_Scorer" tr + 2 /\
    requests_with 4000 tr' = requests_with 4000 tr.
Proof. apply optimize_and_save_row. Qed.

(** X8. The outcomes of [generate_resume], stage by stage (the database
    session is not part of the model).  Without a profile it raises the
    404 error and runs no stage.  With a profile it runs the extraction
    stage; when that stage reports a failure it raises the 500 error that
    carries the stage's error text, and the generator is not run.
    Otherwise it runs the generator stage on the profile and the posting;
    when that stage reports a failure it raises the 500 error "Failed to
    generate resume".  When both stages succeed it returns a row, whose
    [latex_content] is the [resume_content] of the generator stage. *)
Theorem X8_generate_resume_outcomes env cfg request profile tr :
  match profile with
  | None =>
      ResumeAPI.generate_resume env cfg request None tr
      = (Raise (ResumeAPI.HTTPException 404
                  "Profile not found. Please create profile first."), tr)
  | Some p =>
      exists jd tr1,
        JDExtractorAgent.run env (ResumeAPI.jd_input request) tr = (Ok jd, tr1) /\
        if negb (truthy (get jd "success")) then
          ResumeAPI.generate_resume env cfg request (Some p) tr
          = (Raise (ResumeAPI.HTTPException 500
                      (py_str env (get_or jd "error"
                                     (PStr "Failed to extract job description")))),
             tr1)
        else
          exists gen tr2,
            ResumeGeneratorAgent.run env
              (<["profile" := PDict (ResumeAPI.profile_dict p)]>
               (<["job_data" := PDict jd]> ∅)) tr1
            = (Ok gen, tr2) /\
            if negb (truthy (get gen "success")) then
              ResumeAPI.generate_resume env cfg request (Some p) tr
              = (Raise (ResumeAPI.HTTPException 500 "Failed to generate resume"), tr2)
            else
              exists row tr' content,
                ResumeAPI.generate_resume env cfg request (Some p) tr = (Ok row, tr') /\
                gen !! "resume_content" = Some content /\
                ResumeAPI.latex_content row = content /\
                ResumeAPI.iterations row = 1 /\
                ResumeAPI.optimization_history row = PList []
  end.
Proof.
  destruct profile as [p|]; [|reflexivity].
  remember (ResumeAPI.generate_resume env cfg request (Some p) tr) as out eqn:Hout.
  cbn [ResumeAPI.generate_resume] in Hout. unfold bind at 1 in Hout.
  destruct (run_returns env JDExtractorAgent.agent_name (JDExtractorAgent.execute env)
              (ResumeAPI.jd_input request) tr) as (jd & tr1 & Hjd).
  exists jd, tr1. split; [exact Hjd|].
  unfold JDExtractorAgent.run at 1 in Hout. rewrite Hjd in Hout.
  destruct (negb (truthy (get jd "success"))); [exact Hout|].
  unfold bind at 1 in Hout.
  destruct (ResumeGeneratorAgent.run env _ tr1) as [[gen|e] tr2] eqn:Hgen.
  2:{ exfalso. revert Hgen. unfold ResumeGeneratorAgent.run, BaseAgent.run.
      by destruct (ResumeGeneratorAgent.execute env _ _) as [[?|?] ?]. }
  exists gen, tr2. split; [reflexivity|].
  destruct (truthy (get gen "success")) eqn:Hsucc; cbn [negb] in *; [|exact Hout].
  assert (Hrc : exists rc, gen !! "resume_content" = Some rc).
  { revert Hgen Hsucc. unfold ResumeGeneratorAgent.run, BaseAgent.run.
    destruct (ResumeGeneratorAgent.execute env _ _) as [[payload|e] tr3] eqn:Hex;
      intros [= <- <-] Hsucc.
    - rewrite success_envelope_payload by key_ne.
      revert Hex. unfold ResumeGeneratorAgent.execute.
      destruct (_ || _); [discriminate|]. unfold bind.
      destruct (generate_resume_content env _ _ _) as [[rc|e] tr4]; [|discriminate].
      intros [= <- <-]. exists rc. by lookup_env.
    - unfold get in Hsucc. by rewrite error_envelope_success in Hsucc. }
  destruct Hrc as (rc & Hrc).
  unfold bind at 1 in Hout. unfold getitem in Hout. rewrite Hrc in Hout.
  cbn [lift ret] in Hout.
  destruct (optimize_and_save_row env cfg request jd
              (get_or jd "job_description"
                 (ResumeAPI.py_or (ResumeAPI.of_optional (ResumeAPI.job_description request))
                    (PStr ""))) rc tr2)
    as (row & tr' & q & Hrow & Hl & Hi & Hh & _).
  rewrite Hrow in Hout. by exists row, tr', rc.
Qed.

(* ===================================================================== *)
(** ** Further properties: the revision and the extractor *)
(* ===================================================================== *)

(** X9. Called with its two arguments, [optimize_resume] makes one request
    of 4000 tokens and never raises once its prompt is built; what it
    returns is the resume it was given, or the provider's text when that
    text, stripped, starts with the document preamble. *)
Theorem X9_optimize_resume_keeps_or_well_formed env current_resume ats_feedback prompt tr :
  optimize_prompt env current_resume ats_feedback = Ok prompt ->
  exists revised,
    LLMService.optimize_resume env current_resume ats_feedback tr
    = (Ok revised, (tr ++ [EvGenerate prompt 4000])%list) /\
    (revised = current_resume \/
     exists optimized,
       revised = PStr optimized /\
       llm env tr prompt 4000 = GenText optimized /\
       Str.startswith (Str.backslash ++ "documentclass") (Str.strip optimized) = true).
Proof.
  intros Hp.
  unfold LLMService.optimize_resume, bind, try_except, LLMService.generate_text.
  rewrite Hp. cbn [lift ret].
  destruct (llm env tr prompt 4000) as [optimized|msg]; [|eexists; split; [reflexivity | by left]].
  cbn [ret].
  destruct (Str.startswith _ (Str.strip optimized)) eqn:Hs;
    eexists; (split; [reflexivity|]); [right | by left].
  by exists optimized.
Qed.

Lemma X9_witness :
  exists revised,
    LLMService.optimize_resume env60 resume0 (PDict ∅) []
    = (Ok revised, [EvGenerate "improve the resume" 4000]) /\
    (revised = resume0 \/
     exists optimized,
       revised = PStr optimized /\
       llm env60 [] "improve the resume" 4000 = GenText optimized /\
       Str.startswith (Str.backslash ++ "documentclass") (Str.strip optimized) = true).
Proof.
  apply (X9_optimize_resume_keeps_or_well_formed env60 resume0 (PDict ∅)
           "improve the resume" []).
  reflexivity.
Defined.

Lemma take_nonempty n c s : Str.take (S n) (String c s) ≠ "".
Proof. unfold Str.take. cbn. discriminate. Qed.

Lemma strip_empty_len text : 20 <= Str.len (Str.strip text) -> text ≠ "".
Proof. intros H ->. vm_compute in H. by apply H. Qed.

Section ExtractorInversion.
Context (env : Env).

(** When the second half of [execute] returns, the text was a string of
    at least 20 characters once stripped, and the posting is the merge of
    the provider's answer into the defaults, with the hints applied. *)
Lemma structure_text_ok_inv job_text title company tr posting tr1 :
  Resolution.structure_text env job_text title company tr = (Ok posting, tr1) ->
  exists text result,
    job_text = PStr text /\
    20 <= Str.len (Str.strip text) /\
    tr1 = (tr ++ [Resolution.structuring_request env text])%list /\
    posting
    = Resolution.apply_hints title company
        (JDExtractorAgent.merge_results result (JDExtractorAgent.default_result text)).
Proof.
  destruct job_text as [| | | | text | |];
    try (unfold Resolution.structure_text, bind; cbn [truthy py_strip lift];
         repeat match goal with
                | |- context [if ?b then _ else _] => destruct b
                | |- context [match ?l with [] => _ | _ => _ end] => destruct l
                end; discriminate).
  rewrite structure_text_string.
  destruct (Str.len (Str.strip text) <? 20) eqn:Hlen; [discriminate|].
  destruct (structure_job_data_merges env text tr) as (result & _ & ->).
  intros [= <- <-]. exists text, result.
  apply Z.ltb_ge in Hlen. done.
Qed.

(** [execute] with a URL that is no string: a truthy one has no [strip],
    a falsy one counts as no URL. *)
Lemma execute_url_not_string input tr :
  (forall u, get_or input "job_url" (PStr "") ≠ PStr u) ->
  JDExtractorAgent.execute env input tr
  = if truthy (get_or input "job_url" (PStr ""))
    then (Raise (Exn "AttributeError" "object has no attribute 'strip'"), tr)
    else Resolution.structure_text env
           (get_or input "job_description_text" (PStr ""))
           (get_or input "job_title" (PStr ""))
           (get_or input "company_name" (PStr "")) tr.
Proof.
  intros Hns. unfold JDExtractorAgent.execute. unfold bind at 1.
  destruct (get_or input "job_url" (PStr "")) as [| | | | u | |] eqn:Hu;
    try (by specialize (Hns u));
    cbn [py_strip lift];
    destruct (truthy _); reflexivity.
Qed.

(** What [execute] has done when it returns: the hints that were given
    are the ones applied. *)
Lemma execute_ok_inv input tr posting tr1 :
  JDExtractorAgent.execute env input tr = (Ok posting, tr1) ->
  exists text title company result,
    20 <= Str.len (Str.strip text) /\
    posting
    = Resolution.apply_hints title company
        (JDExtractorAgent.merge_results result (JDExtractorAgent.default_result text)) /\
    (truthy (get_or input "job_title" (PStr "")) = true ->
     title = get_or input "job_title" (PStr "")) /\
    (truthy (get_or input "company_name" (PStr "")) = true ->
     company = get_or input "company_name" (PStr "")).
Proof.
  destruct (get_or input "job_url" (PStr "")) as [| | | | u | |] eqn:Hu.
  5:{ destruct (decide (Str.strip u = "")) as [Hb|Hb].
      - rewrite (execute_no_url env input tr u Hu Hb). intros H.
        apply structure_text_ok_inv in H as (text & result & _ & Hlen & _ & ->).
        eexists text, _, _, result. by repeat split.
      - rewrite (execute_url env input tr u Hu Hb).
        destruct (WebScraperService.fetch_job_from_url env (Str.strip u) tr)
          as [[scrape|e] tr2]; [|discriminate].
        destruct (truthy (get scrape "success")); [|discriminate].
        intros H.
        apply structure_text_ok_inv in H as (text & result & _ & Hlen & _ & ->).
        eexists text, _, _, result. split; [done|]. split; [reflexivity|].
        split; intros ->; reflexivity. }
  all: rewrite execute_url_not_string by (intros u; rewrite Hu; discriminate);
    rewrite Hu; cbn [truthy];
    repeat match goal with |- context [if ?b then _ else _] => destruct b end;
    try discriminate;
    intros H; apply structure_text_ok_inv in H as (text & result & _ & Hlen & _ & ->);
    eexists text, _, _, result; by repeat split.
Qed.

Lemma run_ok_inv input tr envelope tr' :
  JDExtractorAgent.run env input tr = (Ok envelope, tr') ->
  envelope !! "success" = Some (PBool true) ->
  exists posting tr1,
    JDExtractorAgent.execute env input (tr ++ [EvLog "JD_Extractor" "START"])%list
    = (Ok posting, tr1) /\
    forall k, k ≠ "success" -> k ≠ "execution_time" -> k ≠ "agent_name" ->
              envelope !! k = posting !! k.
Proof.
  unfold JDExtractorAgent.run, BaseAgent.run, JDExtractorAgent.agent_name.
  destruct (JDExtractorAgent.execute env input _) as [[posting|e] tr1];
    intros [= <- <-] Hs.
  - exists posting, tr1. split; [reflexivity|].
    intros k ? ? ?. by apply success_envelope_payload.
  - by rewrite error_envelope_success in Hs.
Qed.

End ExtractorInversion.

(** X10. A title or a company name given with the request is, unchanged,
    the [job_title] or [company_name] of every posting the resolution
    returns, whatever the page and the provider say. *)
Theorem X10_given_title_and_company_win env input tr envelope tr' :
  JDExtractorAgent.run env input tr = (Ok envelope, tr') ->
  envelope !! "success" = Some (PBool true) ->
  (truthy (get_or input "job_title" (PStr "")) = true ->
   envelope !! "job_title" = Some (get_or input "job_title" (PStr ""))) /\
  (truthy (get_or input "company_name" (PStr "")) = true ->
   envelope !! "company_name" = Some (get_or input "company_name" (PStr ""))).
Proof.
  intros Hrun Hs.
  destruct (run_ok_inv env input tr envelope tr' Hrun Hs) as (posting & tr1 & Hex & Hk).
  destruct (execute_ok_inv env input _ posting tr1 Hex)
    as (text & title & company & result & _ & -> & Ht & Hc).
  split; intros Hg.
  - rewrite Hk by key_ne. pose proof (Ht Hg) as E. rewrite <- E.
    apply apply_hints_title. by rewrite E.
  - rewrite Hk by key_ne. pose proof (Hc Hg) as E. rewrite <- E.
    apply apply_hints_company. by rewrite E.
Qed.

(** X11. Every posting the resolution returns has the nine keys of the
    default posting, and its [job_description] is never empty. *)
Theorem X11_posting_is_complete env input tr envelope tr' :
  JDExtractorAgent.run env input tr = (Ok envelope, tr') ->
  envelope !! "success" = Some (PBool true) ->
  Forall (fun k => is_Some (envelope !! k)) Posting.keys /\
  exists description,
    envelope !! "job_description" = Some description /\ truthy description = true.
Proof.
  intros Hrun Hs.
  destruct (run_ok_inv env input tr envelope tr' Hrun Hs) as (posting & tr1 & Hex & Hk).
  destruct (execute_ok_inv env input _ posting tr1 Hex)
    as (text & title & company & result & Hlen & -> & _ & _).
  assert (Hdef : forall k, k ∈ Posting.keys ->
                 is_Some (JDExtractorAgent.default_result text !! k)).
  { intros k Hin. unfold Posting.keys in Hin.
    repeat (apply elem_of_cons in Hin as [-> | Hin];
            [unfold JDExtractorAgent.default_result; lookup_env; by eexists|]).
    by apply elem_of_nil in Hin. }
  split.
  - apply Forall_forall. intros k Hin.
    assert (Hne : k ≠ "success" /\ k ≠ "execution_time" /\ k ≠ "agent_name").
    { unfold Posting.keys in Hin.
      repeat (apply elem_of_cons in Hin as [-> | Hin]; [by repeat split|]).
      by apply elem_of_nil in Hin. }
    destruct Hne as (? & ? & ?). rewrite Hk by done.
    unfold Resolution.apply_hints.
    destruct (truthy company), (truthy title);
      repeat (rewrite lookup_insert; case_decide; [by eexists|]);
      by apply merge_results_keeps_default, Hdef.
  - rewrite Hk by key_ne. rewrite apply_hints_other by key_ne.
    assert (Htext : text ≠ "") by (by apply strip_empty_len).
    assert (Hd : JDExtractorAgent.default_result text !! "job_description"
                 = Some (PStr (Str.take 1000 text)))
      by (unfold JDExtractorAgent.default_result; by lookup_env).
    assert (Htd : truthy (PStr (Str.take 1000 text)) = true).
    { destruct text as [|c text]; [done|]. cbn [truthy].
      rewrite eqb_empty_false; [done | apply take_nonempty]. }
    destruct result as [| | | | | |d]; cbn [JDExtractorAgent.merge_results];
      try (eexists; split; [exact Hd | exact Htd]).
    rewrite merge_items_lookup.
    destruct (d !! "job_description") as [v|];
      [destruct (truthy v) eqn:Hv; [by exists v|]|];
      eexists; split; try exact Hd; exact Htd.
Qed.

Lemma X10_witness :
  envelope_of (JDExtractorAgent.run (env_of (Some (scored (PStr "ignored"))) 404)
                 (<["job_title" := PStr "Proof Engineer"]> (jd_request "" pasted_text)) [])
    !! "job_title" = Some (PStr "Proof Engineer").
Proof.
  set (env := env_of (Some (scored (PStr "ignored"))) 404).
  set (input := <["job_title" := PStr "Proof Engineer"]> (jd_request "" pasted_text)).
  destruct (X10_given_title_and_company_win env input []
              (envelope_of (JDExtractorAgent.run env input []))
              (snd (JDExtractorAgent.run env input []))) as [Ht _].
  - reflexivity.
  - vm_compute. reflexivity.
  - apply Ht. vm_compute. reflexivity.
Defined.

Lemma X11_witness :
  Forall (fun k => is_Some (envelope_of
            (JDExtractorAgent.run (env_of None 404) (jd_request "" pasted_text) []) !! k))
    Posting.keys.
Proof.
  apply (X11_posting_is_complete (env_of None 404) (jd_request "" pasted_text) []
           (envelope_of (JDExtractorAgent.run (env_of None 404) (jd_request "" pasted_text) []))
           (snd (JDExtractorAgent.run (env_of None 404) (jd_request "" pasted_text) []))).
  - reflexivity.
  - vm_compute. reflexivity.
Defined.

(** X12. When the provider fails or its answer cannot be parsed, the
    structuring stage still returns a posting: the default posting built
    from the raw text, to which the [error] entry of [extract_json] is
    added (and [raw_response] for an unparsable answer); every key of the
    default posting keeps its default value. *)
Theorem X12_unusable_answer_gives_defaults env raw_text tr :
  match llm env tr (LLMService.json_prompt
                      (structure_prompt env (Str.take 4000 raw_text)) raw_text) 1500 with
  | GenText content => json_of_response env content = None
  | GenError _ => True
  end ->
  exists posting,
    JDExtractorAgent._structure_job_data env raw_text tr
    = (Ok posting, (tr ++ [Resolution.structuring_request env raw_text])%list) /\
    (forall k, k ≠ "error" -> k ≠ "raw_response" ->
               posting !! k = JDExtractorAgent.default_result raw_text !! k) /\
    posting !! "error"
    = Some (PStr match llm env tr (LLMService.json_prompt
                        (structure_prompt env (Str.take 4000 raw_text)) raw_text) 1500 with
                 | GenText _ => "Failed to parse JSON"
                 | GenError msg => "Failed to generate text: " ++ msg
                 end).
Proof.
  intros Hllm.
  destruct (structure_job_data_merges env raw_text tr) as (result & Hjson & Hstruct).
  eexists. split; [exact Hstruct|].
  revert Hjson. unfold LLMService.extract_json, try_except, bind, LLMService.generate_text.
  destruct (llm env tr _ 1500) as [content|msg].
  - rewrite Hllm. intros [= <-]. cbn [JDExtractorAgent.merge_results]. split.
    + intros k H1 H2. rewrite merge_items_lookup.
      by rewrite !lookup_insert_ne, lookup_empty by congruence.
    + rewrite merge_items_lookup. by lookup_env.
  - intros [= <-]. cbn [JDExtractorAgent.merge_results exn_msg]. split.
    + intros k H1 H2. rewrite merge_items_lookup.
      by rewrite !lookup_insert_ne, lookup_empty by congruence.
    + rewrite merge_items_lookup. by lookup_env.
Qed.

Lemma X12_witness :
  exists posting,
    JDExtractorAgent._structure_job_data (env_of None 200) pasted_text []
    = (Ok posting, [Resolution.structuring_request (env_of None 200) pasted_text]) /\
    posting !! "error" = Some (PStr "Failed to parse JSON") /\
    posting !! "job_title" = Some (PStr "Position").
Proof.
  destruct (X12_unusable_answer_gives_defaults (env_of None 200) pasted_text [])
    as (posting & Hrun & Hk & He); [reflexivity|].
  exists posting. split; [exact Hrun|]. split; [exact He|].
  by rewrite Hk by key_ne.
Defined.

(** X13. With a URL that is not blank, the pasted text plays no part: two
    requests with the same URL, title and company give the same answer
    and the same trace, whatever their pasted texts. *)
Theorem X13_pasted_text_ignored_with_url env input1 input2 tr u :
  get_or input1 "job_url" (PStr "") = PStr u ->
  get_or input2 "job_url" (PStr "") = PStr u ->
  Str.strip u ≠ "" ->
  get_or input1 "job_title" (PStr "") = get_or input2 "job_title" (PStr "") ->
  get_or input1 "company_name" (PStr "") = get_or input2 "company_name" (PStr "") ->
  JDExtractorAgent.run env input1 tr = JDExtractorAgent.run env input2 tr.
Proof.
  intros H1 H2 Hu Ht Hc. unfold JDExtractorAgent.run, BaseAgent.run.
  rewrite (execute_url env input1 _ u H1 Hu), (execute_url env input2 _ u H2 Hu).
  by rewrite Ht, Hc.
Qed.

Lemma X13_witness :
  JDExtractorAgent.run (env_of None 200) (jd_request slug_url pasted_text) []
  = JDExtractorAgent.run (env_of None 200) (jd_request slug_url "") [].
Proof.
  apply (X13_pasted_text_ignored_with_url (env_of None 200)
           (jd_request slug_url pasted_text) (jd_request slug_url "") [] slug_url);
    [reflexivity | reflexivity | vm_compute; discriminate | reflexivity | reflexivity].
Defined.

Section HostFacts.
Context (env : Env).

Lemma parse_url_info_unknown_host url :
  Posting.unknown_host url = true ->
  WebScraperService._parse_url_info env url = None.
Proof.
  unfold Posting.unknown_host, WebScraperService._parse_url_info.
  destruct (Str.contains "linkedin.com" url); [discriminate|].
  destruct (Str.contains "indeed.com" url); [discriminate|].
  destruct (Str.contains "glassdoor.com" url); [discriminate|]. intros _.
  destruct (urlparse env url) as [[path query]|]; [|reflexivity].
  by rewrite bool_decide_eq_true_2.
Qed.

Lemma fetch_job_from_url_site url tr :
  WebScraperService.fetch_job_from_url env url tr
  = match Posting.site_fetch env url tr with
    | (Ok result, tr') =>
        match WebScraperService._parse_url_info env url with
        | Some info =>
            if negb (truthy (get result "success")) then
              (Ok (WebScraperService.url_parsed env info url
                     "Job details extracted from URL. For best results, paste the full job description."),
               tr')
            else (Ok result, tr')
        | None => (Ok result, tr')
        end
    | (Raise e, tr') => (Raise e, tr')
    end.
Proof.
  unfold WebScraperService.fetch_job_from_url, try_except, bind, Posting.site_fetch.
  destruct (fetch_site_returns env url tr) as (result & ->).
  destruct (WebScraperService._parse_url_info env url) as [info|]; [|reflexivity].
  by destruct (negb (truthy (get result "success"))).
Qed.

End HostFacts.

(** X14. A URL of a host the scraper does not know, answered with a status
    other than 200, is a hard failure of the resolution whatever text was
    pasted: the envelope carries the [ValueError] "Could not extract job
    from URL: Site returned status N", and the provider is not asked. *)
Theorem X14_unknown_host_failure_is_fatal env input tr raw code ti co tx :
  get_or input "job_url" (PStr "") = PStr raw ->
  Str.strip raw ≠ "" ->
  Posting.unknown_host (Str.strip raw) = true ->
  http env (tr ++ [EvLog "JD_Extractor" "START"])%list (Str.strip raw)
  = FetchPage code ti co tx ->
  code ≠ 200 ->
  exists envelope,
    JDExtractorAgent.run env input tr
    = (Ok envelope,
       (tr ++ [EvLog "JD_Extractor" "START"; EvFetch (Str.strip raw);
               EvLog "JD_Extractor" "ERROR"])%list) /\
    envelope !! "success" = Some (PBool false) /\
    envelope !! "error_type" = Some (PStr "ValueError") /\
    envelope !! "error"
    = Some (PStr ("Could not extract job from URL: Site returned status " ++ Str.of_Z code)).
Proof.
  intros Hu Hurl Hhost Hhttp Hcode.
  set (url := Str.strip raw) in *.
  set (tr0 := (tr ++ [EvLog "JD_Extractor" "START"])%list) in *.
  assert (Hex : JDExtractorAgent.execute env input tr0
                = (Raise (Exn "ValueError"
                            ("Could not extract job from URL: Site returned status "
                             ++ Str.of_Z code)),
                   (tr0 ++ [EvFetch url])%list)).
  { rewrite (execute_url env input tr0 raw Hu Hurl). fold url.
    rewrite fetch_job_from_url_site, (parse_url_info_unknown_host env url Hhost).
    unfold Posting.site_fetch. unfold Posting.unknown_host in Hhost.
    destruct (Str.contains "linkedin.com" url); [discriminate|].
    destruct (Str.contains "indeed.com" url); [discriminate|].
    destruct (Str.contains "glassdoor.com" url); [discriminate|].
    unfold WebScraperService._fetch_generic. rewrite Hhttp.
    apply Z.eqb_neq in Hcode. rewrite Hcode. cbn [negb].
    unfold get, get_or, WebScraperService.failure. by lookup_env. }
  eexists. split.
  { unfold JDExtractorAgent.run, JDExtractorAgent.agent_name.
    rewrite (run_error env _ _ _ _ _ _ Hex). subst tr0. by rewrite <- !app_assoc. }
  split; [apply error_envelope_success|].
  split; [apply error_envelope_type | apply error_envelope_error].
Qed.

Lemma X14_witness :
  envelope_of (JDExtractorAgent.run (env_of None 404) (jd_request generic_url pasted_text) [])
    !! "error"
  = Some (PStr "Could not extract job from URL: Site returned status 404").
Proof.
  destruct (X14_unknown_host_failure_is_fatal (env_of None 404)
              (jd_request generic_url pasted_text) [] generic_url 404 "" "" "")
    as (envelope & Hrun & _ & _ & He);
    [reflexivity | vm_compute; discriminate | reflexivity | reflexivity | discriminate |].
  unfold envelope_of. rewrite Hrun. exact He.
Defined.

(* ===================================================================== *)
(** ** Further properties: the scraper *)
(* ===================================================================== *)

Lemma len_nonempty (s : string) (n : Z) : 0 < n -> (Str.len s <? n) = false -> s ≠ "".
Proof. intros Hn H ->. apply Z.ltb_ge in H. change (n <= 0) in H. lia. Qed.

Lemma take_empty_iff n s : (Str.take (S n) s =? "")%string = (s =? "")%string.
Proof. by destruct s. Qed.

Section ScrapeShape.
Context (env : Env).

Lemma failure_shape msg :
  exists b text,
    WebScraperService.failure msg !! "success" = Some (PBool b) /\
    WebScraperService.failure msg !! "job_text" = Some (PStr text) /\
    b = negb (text =? "")%string.
Proof.
  exists false, "". unfold WebScraperService.failure. repeat split; by lookup_env.
Qed.

Lemma site_fetch_shape url tr :
  exists result b text,
    Posting.site_fetch env url tr = (Ok result, (tr ++ [EvFetch url])%list) /\
    result !! "success" = Some (PBool b) /\
    result !! "job_text" = Some (PStr text) /\
    b = negb (text =? "")%string.
Proof.
  assert (Hfail : forall msg,
            exists result b text,
              (Ok (WebScraperService.failure msg), (tr ++ [EvFetch url])%list)
              = (Ok result, (tr ++ [EvFetch url])%list) /\
              result !! "success" = Some (PBool b) /\
              result !! "job_text" = Some (PStr text) /\
              b = negb (text =? "")%string).
  { intros msg. destruct (failure_shape msg) as (b & text & H).
    by exists (WebScraperService.failure msg), b, text. }
  unfold Posting.site_fetch.
  destruct (Str.contains "linkedin.com" url);
    [|destruct (Str.contains "indeed.com" url);
      [|destruct (Str.contains "glassdoor.com" url)]].
  - unfold WebScraperService._fetch_linkedin.
    destruct (http env tr url) as [ce msg|code ti co tx]; [apply Hfail|].
    destruct (negb (code =? 200)); [apply Hfail|].
    destruct (Str.len tx <? 50) eqn:Hlen; [apply Hfail|].
    eexists _, true, tx. split; [reflexivity|].
    split; [by lookup_env|]. split; [by lookup_env|].
    by rewrite (eqb_empty_false tx (len_nonempty tx 50 ltac:(lia) Hlen)).
  - unfold WebScraperService._fetch_indeed.
    destruct (http env tr url) as [ce msg|code ti co tx]; [apply Hfail|].
    destruct (negb (code =? 200)); [apply Hfail|].
    eexists _, _, tx. split; [reflexivity|]. repeat split; by lookup_env.
  - unfold WebScraperService._fetch_glassdoor.
    destruct (http env tr url) as [ce msg|code ti co tx]; [apply Hfail|].
    destruct (negb (code =? 200)); [apply Hfail|].
    eexists _, _, tx. split; [reflexivity|]. repeat split; by lookup_env.
  - unfold WebScraperService._fetch_generic.
    destruct (http env tr url) as [ce msg|code ti co tx]; [apply Hfail|].
    destruct (negb (code =? 200)); [apply Hfail|].
    eexists _, _, (Str.take 5000 tx). split; [reflexivity|].
    split; [by lookup_env|]. split; [by lookup_env|].
    cbn [truthy]. by rewrite take_empty_iff.
Qed.

Lemma placeholder_nonempty info url :
  WebScraperService._generate_placeholder_jd env info url ≠ "".
Proof.
  intros H. pose proof (placeholder_long env info url) as Hl.
  rewrite H in Hl. vm_compute in Hl. by apply Hl.
Qed.

Lemma scrape_shape url tr :
  exists result b text,
    WebScraperService.fetch_job_from_url env url tr
    = (Ok result, (tr ++ [EvFetch url])%list) /\
    result !! "success" = Some (PBool b) /\
    result !! "job_text" = Some (PStr text) /\
    b = negb (text =? "")%string /\
    (is_Some (WebScraperService._parse_url_info env url) -> b = true).
Proof.
  rewrite fetch_job_from_url_site.
  destruct (site_fetch_shape url tr) as (result & b & text & -> & Hb & Ht & Hbt).
  assert (Hplace : forall info note,
            WebScraperService.url_parsed env info url note !! "success" = Some (PBool true) /\
            WebScraperService.url_parsed env info url note !! "job_text"
            = Some (PStr (WebScraperService._generate_placeholder_jd env info url)) /\
            true = negb (WebScraperService._generate_placeholder_jd env info url =? "")%string).
  { intros info note. unfold WebScraperService.url_parsed.
    split; [by lookup_env|]. split; [by lookup_env|].
    by rewrite (eqb_empty_false _ (placeholder_nonempty info url)). }
  destruct (WebScraperService._parse_url_info env url) as [info|].
  - unfold get. rewrite Hb. cbn [default from_option id truthy].
    destruct b; cbn [negb].
    + exists result, true, text. split; [reflexivity|]. by repeat split.
    + eexists _, true, _. split; [reflexivity|].
      destruct (Hplace info "Job details extracted from URL. For best results, paste the full job description.")
        as (? & ? & ?).
      by repeat split.
  - exists result, b, text. split; [reflexivity|]. by repeat split.
Qed.

End ScrapeShape.

(** X15. [fetch_job_from_url] never raises and performs exactly one GET,
    of the URL it is given.  Its result always has a boolean [success]
    and a string [job_text], and reports success exactly when the text is
    not empty; for a URL that tells something by itself ([_parse_url_info]
    is not [None]) it always reports success. *)
Theorem X15_scrape_result_shape env url tr :
  exists result b text,
    WebScraperService.fetch_job_from_url env url tr
    = (Ok result, (tr ++ [EvFetch url])%list) /\
    result !! "success" = Some (PBool b) /\
    result !! "job_text" = Some (PStr text) /\
    b = negb (text =? "")%string /\
    (is_Some (WebScraperService._parse_url_info env url) -> b = true).
Proof. apply scrape_shape. Qed.

(** X16. Whenever the URL tells something by itself and the site fetcher
    reports a failure (network error, status other than 200, too little
    text), the resolution succeeds: the provider is asked once, to
    structure the placeholder text, and the posting's description is not
    empty. *)
Theorem X16_known_host_failure_resolves env input tr raw info :
  get_or input "job_url" (PStr "") = PStr raw ->
  Str.strip raw ≠ "" ->
  WebScraperService._parse_url_info env (Str.strip raw) = Some info ->
  truthy (get (envelope_of (Posting.site_fetch env (Str.strip raw)
                              (tr ++ [EvLog "JD_Extractor" "START"])%list)) "success")
  = false ->
  exists posting,
    JDExtractorAgent.run env input tr
    = (Ok posting,
       (tr ++ [EvLog "JD_Extractor" "START"; EvFetch (Str.strip raw);
               Resolution.structuring_request env
                 (WebScraperService._generate_placeholder_jd env info (Str.strip raw));
               EvLog "JD_Extractor" "SUCCESS"])%list) /\
    posting !! "success" = Some (PBool true) /\
    is_Some (posting !! "job_description").
Proof.
  intros Hu Hurl Hinfo Hfail.
  set (url := Str.strip raw) in *.
  set (tr0 := (tr ++ [EvLog "JD_Extractor" "START"])%list) in *.
  set (placeholder := WebScraperService._generate_placeholder_jd env info url).
  set (note := "Job details extracted from URL. For best results, paste the full job description.").
  assert (Hfetch : WebScraperService.fetch_job_from_url env url tr0
                   = (Ok (WebScraperService.url_parsed env info url note),
                      (tr0 ++ [EvFetch url])%list)).
  { rewrite fetch_job_from_url_site, Hinfo.
    destruct (site_fetch_shape env url tr0) as (result & b & text & Hsite & _).
    rewrite Hsite in Hfail |- *. cbn [envelope_of fst] in Hfail. by rewrite Hfail. }
  destruct (structure_job_data_merges env placeholder (tr0 ++ [EvFetch url])%list)
    as (result & _ & Hstruct).
  assert (Hex : exists title company,
             JDExtractorAgent.execute env input tr0
             = (Ok (Resolution.apply_hints title company
                      (JDExtractorAgent.merge_results result
                         (JDExtractorAgent.default_result placeholder))),
                ((tr0 ++ [EvFetch url])
                 ++ [Resolution.structuring_request env placeholder])%list)).
  { eexists _, _. rewrite (execute_url env input tr0 raw Hu Hurl). fold url. rewrite Hfetch.
    assert (Hs : truthy (get (WebScraperService.url_parsed env info url note) "success") = true)
      by (unfold get, WebScraperService.url_parsed; by lookup_env).
    assert (Ht : get_or (WebScraperService.url_parsed env info url note) "job_text" (PStr "")
                 = PStr placeholder)
      by (unfold get_or, WebScraperService.url_parsed; by lookup_env).
    rewrite Hs, Ht, structure_text_string.
    pose proof (placeholder_long env info url) as Hlong. fold placeholder in Hlong.
    apply Z.ltb_ge in Hlong. rewrite Hlong, Hstruct. reflexivity. }
  destruct Hex as (title & company & Hex).
  eexists. split.
  { unfold JDExtractorAgent.run, JDExtractorAgent.agent_name.
    rewrite (run_success env _ _ _ _ _ _ Hex). subst tr0. by rewrite <- !app_assoc. }
  split; [apply success_envelope_success|].
  rewrite success_envelope_payload by key_ne. rewrite apply_hints_other by key_ne.
  apply merge_results_keeps_default.
  unfold JDExtractorAgent.default_result. lookup_env. by eexists.
Qed.

Lemma X16_witness :
  envelope_of (JDExtractorAgent.run (env_of None 503)
                 (jd_request "https://www.glassdoor.com/job-listing/x" "") [])
    !! "success" = Some (PBool true).
Proof.
  destruct (X16_known_host_failure_resolves (env_of None 503)
              (jd_request "https://www.glassdoor.com/job-listing/x" "") []
              "https://www.glassdoor.com/job-listing/x"
              (<["source" := PStr "Glassdoor"]> ∅))
    as (posting & Hrun & Hs & _);
    [reflexivity | vm_compute; discriminate | vm_compute; reflexivity
     | vm_compute; reflexivity |].
  unfold envelope_of. rewrite Hrun. exact Hs.
Defined.

(* ===================================================================== *)
(** ** Further properties: what the URL tells *)
(* ===================================================================== *)

Lemma drop_prefix_sound p s s' : Re.drop_prefix p s = Some s' -> s = p ++ s'.
Proof.
  revert s. induction p as [|a p IH]; intros s; cbn.
  - by intros [= ->].
  - destruct s as [|b s]; [discriminate|].
    destruct (Ascii.eqb a b) eqn:Hab; [|discriminate].
    apply Ascii.eqb_eq in Hab as ->. intros H.
    change (String b s = String b (p ++ s')). f_equal. by apply IH.
Qed.

Lemma all_app p a b : Chars.all p (a ++ b) = Chars.all p a && Chars.all p b.
Proof.
  induction a as [|c a IH]; [reflexivity|].
  change (String c a ++ b) with (String c (a ++ b)). cbn [Chars.all].
  by rewrite IH, andb_assoc.
Qed.

(** What a greedy repetition consumed: a non-empty text of the class,
    followed in the input by what the continuation was run on. *)
Lemma plus_then_sound {A} cls (k : string -> string -> option A) taken s r :
  Re.plus_then cls k taken s = Some r ->
  exists g s',
    g ≠ "" /\ Chars.all cls g = true /\ s = g ++ s' /\ k (taken ++ g) s' = Some r.
Proof.
  revert taken. induction s as [|c s IH]; intros taken; cbn [Re.plus_then]; [done|].
  destruct (cls c) eqn:Hc; [|done].
  destruct (Re.plus_then cls k (taken ++ String c "") s) as [r0|] eqn:Hmore.
  - intros [= ->]. destruct (IH _ Hmore) as (g & s' & _ & Hg & -> & Hk).
    exists (String c g), s'. split; [done|]. split; [cbn; by rewrite Hc, Hg|].
    split; [reflexivity|]. by rewrite append_assoc in Hk.
  - intros Hk. exists (String c ""), s. split; [done|].
    split; [cbn; by rewrite Hc|]. by split.
Qed.

Lemma search_sound items s groups :
  Re.search items s = Some groups ->
  exists pre s', s = pre ++ s' /\ Re.match_here items [] s' = Some groups.
Proof.
  induction s as [|c s IH]; cbn [Re.search].
  - destruct (Re.match_here items [] "") eqn:H; [|done]. intros [= ->].
    by exists "", "".
  - destruct (Re.match_here items [] (String c s)) eqn:H.
    + intros [= ->]. by exists "", (String c s).
    + intros Hs. destruct (IH Hs) as (pre & s' & -> & Hm).
      by exists (String c pre), s'.
Qed.

(** A match of the slug pattern: where its two groups stand in the URL. *)
Lemma title_re_sound url groups :
  Re.search Re.title_re url = Some groups ->
  exists pre t c digits post,
    groups = [t; c] /\
    url = pre ++ "/jobs/view/" ++ t ++ "-at-" ++ c ++ "-" ++ digits ++ post /\
    t ≠ "" /\ Chars.all Re.not_slash t = true /\
    c ≠ "" /\ Chars.all Re.not_slash c = true /\
    digits ≠ "" /\ Chars.all Str.is_digit digits = true.
Proof.
  intros H. apply search_sound in H as (pre & s & -> & H).
  unfold Re.title_re in H. cbn [Re.match_here] in H.
  destruct (Re.drop_prefix "/jobs/view/" s) as [s1|] eqn:H1; [|done].
  apply drop_prefix_sound in H1 as ->.
  apply plus_then_sound in H as (t & s2 & Ht & Hta & -> & H). cbn [app] in H.
  destruct (Re.drop_prefix "-at-" s2) as [s3|] eqn:H3; [|done].
  apply drop_prefix_sound in H3 as ->.
  apply plus_then_sound in H as (c & s4 & Hc & Hca & -> & H). cbn [app] in H.
  destruct (Re.drop_prefix "-" s4) as [s5|] eqn:H5; [|done].
  apply drop_prefix_sound in H5 as ->.
  apply plus_then_sound in H as (digits & post & Hd & Hda & -> & H).
  cbn in H. injection H as <-.
  exists pre, t, c, digits, post. by repeat split.
Qed.

Lemma replace_char_length a b s :
  String.length (Str.replace_char a b s) = String.length s.
Proof. induction s as [|c s IH]; cbn; [reflexivity | by rewrite IH]. Qed.

(** Title-casing never shortens a text (the title case of the code point
    223 is two letters). *)
Lemma title_from_length flag s :
  (String.length s <= String.length (Str.title_from flag s))%nat.
Proof.
  revert flag. induction s as [|c s IH]; intros flag; cbn [Str.title_from]; [reflexivity|].
  rewrite append_length. specialize (IH (Str.is_cased c)).
  destruct flag; [cbn; lia|]. unfold Str.to_title.
  destruct (_ =? 223)%nat; cbn; lia.
Qed.

Lemma replace_hyphen_none s :
  Chars.all Chars.not_hyphen (Str.replace_char "-"%char " "%char s) = true.
Proof.
  induction s as [|c s IH]; [reflexivity|]. cbn [Str.replace_char Chars.all].
  rewrite IH, andb_true_r. unfold Chars.not_hyphen.
  destruct (Ascii.eqb c "-") eqn:Hc; [reflexivity | by rewrite Hc].
Qed.

Lemma to_title_no_hyphen c :
  Chars.not_hyphen c = true -> Chars.all Chars.not_hyphen (Str.to_title c) = true.
Proof. destruct c as [[] [] [] [] [] [] [] []]; by vm_compute. Qed.

Lemma to_lower_not_hyphen c :
  Chars.not_hyphen c = true -> Chars.not_hyphen (Str.to_lower c) = true.
Proof. destruct c as [[] [] [] [] [] [] [] []]; by vm_compute. Qed.

Lemma title_from_no_hyphen flag s :
  Chars.all Chars.not_hyphen s = true -> Chars.all Chars.not_hyphen (Str.title_from flag s) = true.
Proof.
  revert flag. induction s as [|c s IH]; intros flag; [reflexivity|].
  cbn [Chars.all Str.title_from]. intros [Hc Hs]%andb_true_iff.
  rewrite all_app, (IH _ Hs), andb_true_r.
  destruct flag; [|by apply to_title_no_hyphen].
  cbn [Chars.all]. by rewrite (to_lower_not_hyphen c Hc).
Qed.

(** X17. A title that [_parse_url_info] reports was read from the URL: the
    URL is a LinkedIn one holding "/jobs/view/T-at-C-DIGITS" where T and C
    are non-empty and free of '/', and the title and company are T and C
    with their hyphens replaced by spaces and their words put in title
    case; the title is not shorter than T and has no hyphen.  The URL is
    taken without the two code points whose title case lies above 255. *)
Theorem X17_parsed_title_read_from_slug env url info title :
  Chars.all Str.title_closed url = true ->
  WebScraperService._parse_url_info env url = Some info ->
  info !! "title" = Some (PStr title) ->
  exists pre t c digits post,
    url = pre ++ "/jobs/view/" ++ t ++ "-at-" ++ c ++ "-" ++ digits ++ post /\
    Str.contains "linkedin.com" url = true /\
    t ≠ "" /\ Chars.all Re.not_slash t = true /\
    c ≠ "" /\ Chars.all Re.not_slash c = true /\
    digits ≠ "" /\ Chars.all Str.is_digit digits = true /\
    Chars.all Str.title_closed t = true /\ Chars.all Str.title_closed c = true /\
    title = WebScraperService.slug_words t /\
    info !! "company" = Some (PStr (WebScraperService.slug_words c)) /\
    (String.length t <= String.length title)%nat /\
    Chars.all Chars.not_hyphen title = true.
Proof.
  intros Hclosed. unfold WebScraperService._parse_url_info.
  destruct (urlparse env url) as [[path query]|]; [|discriminate].
  destruct (Str.contains "linkedin.com" url) eqn:Hl.
  - destruct (Re.search Re.title_re url) as [groups|] eqn:Hs.
    + destruct (title_re_sound url groups Hs)
        as (pre & t & c & digits & post & -> & Hurl & Ht & Hta & Hc & Hca & Hd & Hda).
      rewrite bool_decide_eq_false_2 by apply insert_non_empty.
      intros [= <-]. rewrite lookup_insert_ne, lookup_insert_eq by key_ne.
      intros [= <-]. exists pre, t, c, digits, post.
      rewrite Hurl, !all_app in Hclosed.
      repeat match goal with
             | H : _ && _ = true |- _ => apply andb_true_iff in H as [? ?]
             end.
      split; [exact Hurl|]. repeat split; try done.
      * by lookup_env.
      * unfold WebScraperService.slug_words, Str.title.
        rewrite <- (replace_char_length "-" " " t) at 1. apply title_from_length.
      * unfold WebScraperService.slug_words, Str.title.
        apply title_from_no_hyphen, replace_hyphen_none.
    + destruct (Re.search Re.job_id_re url) as [[|g [|? ?]]|];
        (destruct (bool_decide _); [discriminate|]); intros [= <-];
        rewrite ?lookup_insert_ne by key_ne; by rewrite ?lookup_empty.
  - destruct (Str.contains "indeed.com" url).
    + destruct (default [""] (parse_qs env query !! "jk")) as [|jk ?]; [discriminate|].
      destruct (negb (jk =? "")%string);
        (destruct (bool_decide _); [discriminate|]); intros [= <-];
        rewrite ?lookup_insert_ne by key_ne; by rewrite ?lookup_empty.
    + destruct (Str.contains "glassdoor.com" url);
        (destruct (bool_decide _); [discriminate|]); intros [= <-];
        rewrite ?lookup_insert_ne by key_ne; by rewrite ?lookup_empty.
Qed.

Lemma X17_witness :
  exists pre t c digits post,
    slug_url = pre ++ "/jobs/view/" ++ t ++ "-at-" ++ c ++ "-" ++ digits ++ post /\
    "Software Engineer" = WebScraperService.slug_words t.
Proof.
  destruct (X17_parsed_title_read_from_slug (env_of None 404) slug_url
              (<["company" := PStr "Acme Corp"]>
               (<["title" := PStr "Software Engineer"]>
                (<["source" := PStr "LinkedIn"]> ∅)))
              "Software Engineer")
    as (pre & t & c & digits & post & Hurl & _ & _ & _ & _ & _ & _ & _ & _ & _ & Ht & _);
    [vm_compute; reflexivity | vm_compute; reflexivity | vm_compute; reflexivity |].
  by exists pre, t, c, digits, post.
Defined.

(** X18. [_parse_url_info] is [None] when [urlparse] raises and for every
    URL that names none of the three hosts; what it returns otherwise
    names, under [source], a host that occurs in the URL. *)
Theorem X18_url_info_names_a_known_host env url :
  (urlparse env url = None -> WebScraperService._parse_url_info env url = None) /\
  (Posting.unknown_host url = true -> WebScraperService._parse_url_info env url = None) /\
  match WebScraperService._parse_url_info env url with
  | Some info =>
      exists host source,
        (host, source) ∈ [("linkedin.com", "LinkedIn"); ("indeed.com", "Indeed");
                          ("glassdoor.com", "Glassdoor")] /\
        Str.contains host url = true /\
        info !! "source" = Some (PStr source)
  | None => True
  end.
Proof.
  split; [|split].
  - intros H. unfold WebScraperService._parse_url_info. by rewrite H.
  - apply parse_url_info_unknown_host.
  - unfold WebScraperService._parse_url_info.
    destruct (urlparse env url) as [[path query]|]; [|done].
    destruct (Str.contains "linkedin.com" url) eqn:Hl.
    { assert (Hin : ("linkedin.com", "LinkedIn")
                    ∈ [("linkedin.com", "LinkedIn"); ("indeed.com", "Indeed");
                       ("glassdoor.com", "Glassdoor")]) by set_solver.
      destruct (Re.search Re.title_re url) as [[|t [|c [|? ?]]]|];
        destruct (Re.search Re.job_id_re url) as [[|g [|? ?]]|];
        (destruct (bool_decide _); [done|]);
        exists "linkedin.com", "LinkedIn"; (split; [exact Hin|]); (split; [exact Hl|]);
        by lookup_env. }
    destruct (Str.contains "indeed.com" url) eqn:Hi.
    { assert (Hin : ("indeed.com", "Indeed")
                    ∈ [("linkedin.com", "LinkedIn"); ("indeed.com", "Indeed");
                       ("glassdoor.com", "Glassdoor")]) by set_solver.
      destruct (default [""] (parse_qs env query !! "jk")) as [|jk ?]; [done|].
      destruct (negb (jk =? "")%string);
        (destruct (bool_decide _); [done|]);
        exists "indeed.com", "Indeed"; (split; [exact Hin|]); (split; [exact Hi|]);
        by lookup_env. }
    destruct (Str.contains "glassdoor.com" url) eqn:Hg.
    { assert (Hin : ("glassdoor.com", "Glassdoor")
                    ∈ [("linkedin.com", "LinkedIn"); ("indeed.com", "Indeed");
                       ("glassdoor.com", "Glassdoor")]) by set_solver.
      destruct (bool_decide _); [done|].
      exists "glassdoor.com", "Glassdoor". split; [exact Hin|]. split; [exact Hg|].
      by lookup_env. }
    by rewrite bool_decide_eq_true_2.
Qed.

(* ===================================================================== *)
(** ** Further properties: the resolution as the API calls it *)
(* ===================================================================== *)

Lemma py_or_optional o : exists s, ResumeAPI.py_or (ResumeAPI.of_optional o) (PStr "") = PStr s.
Proof.
  destruct o as [s|]; [|by exists ""]. unfold ResumeAPI.py_or. cbn [ResumeAPI.of_optional].
  destruct (truthy (PStr s)); by eexists.
Qed.

Lemma jd_input_url request :
  exists u, get_or (ResumeAPI.jd_input request) "job_url" (PStr "") = PStr u.
Proof.
  destruct (py_or_optional (ResumeAPI.job_url request)) as (u & Hu). exists u.
  unfold get_or, ResumeAPI.jd_input. rewrite lookup_insert_eq. exact Hu.
Qed.

Lemma jd_input_text request :
  exists t, get_or (ResumeAPI.jd_input request) "job_description_text" (PStr "") = PStr t.
Proof.
  destruct (py_or_optional (ResumeAPI.job_description request)) as (t & Ht). exists t.
  unfold get_or, ResumeAPI.jd_input. rewrite lookup_insert_ne, lookup_insert_eq by key_ne.
  exact Ht.
Qed.

Section ApiResolution.
Variable env : Env.

Lemma structure_text_outcome text title company tr :
  (exists posting tr', Resolution.structure_text env (PStr text) title company tr
                       = (Ok posting, tr')) \/
  Resolution.structure_text env (PStr text) title company tr
  = (Raise JDExtractorAgent.no_description, tr).
Proof.
  rewrite structure_text_string.
  destruct (Str.len (Str.strip text) <? 20); [by right|]. left.
  destruct (structure_job_data_merges env text tr) as (result & _ & ->). by eexists _, _.
Qed.

Lemma api_execute_outcome request tr :
  (exists posting tr', JDExtractorAgent.execute env (ResumeAPI.jd_input request) tr
                       = (Ok posting, tr')) \/
  (exists e tr', JDExtractorAgent.execute env (ResumeAPI.jd_input request) tr
                 = (Raise e, tr') /\
                 exn_type e = "ValueError" /\
                 (e = JDExtractorAgent.no_description \/
                  exists m, exn_msg e = "Could not extract job from URL: " ++ m)).
Proof.
  destruct (jd_input_url request) as (u & Hu).
  destruct (jd_input_text request) as (t & Ht).
  remember (JDExtractorAgent.execute env (ResumeAPI.jd_input request) tr) as r eqn:Hr.
  destruct (decide (Str.strip u = "")) as [Hblank|Hurl].
  - rewrite (execute_no_url env _ tr u Hu Hblank), Ht in Hr.
    destruct (structure_text_outcome t
                (get_or (ResumeAPI.jd_input request) "job_title" (PStr ""))
                (get_or (ResumeAPI.jd_input request) "company_name" (PStr "")) tr)
      as [(posting & tr' & Hok) | Hfail]; rewrite ?Hok, ?Hfail in Hr; subst r.
    + left. by eexists _, _.
    + right. eexists _, _. split; [reflexivity|]. split; [reflexivity | by left].
  - rewrite (execute_url env _ tr u Hu Hurl) in Hr.
    destruct (scrape_shape env (Str.strip u) tr)
      as (result & b & text & Hfetch & Hb & Htext & _ & _).
    rewrite Hfetch in Hr. unfold get in Hr. rewrite Hb in Hr.
    cbn [default from_option id truthy] in Hr.
    destruct b.
    + unfold get_or at 1 in Hr. rewrite Htext in Hr. cbn [default from_option id] in Hr.
      match type of Hr with
      | context [Resolution.structure_text env (PStr text) ?a ?c ?tr1] =>
          destruct (structure_text_outcome text a c tr1)
            as [(posting & tr' & Hok) | Hfail]; rewrite ?Hok, ?Hfail in Hr; subst r
      end.
      * left. by eexists _, _.
      * right. eexists _, _. split; [reflexivity|]. split; [reflexivity | by left].
    + subst r. right. eexists _, _. split; [reflexivity|]. split; [reflexivity|].
      right. by eexists.
Qed.

End ApiResolution.

(** X19. Called by [generate_resume], the job-description stage fails in
    two ways only: whatever the request, the page and the provider are,
    [run] answers an envelope that reports success or a [ValueError],
    which is either the missing-description error or the "Could not
    extract job from URL: ..." error (never an [AttributeError] or a
    [TypeError] on a field of the request). *)
Theorem X19_api_resolution_fails_only_by_ValueError env request tr :
  exists envelope tr',
    JDExtractorAgent.run env (ResumeAPI.jd_input request) tr = (Ok envelope, tr') /\
    (envelope !! "success" = Some (PBool true) \/
     envelope !! "success" = Some (PBool false) /\
     envelope !! "error_type" = Some (PStr "ValueError") /\
     exists msg,
       envelope !! "error" = Some (PStr msg) /\
       (msg = exn_msg JDExtractorAgent.no_description \/
        exists m, msg = "Could not extract job from URL: " ++ m)).
Proof.
  unfold JDExtractorAgent.run.
  destruct (api_execute_outcome env request (tr ++ [EvLog JDExtractorAgent.agent_name "START"]))
    as [(posting & tr' & H) | (e & tr' & H & Hty & Hmsg)].
  - rewrite (run_success env _ _ _ _ _ _ H). eexists _, _. split; [reflexivity|].
    left. apply success_envelope_success.
  - rewrite (run_error env _ _ _ _ _ _ H). eexists _, _. split; [reflexivity|].
    right. split; [apply error_envelope_success|].
    split; [by rewrite error_envelope_type, Hty|].
    exists (exn_msg e). split; [apply error_envelope_error|].
    destruct Hmsg as [-> | Hm]; [by left | by right].
Qed.

(* ===================================================================== *)
(** ** Further properties: the fallback gap analysis *)
(* ===================================================================== *)

Lemma mem_true s l : GapFallback.mem s l = true <-> s ∈ l.
Proof.
  unfold GapFallback.mem. rewrite existsb_exists. split.
  - intros (x & Hin & ->%String.eqb_eq). by apply list_elem_of_In.
  - intros Hin. exists s. split; [by apply list_elem_of_In | apply String.eqb_refl].
Qed.

Lemma related_true candidate_skills s :
  GapFallback.related (map GapFallback.lower candidate_skills) s = true <->
  exists c, c ∈ candidate_skills /\
            (Str.contains (GapFallback.lower s) (GapFallback.lower c) = true \/
             Str.contains (GapFallback.lower c) (GapFallback.lower s) = true).
Proof.
  unfold GapFallback.related. rewrite existsb_exists. split.
  - intros (x & Hin & H). apply in_map_iff in Hin as (c & <- & Hc).
    exists c. split; [by apply list_elem_of_In|]. by apply orb_true_iff.
  - intros (c & Hc & H). exists (GapFallback.lower c).
    split; [apply in_map; by apply list_elem_of_In | by apply orb_true_iff].
Qed.

Lemma filter_agree {A} (P Q : A -> Prop) `{forall x, Decision (P x)}
    `{forall x, Decision (Q x)} (l : list A) :
  (forall x, x ∈ l -> P x <-> Q x) -> filter P l = filter Q l.
Proof.
  induction l as [|x l IH]; intros Hall; [reflexivity|].
  rewrite !filter_cons. rewrite IH by (intros y Hy; apply Hall; by right).
  pose proof (Hall x (list_elem_of_here _ _)) as Hx.
  destruct (decide (P x)) as [HP|HP], (decide (Q x)) as [HQ|HQ]; try reflexivity;
    exfalso; tauto.
Qed.

(** [s not in matching], for a job skill, says that it is not related. *)
Lemma missing_of_unrelated candidate_skills job_skills :
  GapFallback.missing_of candidate_skills job_skills
  = filter (fun s => ¬ GapFallback.related (map GapFallback.lower candidate_skills) s = true)
      job_skills.
Proof.
  unfold GapFallback.missing_of. cbv zeta. apply filter_agree. intros s Hs.
  rewrite <- not_true_iff_false, mem_true. unfold GapFallback.matching_of.
  cbv zeta. rewrite list_elem_of_filter. tauto.
Qed.

Lemma take_map_PStr n (l : list string) : map PStr (take n l) = PStr <$> take n l.
Proof. reflexivity. Qed.

(** X20. The fallback analysis splits the job skills in two: a job skill
    is matching exactly when its lower-cased text contains, or is contained
    in, the lower-cased text of a candidate skill, and missing otherwise.
    No skill is on both sides, nothing is lost or invented, and the two
    lists reported are the first ten of each side. *)
Theorem X20_fallback_splits_job_skills candidate_skills job_skills job_data :
  exists matching missing,
    let r := GapFallback._get_fallback_gap_analysis candidate_skills job_skills job_data in
    r !! "matching_skills" = Some (PList (PStr <$> take 10 matching)) /\
    r !! "missing_skills" = Some (PList (PStr <$> take 10 missing)) /\
    matching ++ missing ≡ₚ job_skills /\
    (forall s, s ∈ matching -> s ∉ missing) /\
    (forall s, s ∈ matching <->
       s ∈ job_skills /\
       exists c, c ∈ candidate_skills /\
         (Str.contains (GapFallback.lower s) (GapFallback.lower c) = true \/
          Str.contains (GapFallback.lower c) (GapFallback.lower s) = true)).
Proof.
  exists (GapFallback.matching_of candidate_skills job_skills),
         (GapFallback.missing_of candidate_skills job_skills).
  cbv zeta. unfold GapFallback._get_fallback_gap_analysis. cbv zeta.
  split; [by lookup_env|]. split; [by lookup_env|].
  rewrite missing_of_unrelated. unfold GapFallback.matching_of. cbv zeta.
  split; [apply filter_app_complement|].
  split.
  - intros s [Hr _]%list_elem_of_filter [Hn _]%list_elem_of_filter. by apply Hn.
  - intros s. rewrite list_elem_of_filter, related_true. tauto.
Qed.

(** X21. The fallback analysis recommends a training exactly when a job
    skill is missing; the recommendation and the course then name the first
    missing skill.  Strengths and priority gaps are the first five matching
    and the first five missing skills. *)
Theorem X21_fallback_recommends_first_missing candidate_skills job_skills job_data :
  let r := GapFallback._get_fallback_gap_analysis candidate_skills job_skills job_data in
  let matching := GapFallback.matching_of candidate_skills job_skills in
  let missing := GapFallback.missing_of candidate_skills job_skills in
  r !! "strengths" = Some (PList (GapFallback.strength <$> take 5 matching)) /\
  r !! "priority_gaps" = Some (PList (GapFallback.priority_gap <$> take 5 missing)) /\
  match missing with
  | [] =>
      r !! "recommendations" = Some (PList []) /\
      forall s, s ∈ job_skills -> s ∈ matching
  | first :: _ =>
      exists recommendation course,
        r !! "recommendations" = Some (PList [PDict recommendation]) /\
        recommendation !! "title" = Some (PStr ("Learn " ++ first)) /\
        r !! "training_courses" = Some (PList [PDict course]) /\
        course !! "skill_covered" = Some (PStr first) /\
        first ∈ job_skills /\ first ∉ matching
  end.
Proof.
  cbv zeta. unfold GapFallback._get_fallback_gap_analysis. cbv zeta.
  split; [by lookup_env|]. split; [by lookup_env|].
  destruct (GapFallback.missing_of candidate_skills job_skills) as [|first rest] eqn:Hm.
  - split; [by lookup_env|]. intros s Hs.
    destruct (decide (s ∈ GapFallback.matching_of candidate_skills job_skills))
      as [Hin|Hout]; [exact Hin|].
    assert (Hmem : s ∈ GapFallback.missing_of candidate_skills job_skills).
    { unfold GapFallback.missing_of. cbv zeta. apply list_elem_of_filter.
      split; [|exact Hs]. apply not_true_iff_false. by rewrite mem_true. }
    rewrite Hm in Hmem. by apply elem_of_nil in Hmem.
  - assert (Hin : first ∈ GapFallback.missing_of candidate_skills job_skills)
      by (rewrite Hm; by left).
    unfold GapFallback.missing_of in Hin. cbv zeta in Hin.
    apply list_elem_of_filter in Hin as [Hnot Hjob].
    apply not_true_iff_false in Hnot. rewrite mem_true in Hnot.
    eexists _, _. split; [by lookup_env|]. split; [by lookup_env|].
    split; [by lookup_env|]. split; [by lookup_env|]. by split.
Qed.

(** X22. The roadmap shows no more than the first four missing skills:
    two lists that agree on their first four entries get the same text
    (the fifth entry of [missing_skills[:5]] is never shown). *)
Theorem X22_roadmap_reads_four_skills (l1 l2 : list string) :
  take 4 l1 = take 4 l2 ->
  GapFallback._get_fallback_roadmap l1 = GapFallback._get_fallback_roadmap l2.
Proof.
  destruct l1 as [|a1 [|b1 [|c1 [|d1 l1]]]], l2 as [|a2 [|b2 [|c2 [|d2 l2]]]];
    cbn [take]; intros H; try discriminate H; try (injection H as -> -> -> ->);
    try (injection H as -> -> ->); try (injection H as -> ->);
    try (injection H as ->); reflexivity.
Qed.

Lemma X22_witness :
  GapFallback._get_fallback_roadmap ["Go"; "Rust"; "SQL"; "Kafka"; "Zig"]
  = GapFallback._get_fallback_roadmap ["Go"; "Rust"; "SQL"; "Kafka"; "Ada"; "Nim"].
Proof. apply X22_roadmap_reads_four_skills. reflexivity. Defined.

Lemma contains_empty s : Str.contains "" s = true.
Proof. destruct s; reflexivity. Qed.

Lemma filter_all {A} (P : A -> Prop) `{forall x, Decision (P x)} (l : list A) :
  (forall x, x ∈ l -> P x) -> filter P l = l.
Proof.
  induction l as [|x l IH]; intros Hall; [reflexivity|].
  rewrite filter_cons_True by (apply Hall; by left).
  f_equal. apply IH. intros y Hy. apply Hall. by right.
Qed.

Lemma filter_none {A} (P : A -> Prop) `{forall x, Decision (P x)} (l : list A) :
  (forall x, x ∈ l -> ¬ P x) -> filter P l = [].
Proof.
  induction l as [|x l IH]; intros Hall; [reflexivity|].
  rewrite filter_cons_False by (apply Hall; by left).
  apply IH. intros y Hy. apply Hall. by right.
Qed.

(** X23. An empty text among the candidate's skills is contained in every
    text: every job skill then counts as matching and none as missing. *)
Theorem X23_blank_candidate_skill_matches_all candidate_skills job_skills job_data :
  "" ∈ candidate_skills ->
  let r := GapFallback._get_fallback_gap_analysis candidate_skills job_skills job_data in
  GapFallback.matching_of candidate_skills job_skills = job_skills /\
  r !! "matching_skills" = Some (PList (PStr <$> take 10 job_skills)) /\
  r !! "missing_skills" = Some (PList []) /\
  r !! "recommendations" = Some (PList []).
Proof.
  intros Hblank. cbv zeta.
  assert (Hall : GapFallback.matching_of candidate_skills job_skills = job_skills).
  { unfold GapFallback.matching_of. cbv zeta. apply filter_all. intros s _.
    apply related_true. exists "". split; [exact Hblank|]. right. apply contains_empty. }
  assert (Hnone : GapFallback.missing_of candidate_skills job_skills = []).
  { unfold GapFallback.missing_of. cbv zeta. rewrite Hall. apply filter_none.
    intros s Hs. apply not_false_iff_true. by apply mem_true. }
  split; [exact Hall|].
  unfold GapFallback._get_fallback_gap_analysis. cbv zeta. rewrite Hall, Hnone.
  split; [by lookup_env|]. split; by lookup_env.
Qed.

Lemma X23_witness :
  GapFallback.matching_of ["Python"; ""] ["Go"; "Rust"] = ["Go"; "Rust"].
Proof.
  apply (X23_blank_candidate_skill_matches_all ["Python"; ""] ["Go"; "Rust"] ∅).
  set_solver.
Defined.

Lemma percent_zero n : GapFallback.percent 0 n = 0.
Proof.
  unfold GapFallback.percent.
  change (GapFallback.float_of_Z 0) with (SpecFloat.S754_zero false).
  destruct (GapFallback.float_of_Z n) as [s| s | |s m e]; reflexivity.
Qed.

(** X24. A candidate without skills: every job skill is missing, and the
    match percentage is 0 when the job lists a skill and 50 when it lists
    none. *)
Theorem X24_no_candidate_skill job_skills job_data :
  let r := GapFallback._get_fallback_gap_analysis [] job_skills job_data in
  r !! "matching_skills" = Some (PList []) /\
  r !! "missing_skills" = Some (PList (PStr <$> take 10 job_skills)) /\
  r !! "match_percentage" = Some (PInt (if decide (job_skills = []) then 50 else 0)).
Proof.
  cbv zeta.
  assert (Hnone : GapFallback.matching_of [] job_skills = []).
  { unfold GapFallback.matching_of. cbv zeta. apply filter_none. by intros s _. }
  assert (Hall : GapFallback.missing_of [] job_skills = job_skills).
  { unfold GapFallback.missing_of. cbv zeta. rewrite Hnone. by apply filter_all. }
  unfold GapFallback._get_fallback_gap_analysis. cbv zeta. rewrite Hnone, Hall.
  split; [by lookup_env|]. split; [by lookup_env|].
  rewrite lookup_insert_eq. do 2 f_equal.
  destruct job_skills as [|s l]; [reflexivity|].
  rewrite decide_False by done. cbn [GapFallback.match_pct length]. apply percent_zero.
Qed.

Example percent_examples :
  GapFallback.percent 29 100 = 28 /\ GapFallback.percent 57 100 = 56 /\
  GapFallback.percent 1 3 = 33 /\ GapFallback.percent 7 7 = 100.
Proof. vm_compute. by repeat split. Qed.

(* ===================================================================== *)
(** ** Further properties: the generator stage as the API calls it *)
(* ===================================================================== *)

Lemma truthy_dict_lookup (d : gmap string pyval) k v :
  d !! k = Some v -> truthy (PDict d) = true.
Proof.
  intros H. cbn [truthy]. rewrite bool_decide_eq_false_2; [reflexivity|].
  intros ->. by rewrite lookup_empty in H.
Qed.

(** X25. With the input [generate_resume] builds, the generator stage never
    answers its own "job_data and profile required" error: the profile
    dictionary and a successful job envelope are not empty, so the stage
    asks for the resume content, and it succeeds (with that content and
    [iteration] 1) or fails exactly as that request does. *)
Theorem X25_api_generator_input_valid env profile (jd_result : gmap string pyval) tr :
  truthy (get jd_result "success") = true ->
  ResumeGeneratorAgent.run env
    (<["profile" := PDict (ResumeAPI.profile_dict profile)]>
     (<["job_data" := PDict jd_result]> ∅)) tr
  = match generate_resume_content env (PDict (ResumeAPI.profile_dict profile))
            (PDict jd_result) (tr ++ [EvLog "Resume_Generator" "START"])%list with
    | (Ok resume_content, tr1) =>
        (Ok (BaseAgent.success_envelope env "Resume_Generator"
               (<["resume_content" := resume_content]> (<["iteration" := PInt 1]> ∅)) tr1),
         (tr1 ++ [EvLog "Resume_Generator" "SUCCESS"])%list)
    | (Raise e, tr1) =>
        (Ok (BaseAgent.error_envelope env "Resume_Generator" e tr1),
         (tr1 ++ [EvLog "Resume_Generator" "ERROR"])%list)
    end.
Proof.
  intros Hs.
  assert (Hjob : truthy (PDict jd_result) = true).
  { unfold get in Hs. destruct (jd_result !! "success") as [v|] eqn:Hv; [|discriminate].
    by apply (truthy_dict_lookup _ "success" v). }
  assert (Hprofile : truthy (PDict (ResumeAPI.profile_dict profile)) = true).
  { apply (truthy_dict_lookup _ "full_name" (ResumeAPI.full_name profile)).
    unfold ResumeAPI.profile_dict. apply lookup_insert_eq. }
  unfold ResumeGeneratorAgent.run, BaseAgent.run, ResumeGeneratorAgent.agent_name,
    ResumeGeneratorAgent.execute.
  unfold get. rewrite lookup_insert_eq, lookup_insert_ne, lookup_insert_eq by key_ne.
  cbn [default from_option id]. rewrite Hjob, Hprofile. cbn [negb orb].
  unfold bind, ret.
  by destruct (generate_resume_content env _ _ _) as [[resume_content|e] tr1].
Qed.

Lemma X25_witness :
  ResumeGeneratorAgent.run env90
    (<["profile" := PDict (ResumeAPI.profile_dict Samples.profile0)]>
     (<["job_data" := PDict (<["success" := PBool true]> job0)]> ∅)) []
  = match generate_resume_content env90 (PDict (ResumeAPI.profile_dict Samples.profile0))
            (PDict (<["success" := PBool true]> job0))
            ([] ++ [EvLog "Resume_Generator" "START"])%list with
    | (Ok resume_content, tr1) =>
        (Ok (BaseAgent.success_envelope env90 "Resume_Generator"
               (<["resume_content" := resume_content]> (<["iteration" := PInt 1]> ∅)) tr1),
         (tr1 ++ [EvLog "Resume_Generator" "SUCCESS"])%list)
    | (Raise e, tr1) =>
        (Ok (BaseAgent.error_envelope env90 "Resume_Generator" e tr1),
         (tr1 ++ [EvLog "Resume_Generator" "ERROR"])%list)
    end.
Proof. apply X25_api_generator_input_valid. reflexivity. Defined.

(* ===================================================================== *)
(** ** The iteration cap *)
(* ===================================================================== *)


Section CapFacts.
Context (env : Env) (cfg : Settings).




End CapFacts.

